(** * nanobot: Claude Code OAuth provider

    A shallow embedding of [nanobot/providers/claude_code_auth.py] (the
    credential lifecycle: expiry test, refresh-token grant, write-back) and of
    [nanobot/providers/claude_code_provider.py] (the translation between the
    OpenAI-style message model and the Messages API, and the [chat]
    orchestrator with its single retry on 401).

    Python values that travel through the code are JSON values; [None] is
    [JNull].  JSON numbers are integers: the only numbers the code computes
    with are [expiresAt] (epoch milliseconds) and [expires_in] (seconds).
    A Python [dict] is an association list in insertion order.

    Effects are explicit: a state-and-exception monad over the clock, the
    credential store, the two HTTP endpoints and the trace of calls made.
    [platform.system()], [getpass.getuser()], [Path.home()] and
    [Path.exists()] are taken to return; everything else that can raise is
    modelled as raising. *)

From Stdlib Require Import ZArith List String Ascii Bool Lia DecimalString.
Import ListNotations.
Open Scope string_scope.
Open Scope list_scope.
Open Scope Z_scope.

(* ================================================================== *)
(** ** Values *)

#[warnings="-register-all"]
Inductive json : Type :=
| JNull
| JBool (b : bool)
| JNum (n : Z)
| JStr (s : string)
| JArr (items : list json)
| JObj (fields : list (string * json)).

Definition dict : Type := list (string * json).

(** Exceptions the modelled code can meet.  [TransportError] stands for
    whatever the HTTP client raises on a timeout or a connection error. *)
Inductive exn : Type :=
| KeyError (key : string)
| TypeError
| AttributeError
| JSONDecodeError
| RecursionError
| ValueError
| OSError
| TimeoutExpired
| TransportError (msg : string).

Inductive result (A : Type) : Type :=
| Ok (a : A)
| Raise (e : exn).
Arguments Ok {A} a.
Arguments Raise {A} e.

Definition rbind {A B} (r : result A) (k : A -> result B) : result B :=
  match r with
  | Ok a => k a
  | Raise e => Raise e
  end.

Declare Scope result_scope.
Delimit Scope result_scope with res.
Notation "x <- e ;; k" := (rbind e (fun x => k))
  (at level 61, e at next level, right associativity) : result_scope.

Fixpoint rmap {A B} (f : A -> result B) (l : list A) : result (list B) :=
  match l with
  | [] => Ok []
  | a :: l' =>
      (b <- f a ;;
       bs <- rmap f l' ;;
       Ok (b :: bs))%res
  end.

(** The interpreter's library, which is not part of the repository:
    [json.loads] (the value it returns, [None] when it raises, and the
    exception it raises then: [JSONDecodeError] for a text that is not
    JSON, [RecursionError] for one nested too deep, [ValueError] for an
    integer of too many digits), [json.dumps], and the text an exception
    formats to inside an f-string. *)
Class PyRuntime : Type := {
  json_loads : string -> option json;
  json_loads_error : string -> exn;
  json_dumps : json -> string;
  str_exn : exn -> string
}.

(** [json.loads(s)] *)
Definition py_json_loads `{PyRuntime} (s : string) : result json :=
  match json_loads s with
  | Some v => Ok v
  | None => Raise (json_loads_error s)
  end.

(* ------------------------------------------------------------------ *)
(** *** Python primitives on values *)

Definition nonempty_str (s : string) : bool :=
  match s with
  | EmptyString => false
  | String _ _ => true
  end.

(** [bool(v)] *)
Definition truthy (v : json) : bool :=
  match v with
  | JNull => false
  | JBool b => b
  | JNum n => negb (n =? 0)
  | JStr s => nonempty_str s
  | JArr [] => false
  | JArr (_ :: _) => true
  | JObj [] => false
  | JObj (_ :: _) => true
  end.

Fixpoint dict_find (d : dict) (k : string) : option json :=
  match d with
  | [] => None
  | (k', v) :: d' => if String.eqb k' k then Some v else dict_find d' k
  end.

(** [d.get(k, default)] *)
Definition dict_get (d : dict) (k : string) (default : json) : json :=
  match dict_find d k with
  | Some v => v
  | None => default
  end.

(** [d[k]] *)
Definition dict_getitem (d : dict) (k : string) : result json :=
  match dict_find d k with
  | Some v => Ok v
  | None => Raise (KeyError k)
  end.

(** [k in d] *)
Definition dict_contains (d : dict) (k : string) : bool :=
  match dict_find d k with
  | Some _ => true
  | None => false
  end.

(** [d[k] = v]: an existing key keeps its place, a new one goes last. *)
Fixpoint dict_setitem (d : dict) (k : string) (v : json) : dict :=
  match d with
  | [] => [(k, v)]
  | (k', v') :: d' =>
      if String.eqb k' k then (k', v) :: d' else (k', v') :: dict_setitem d' k v
  end.

(** [v.get(k, default)] on an arbitrary value: only a dict has [get]. *)
Definition py_get (v : json) (k : string) (default : json) : result json :=
  match v with
  | JObj d => Ok (dict_get d k default)
  | _ => Raise AttributeError
  end.

(** [v[k]] with a string key on an arbitrary value. *)
Definition subscript (v : json) (k : string) : result json :=
  match v with
  | JObj d => dict_getitem d k
  | _ => Raise TypeError
  end.

Fixpoint chars (s : string) : list json :=
  match s with
  | EmptyString => []
  | String c s' => JStr (String c EmptyString) :: chars s'
  end.

(** [for x in v]: a list yields its items, a string its characters, a dict
    its keys; the other values are not iterable. *)
Definition py_iter (v : json) : result (list json) :=
  match v with
  | JArr l => Ok l
  | JStr s => Ok (chars s)
  | JObj d => Ok (map (fun kv => JStr (fst kv)) d)
  | _ => Raise TypeError
  end.

(** Integer value of a number; [bool] is a subclass of [int]. *)
Definition as_int (v : json) : option Z :=
  match v with
  | JNum n => Some n
  | JBool b => Some (if b then 1 else 0)
  | _ => None
  end.

(** [a + b] *)
Definition py_add (a b : json) : result json :=
  match as_int a, as_int b with
  | Some x, Some y => Ok (JNum (x + y))
  | _, _ =>
      match a, b with
      | JStr s, JStr t => Ok (JStr (s ++ t)%string)
      | JArr l, JArr m => Ok (JArr (l ++ m))
      | _, _ => Raise TypeError
      end
  end.

Fixpoint repeat_str (s : string) (n : nat) : string :=
  match n with
  | O => EmptyString
  | S n' => (s ++ repeat_str s n')%string
  end.

(** [v * n] for an int [n]: numbers multiply, sequences repeat. *)
Definition py_mul_int (v : json) (n : Z) : result json :=
  match v with
  | JNum x => Ok (JNum (x * n))
  | JBool b => Ok (JNum ((if b then 1 else 0) * n))
  | JStr s => Ok (JStr (repeat_str s (Z.to_nat n)))
  | JArr l => Ok (JArr (List.concat (repeat l (Z.to_nat n))))
  | _ => Raise TypeError
  end.

(** [a >= v] for an int [a] *)
Definition py_int_ge (a : Z) (v : json) : result bool :=
  match as_int v with
  | Some x => Ok (x <=? a)
  | None => Raise TypeError
  end.

(** Python's [str.isspace] on the code points below 256. *)
Definition is_space (c : ascii) : bool :=
  let n := nat_of_ascii c in
  ((9 <=? n) && (n <=? 13) || (28 <=? n) && (n <=? 32)
   || (n =? 133) || (n =? 160))%nat.

Fixpoint split_go (s : string) (word : string) : list string :=
  match s with
  | EmptyString => if nonempty_str word then [word] else []
  | String c s' =>
      if is_space c
      then (if nonempty_str word then word :: split_go s' EmptyString
            else split_go s' EmptyString)
      else split_go s' (word ++ String c EmptyString)%string
  end.

(** [s.split()]: the maximal runs of characters that are not whitespace. *)
Definition py_split (s : string) : list string := split_go s EmptyString.

Fixpoint lstrip (s : string) : string :=
  match s with
  | EmptyString => EmptyString
  | String c s' => if is_space c then lstrip s' else s
  end.

Fixpoint rstrip (s : string) : string :=
  match s with
  | EmptyString => EmptyString
  | String c s' =>
      match rstrip s' with
      | EmptyString => if is_space c then EmptyString else String c EmptyString
      | r => String c r
      end
  end.

(** [s.strip()] *)
Definition py_strip (s : string) : string := rstrip (lstrip s).

(** [sep.join(parts)]: every part must be a string. *)
Fixpoint py_join (sep : string) (parts : list json) : result string :=
  match parts with
  | [] => Ok EmptyString
  | JStr s :: [] => Ok s
  | JStr s :: rest => (r <- py_join sep rest ;; Ok (s ++ sep ++ r)%string)%res
  | _ :: _ => Raise TypeError
  end.

(** [s[:n]] *)
Definition str_prefix (n : nat) (s : string) : string := substring 0 n s.

(** The decimal text of an int, as an f-string prints it. *)
Definition str_int (z : Z) : string := NilZero.string_of_int (Z.to_int z).

(** [s.split("/", 1)[1]] when [s] holds a slash, else [s]. *)
Fixpoint after_slash (s : string) : option string :=
  match s with
  | EmptyString => None
  | String c s' => if Ascii.eqb c "/"%char then Some s' else after_slash s'
  end.

Definition strip_provider_prefix (model : string) : string :=
  match after_slash model with
  | Some rest => rest
  | None => model
  end.

(** [obj[k] = v] *)
Definition py_setitem (obj : json) (k : string) (v : json) : result json :=
  match obj with
  | JObj d => Ok (JObj (dict_setitem d k v))
  | _ => Raise TypeError
  end.

(** [v.split()] on an arbitrary value: only a string has [split]. *)
Definition py_split_method (v : json) : result json :=
  match v with
  | JStr s => Ok (JArr (map JStr (py_split s)))
  | _ => Raise AttributeError
  end.

(** [k in obj]; the code reaches it only with a dict [obj]. *)
Definition py_contains (obj : json) (k : string) : result bool :=
  match obj with
  | JObj d => Ok (dict_contains d k)
  | _ => Raise TypeError
  end.

(** [a == b].  Numbers compare by value with [True == 1]; dicts compare
    without regard to key order. *)
Fixpoint py_eq (a b : json) {struct a} : bool :=
  match a, b with
  | JNull, JNull => true
  | JStr s, JStr t => String.eqb s t
  | JArr l, JArr m =>
      (fix go (l : list json) (m : list json) : bool :=
         match l, m with
         | [], [] => true
         | x :: l', y :: m' => py_eq x y && go l' m'
         | _, _ => false
         end) l m
  | JObj d, JObj e =>
      (Nat.eqb (List.length d) (List.length e)) &&
      (fix go (d : list (string * json)) : bool :=
         match d with
         | [] => true
         | (k, v) :: d' =>
             match dict_find e k with
             | Some w => py_eq v w && go d'
             | None => false
             end
         end) d
  | _, _ =>
      match as_int a, as_int b with
      | Some x, Some y => x =? y
      | _, _ => false
      end
  end.

(* ================================================================== *)
(** ** The world the code runs in *)

(** An HTTP response as the code reads it: [status_code], [text], and
    [json()], which decodes [text]. *)
Record Response : Type := {
  status_code : Z;
  text : string
}.

Inductive HttpOutcome : Type :=
| Reply (r : Response)
| Fails (e : exn).

(** Which HTTP client the auth module manages to import. *)
Inductive HttpLib : Type := Httpx | Requests | NoHttpLib.

(** Outcome of [security add-generic-password]. *)
Inductive AddOutcome : Type := AddOk | AddNonZero | AddRaises.

(** What the code cannot decide: host platform, clock, servers, and whether
    the file system and the [security] tool cooperate.
    [failed_write_leaves old content] is what the credentials file holds
    after a write of [content] over [old] that raised: [old] when the file
    could not be opened, an empty or partial text when the write failed
    after the open. *)
Record Env : Type := {
  platform_system : string;
  clock_ms : nat -> Z;
  http_lib : HttpLib;
  token_endpoint : json -> HttpOutcome;
  messages_endpoint : nat -> json -> json -> HttpOutcome;
  file_read_fails : bool;
  file_write_fails : bool;
  failed_write_leaves : option string -> string -> option string;
  security_find_fails : bool;
  security_delete_fails : bool;
  security_add : AddOutcome
}.

(** Calls that leave the process, in the order they are issued (newest
    first).  [EvResolve] marks one run of [get_claude_code_token]. *)
Inductive Event : Type :=
| EvResolve
| EvRefreshPost (payload : json)
| EvFileWrite (content : string)
| EvKeychainDelete
| EvKeychainAdd (content : string)
| EvChatPost (token : json) (body : json).

(** What changes while the code runs: how often the clock was read, how many
    chat requests were sent, the text of [~/.claude/.credentials.json]
    ([None]: no such file), the keychain entry ([None]: no entry), and the
    calls made so far. *)
Record State : Type := {
  ticks : nat;
  sent : nat;
  creds_file : option string;
  keychain : option string;
  trace : list Event
}.

Definition set_ticks (n : nat) (w : State) : State :=
  {| ticks := n; sent := sent w; creds_file := creds_file w;
     keychain := keychain w; trace := trace w |}.

Definition set_sent (n : nat) (w : State) : State :=
  {| ticks := ticks w; sent := n; creds_file := creds_file w;
     keychain := keychain w; trace := trace w |}.

Definition set_creds_file (f : option string) (w : State) : State :=
  {| ticks := ticks w; sent := sent w; creds_file := f;
     keychain := keychain w; trace := trace w |}.

Definition set_keychain (k : option string) (w : State) : State :=
  {| ticks := ticks w; sent := sent w; creds_file := creds_file w;
     keychain := k; trace := trace w |}.

Definition log (e : Event) (w : State) : State :=
  {| ticks := ticks w; sent := sent w; creds_file := creds_file w;
     keychain := keychain w; trace := e :: trace w |}.

(** State and exceptions: a raised exception keeps the effects made so far. *)
Definition M (S A : Type) : Type := S -> result A * S.

Definition ret {S A} (a : A) : M S A := fun s => (Ok a, s).

Definition raise {S A} (e : exn) : M S A := fun s => (Raise e, s).

Definition bind {S A B} (m : M S A) (k : A -> M S B) : M S B :=
  fun s =>
    match m s with
    | (Ok a, s') => k a s'
    | (Raise e, s') => (Raise e, s')
    end.

(** [try: m  except Exception as e: h e] *)
Definition try_except {S A} (m : M S A) (h : exn -> M S A) : M S A :=
  fun s =>
    match m s with
    | (Ok a, s') => (Ok a, s')
    | (Raise e, s') => h e s'
    end.

Definition lift {S A} (r : result A) : M S A := fun s => (r, s).

Definition modify {S} (f : S -> S) : M S unit := fun s => (Ok tt, f s).

Definition gets {S A} (f : S -> A) : M S A := fun s => (Ok (f s), s).

Declare Scope monad_scope.
Delimit Scope monad_scope with M.
Notation "x <- e ;; k" := (bind e (fun x => k))
  (at level 61, e at next level, right associativity) : monad_scope.
Notation "e ;;; k" := (bind e (fun _ => k))
  (at level 61, right associativity) : monad_scope.

(** [resp.json()] *)
Definition response_json `{PyRuntime} (r : Response) : result json :=
  py_json_loads (text r).

(* ================================================================== *)
(** ** claude_code_auth.py *)

Module Auth.
Section WithRuntime.
Context `{PyRuntime}.
Variable E : Env.

Definition TOKEN_URL : string := "https://platform.claude.com/v1/oauth/token".
Definition CLIENT_ID : string := "9d1c250a-e61b-44d9-88ed-5944d1962f5e".
Definition EXPIRY_BUFFER_MS : Z := 300000.
Definition REFRESH_SCOPE : string :=
  "user:inference user:mcp_servers user:profile user:sessions:claude_code".

(** [int(time.time() * 1000)] *)
Definition current_time_ms : M State Z :=
  fun w => (Ok (clock_ms E (ticks w)), set_ticks (S (ticks w)) w).

Definition _is_token_expired (expires_at : json) : M State bool :=
  match expires_at with
  | JNull => ret true
  | _ =>
      (current_time_ms <- current_time_ms ;;
       lift (py_int_ge (current_time_ms + EXPIRY_BUFFER_MS) expires_at))%M
  end.

Definition refresh_payload (refresh_token : json) : json :=
  JObj [("grant_type", JStr "refresh_token");
        ("refresh_token", refresh_token);
        ("client_id", JStr CLIENT_ID);
        ("scope", JStr REFRESH_SCOPE)].

(** [httpx.post(TOKEN_URL, json=payload, ...)] and [requests.post]. *)
Definition post_token (payload : json) : M State Response :=
  (modify (log (EvRefreshPost payload)) ;;;
   match token_endpoint E payload with
   | Reply r => ret r
   | Fails e => raise e
   end)%M.

Definition _refresh_token_with_httpx (refresh_token : json) : M State json :=
  let payload := refresh_payload refresh_token in
  try_except
    (response <- post_token payload ;;
     if negb (status_code response =? 200) then ret JNull
     else (data <- lift (response_json response) ;; ret data))%M
    (fun _ => ret JNull).

Definition _refresh_token_with_requests (refresh_token : json) : M State json :=
  let payload := refresh_payload refresh_token in
  try_except
    (response <- post_token payload ;;
     if negb (status_code response =? 200) then ret JNull
     else (data <- lift (response_json response) ;; ret data))%M
    (fun _ => ret JNull).

Definition _refresh_token (refresh_token : json) : M State json :=
  match http_lib E with
  | Httpx => _refresh_token_with_httpx refresh_token
  | Requests => _refresh_token_with_requests refresh_token
  | NoHttpLib => ret JNull
  end.

(** [creds_file.write_text(json.dumps(data))] opens the file for writing,
    which truncates it, and writes.  A write that raises leaves in the file
    what [failed_write_leaves] says. *)
Definition _save_credentials_to_file (data : json) : M State bool :=
  try_except
    (let content := json_dumps data in
     modify (log (EvFileWrite content)) ;;;
     if file_write_fails E then
       modify (fun w =>
                 set_creds_file (failed_write_leaves E (creds_file w) content) w) ;;;
       raise OSError
     else (modify (set_creds_file (Some content)) ;;; ret true))%M
    (fun _ => ret false).

(** Delete the entry, then add the new one.  A [security delete] that
    returns leaves no entry behind. *)
Definition _save_credentials_to_keychain (data : json) : M State bool :=
  try_except
    (modify (log EvKeychainDelete) ;;;
     if security_delete_fails E then raise TimeoutExpired
     else
       (modify (set_keychain None) ;;;
        let json_data := json_dumps data in
        modify (log (EvKeychainAdd json_data)) ;;;
        match security_add E with
        | AddRaises => raise TimeoutExpired
        | AddNonZero => ret false
        | AddOk => modify (set_keychain (Some json_data)) ;;; ret true
        end))%M
    (fun _ => ret false).

(** The branch of [_extract_token] on [storage_type == "keychain"]. *)
Definition save_credentials (storage_type : string) (data : json) : M State bool :=
  if String.eqb storage_type "keychain"
  then _save_credentials_to_keychain data
  else _save_credentials_to_file data.

(** The tail of [_extract_token]: [if access_token: return access_token]
    and [return None] otherwise. *)
Definition return_token (access_token : json) : json :=
  if truthy access_token then access_token else JNull.

Definition _extract_token (data : json) (storage_type : string) : M State json :=
  (oauth <- lift (py_get data "claudeAiOauth" (JObj [])) ;;
   access_token <- lift (py_get oauth "accessToken" JNull) ;;
   refresh_token <- lift (py_get oauth "refreshToken" JNull) ;;
   expires_at <- lift (py_get oauth "expiresAt" JNull) ;;
   expired <- _is_token_expired expires_at ;;
   if expired then
     if negb (truthy refresh_token) then ret JNull
     else
       new_token_data <- _refresh_token refresh_token ;;
       if truthy new_token_data then
         new_access_token <- lift (py_get new_token_data "access_token" JNull) ;;
         new_refresh_token <-
           lift (py_get new_token_data "refresh_token" refresh_token) ;;
         expires_in <- lift (py_get new_token_data "expires_in" (JNum 3600)) ;;
         now <- current_time_ms ;;
         millis <- lift (py_mul_int expires_in 1000) ;;
         new_expires_at <- lift (py_add (JNum now) millis) ;;
         oauth <- lift (py_setitem oauth "accessToken" new_access_token) ;;
         oauth <- lift (py_setitem oauth "refreshToken" new_refresh_token) ;;
         oauth <- lift (py_setitem oauth "expiresAt" new_expires_at) ;;
         has_scope <- lift (py_contains new_token_data "scope") ;;
         oauth <-
           (if has_scope : bool then
              scope <- lift (subscript new_token_data "scope") ;;
              scopes <- lift (py_split_method scope) ;;
              lift (py_setitem oauth "scopes" scopes)
            else ret oauth) ;;
         data <- lift (py_setitem data "claudeAiOauth" oauth) ;;
         save_credentials storage_type data ;;;
         ret (return_token new_access_token)
       else ret JNull
   else ret (return_token access_token))%M.

(** [security find-generic-password ... -w]: raises (a timeout), or returns
    non-zero when there is no entry, or prints the entry. *)
Definition _get_token_from_keychain : M State json :=
  try_except
    (if security_find_fails E then raise TimeoutExpired
     else
       entry <- gets keychain ;;
       match entry with
       | None => ret JNull
       | Some stdout =>
           data <- lift (py_json_loads (py_strip stdout)) ;;
           _extract_token data "keychain"
       end)%M
    (fun _ => ret JNull).

Definition _get_token_from_credentials_file : M State json :=
  (file <- gets creds_file ;;
   match file with
   | None => ret JNull
   | Some content =>
       try_except
         (if file_read_fails E then raise OSError
          else
            data <- lift (py_json_loads content) ;;
            _extract_token data "file")
         (fun _ => ret JNull)
   end)%M.

Definition get_claude_code_token : M State json :=
  (modify (log EvResolve) ;;;
   let system := platform_system E in
   if String.eqb system "Darwin" then _get_token_from_keychain
   else if String.eqb system "Linux" || String.eqb system "Windows"
        then _get_token_from_credentials_file
        else ret JNull)%M.

End WithRuntime.
End Auth.

(* ================================================================== *)
(** ** claude_code_provider.py *)

(** Modelled from the spec: [ToolCallRequest] and [LLMResponse] of
    [nanobot/providers/base.py], which the provider imports and which is not
    among the sources.  A generic chat response has an optional text, an
    ordered list of tool-call requests (id, name, argument object), a finish
    reason and the token-usage counts; a response built without tool calls
    or usage has none. *)
Record ToolCallRequest : Type := {
  tc_id : json;
  tc_name : json;
  tc_arguments : json
}.

Record LLMResponse : Type := {
  content : option string;
  tool_calls : list ToolCallRequest;
  finish_reason : string;
  usage : dict
}.

(** The provider object: [self.oauth_token], [self.api_key],
    [self.default_model]. *)
Record Provider : Type := {
  oauth_token : json;
  api_key : json;
  default_model : string
}.

(** The provider together with the world it runs in. *)
Record PState : Type := {
  self : Provider;
  world : State
}.

Definition in_world {A} (m : M State A) : M PState A :=
  fun s =>
    let (r, w') := m (world s) in
    (r, {| self := self s; world := w' |}).

Definition newline : string := String (ascii_of_nat 10) EmptyString.

Module Provider.
Section WithRuntime.
Context `{PyRuntime}.
Variable E : Env.

Definition ANTHROPIC_API_URL : string := "https://api.anthropic.com/v1/messages".

Definition CLAUDE_CODE_SYSTEM_PREFIX : string :=
  "You are Claude Code, Anthropic's official CLI for Claude.".

Definition _TOOL_NAME_TO_API : list (string * string) :=
  [("read_file", "ReadFile")].

Definition _TOOL_NAME_FROM_API : list (string * string) :=
  map (fun kv => (snd kv, fst kv)) _TOOL_NAME_TO_API.

Fixpoint assoc (m : list (string * string)) (k : string) : option string :=
  match m with
  | [] => None
  | (k', v) :: m' => if String.eqb k' k then Some v else assoc m' k
  end.

(** [m.get(name, name)] on a [dict[str, str]]: a list or a dict is not
    hashable, any other key that is not in the map comes back unchanged. *)
Definition name_map_get (m : list (string * string)) (name : json) : result json :=
  match name with
  | JStr s =>
      match assoc m s with
      | Some s' => Ok (JStr s')
      | None => Ok name
      end
  | JArr _ | JObj _ => Raise TypeError
  | _ => Ok name
  end.

(** [__init__] *)
Definition init (oauth_token : json) (default_model : string) : Provider :=
  {| oauth_token := oauth_token;
     api_key := oauth_token;
     default_model := strip_provider_prefix default_model |}.

Definition DEFAULT_MODEL : string := "claude-sonnet-4-5-20250929".

(** [if isinstance(args, str):] [args = json.loads(args)], with
    [{"raw": args}] under [except json.JSONDecodeError]; any other exception
    of [json.loads] goes on. *)
Definition decode_arguments (args : json) : result json :=
  match args with
  | JStr s =>
      match py_json_loads s with
      | Ok v => Ok v
      | Raise JSONDecodeError => Ok (JObj [("raw", JStr s)])
      | Raise e => Raise e
      end
  | _ => Ok args
  end.

(** The body of the loop over [msg["tool_calls"]]. *)
Definition convert_tool_call (tc : json) : result json :=
  (fn <- subscript tc "function" ;;
   args <- subscript fn "arguments" ;;
   args <- decode_arguments args ;;
   name <- subscript fn "name" ;;
   id <- subscript tc "id" ;;
   api_name <- name_map_get _TOOL_NAME_TO_API name ;;
   Ok (JObj [("type", JStr "tool_use");
             ("id", id);
             ("name", api_name);
             ("input", args)]))%res.

Definition _convert_assistant_msg (msg : dict) : result json :=
  let text_blocks :=
    if truthy (dict_get msg "content" JNull)
    then [JObj [("type", JStr "text"); ("text", dict_get msg "content" JNull)]]
    else [] in
  (tool_blocks <-
     (if truthy (dict_get msg "tool_calls" JNull)
      then (tcs <- py_iter (dict_get msg "tool_calls" JNull) ;;
            rmap convert_tool_call tcs)
      else Ok []) ;;
   let content_blocks := text_blocks ++ tool_blocks in
   Ok (JObj [("role", JStr "assistant");
             ("content",
              match content_blocks with
              | [] => dict_get msg "content" (JStr EmptyString)
              | _ :: _ => JArr content_blocks
              end)]))%res.

(** The body of the loop of [_convert_tools]. *)
Definition convert_tool (tool : json) : result json :=
  (func <- py_get tool "function" tool ;;
   name <- subscript func "name" ;;
   api_name <- name_map_get _TOOL_NAME_TO_API name ;;
   description <- py_get func "description" (JStr EmptyString) ;;
   parameters <- py_get func "parameters" (JObj []) ;;
   Ok (JObj [("name", api_name);
             ("description", description);
             ("input_schema", parameters)]))%res.

Definition _convert_tools (tools : json) : result json :=
  (ts <- py_iter tools ;;
   converted <- rmap convert_tool ts ;;
   Ok (JArr converted))%res.

(** The loop of [_build_body] over the messages, with its two lists. *)
Fixpoint build_loop (messages : list dict) (system_parts : list string)
    (anthropic_messages : list json) : result (list string * list json) :=
  match messages with
  | [] => Ok (system_parts, anthropic_messages)
  | msg :: rest =>
      (role <- dict_getitem msg "role" ;;
       if py_eq role (JStr "system") then
         content <- dict_getitem msg "content" ;;
         match content with
         | JStr s => build_loop rest (system_parts ++ [s]) anthropic_messages
         | _ => build_loop rest system_parts anthropic_messages
         end
       else if py_eq role (JStr "tool") then
         build_loop rest system_parts
           (anthropic_messages ++
            [JObj [("role", JStr "user");
                   ("content",
                    JArr [JObj [("type", JStr "tool_result");
                                ("tool_use_id",
                                 dict_get msg "tool_call_id" (JStr EmptyString));
                                ("content",
                                 dict_get msg "content" (JStr EmptyString))]])]])
       else if py_eq role (JStr "assistant") then
         converted <- _convert_assistant_msg msg ;;
         build_loop rest system_parts (anthropic_messages ++ [converted])
       else
         content <- dict_getitem msg "content" ;;
         build_loop rest system_parts
           (anthropic_messages ++
            [JObj [("role", JStr "user"); ("content", content)]]))%res
  end.

Definition text_block (part : string) : json :=
  JObj [("type", JStr "text"); ("text", JStr part)].

Definition _build_body (messages : list dict) (tools : json) (model : string)
    (max_tokens : json) (temperature : json) : result json :=
  (parts <- build_loop messages [CLAUDE_CODE_SYSTEM_PREFIX] [] ;;
   let system_blocks := map text_block (fst parts) in
   let body :=
     [("model", JStr model);
      ("max_tokens", max_tokens);
      ("temperature", temperature);
      ("system", JArr system_blocks);
      ("messages", JArr (snd parts))] in
   if truthy tools then
     converted <- _convert_tools tools ;;
     Ok (JObj (dict_setitem body "tools" converted))
   else Ok (JObj body))%res.

(** The body of the loop of [_parse_response] over the content blocks. *)
Definition parse_block (acc : list json * list ToolCallRequest) (block : json)
    : result (list json * list ToolCallRequest) :=
  (ty <- subscript block "type" ;;
   if py_eq ty (JStr "text") then
     t <- subscript block "text" ;;
     Ok (fst acc ++ [t], snd acc)
   else if py_eq ty (JStr "tool_use") then
     api_name <- subscript block "name" ;;
     id <- subscript block "id" ;;
     name <- name_map_get _TOOL_NAME_FROM_API api_name ;;
     arguments <- py_get block "input" (JObj []) ;;
     Ok (fst acc,
         snd acc ++ [{| tc_id := id; tc_name := name; tc_arguments := arguments |}])
   else Ok acc)%res.

Fixpoint parse_blocks (blocks : list json)
    (acc : list json * list ToolCallRequest)
    : result (list json * list ToolCallRequest) :=
  match blocks with
  | [] => Ok acc
  | block :: rest => (acc' <- parse_block acc block ;; parse_blocks rest acc')%res
  end.

Definition finish_map : list (string * string) :=
  [("end_turn", "stop"); ("tool_use", "tool_calls"); ("max_tokens", "length")].

(** [finish_map.get(stop_reason, "stop")] *)
Definition finish_of (stop_reason : json) : result string :=
  match stop_reason with
  | JStr s =>
      match assoc finish_map s with
      | Some f => Ok f
      | None => Ok "stop"
      end
  | JArr _ | JObj _ => Raise TypeError
  | _ => Ok "stop"
  end.

Definition _parse_response (data : json) : result LLMResponse :=
  (blocks <- py_get data "content" (JArr []) ;;
   blocks <- py_iter blocks ;;
   acc <- parse_blocks blocks ([], []) ;;
   stop_reason <- py_get data "stop_reason" (JStr "end_turn") ;;
   finish_reason <- finish_of stop_reason ;;
   has_usage <- py_contains data "usage" ;;
   usage <-
     (if has_usage : bool then
        u <- subscript data "usage" ;;
        prompt_tokens <- py_get u "input_tokens" (JNum 0) ;;
        completion_tokens <- py_get u "output_tokens" (JNum 0) ;;
        total_tokens <- py_add prompt_tokens completion_tokens ;;
        Ok [("prompt_tokens", prompt_tokens);
            ("completion_tokens", completion_tokens);
            ("total_tokens", total_tokens)]
      else Ok []) ;;
   content <-
     (match fst acc with
      | [] => Ok None
      | _ :: _ => (joined <- py_join newline (fst acc) ;; Ok (Some joined))
      end) ;;
   Ok {| content := content;
         tool_calls := snd acc;
         finish_reason := finish_reason;
         usage := usage |})%res.

Definition set_token (t : json) (s : PState) : PState :=
  {| self := {| oauth_token := t; api_key := t;
                default_model := default_model (self s) |};
     world := world s |}.

(** [ClaudeCodeProvider._refresh_token] *)
Definition _refresh_token : M PState bool :=
  (new_token <- in_world (Auth.get_claude_code_token E) ;;
   current <- gets (fun s => oauth_token (self s)) ;;
   if truthy new_token && negb (py_eq new_token current) then
     modify (set_token new_token) ;;; ret true
   else ret false)%M.

(** [client.post(ANTHROPIC_API_URL, headers=..., json=body)] with the
    current token as bearer. *)
Definition _send_request (body : json) : M PState Response :=
  (token <- gets (fun s => oauth_token (self s)) ;;
   n <- gets (fun s => sent (world s)) ;;
   in_world (modify (fun w => set_sent (S n) (log (EvChatPost token body) w))) ;;;
   match messages_endpoint E n token body with
   | Reply r => ret r
   | Fails e => raise e
   end)%M.

Definition error_response (message : string) : LLMResponse :=
  {| content := Some message;
     tool_calls := [];
     finish_reason := "error";
     usage := [] |}.

Definition api_error_text (resp : Response) : string :=
  ("Error from Anthropic API (" ++ str_int (status_code resp) ++ "): "
   ++ str_prefix 500 (text resp))%string.

(** [model = model or self.default_model], then the provider prefix is
    stripped. *)
Definition resolve_model (default : string) (model : option string) : string :=
  let model :=
    match model with
    | Some m => if nonempty_str m then m else default
    | None => default
    end in
  strip_provider_prefix model.

(** The response for an exception caught in [chat]. *)
Definition exception_response (e : exn) : LLMResponse :=
  error_response ("Error calling Anthropic API: " ++ str_exn e)%string.

(** The end of the [try] block of [chat], once [resp] is the response it
    keeps: any status but 200 is an error response, a 200 is parsed. *)
Definition conclude (resp : Response) : result LLMResponse :=
  if negb (status_code resp =? 200) then
    Ok (error_response (api_error_text resp))
  else
    (data <- response_json resp ;;
     _parse_response data)%res.

Definition chat (messages : list dict) (tools : json) (model : option string)
    (max_tokens : json) (temperature : json) : M PState LLMResponse :=
  (default <- gets (fun s => default_model (self s)) ;;
   let model := resolve_model default model in
   body <- lift (_build_body messages tools model max_tokens temperature) ;;
   try_except
     (resp <- _send_request body ;;
      resp <-
        (if status_code resp =? 401 then
           refreshed <- _refresh_token ;;
           if refreshed : bool then _send_request body else ret resp
         else ret resp) ;;
      lift (conclude resp))
     (fun e => ret (exception_response e)))%M.

Definition get_default_model : M PState string :=
  gets (fun s => default_model (self s)).

End WithRuntime.
End Provider.

(* ================================================================== *)
(** ** A reference runtime

    A JSON codec to run the model on concrete documents.  It prints as
    [json.dumps] does by default (separators [", "] and [": "]).  It reads
    the JSON texts of the values of the model: no floats and no unicode
    escapes, which it rejects where Python's decoder accepts them.  Like
    that decoder it raises [RecursionError] for a text nested deeper than
    the recursion limit and [ValueError] for an integer of more than 4300
    digits.  The theorems below hold for every runtime; this one
    instantiates them. *)

Module RefCodec.

Definition dquote : ascii := ascii_of_nat 34.
Definition backslash : ascii := ascii_of_nat 92.

Inductive token : Type :=
| TLBrace | TRBrace | TLBracket | TRBracket | TColon | TComma
| TString (s : string)
| TInt (z : Z) (digits : nat)
| TNull | TTrue | TFalse.

Definition snoc (s : string) (c : ascii) : string :=
  (s ++ String c EmptyString)%string.

(** JSON whitespace: space, tab, line feed, carriage return. *)
Definition is_json_space (c : ascii) : bool :=
  let n := nat_of_ascii c in
  ((n =? 32) || (n =? 9) || (n =? 10) || (n =? 13))%nat.

(** The character an escape letter stands for. *)
Definition unescape (e : ascii) : option ascii :=
  if Ascii.eqb e "n"%char then Some (ascii_of_nat 10)
  else if Ascii.eqb e "t"%char then Some (ascii_of_nat 9)
  else if Ascii.eqb e "r"%char then Some (ascii_of_nat 13)
  else if Ascii.eqb e "b"%char then Some (ascii_of_nat 8)
  else if Ascii.eqb e "f"%char then Some (ascii_of_nat 12)
  else if Ascii.eqb e dquote || Ascii.eqb e backslash || Ascii.eqb e "/"%char
       then Some e
       else None.

(** The text after an opening quote, up to the closing one. *)
Fixpoint lex_string (s : string) (acc : string) : option (string * string) :=
  match s with
  | EmptyString => None
  | String c s' =>
      if Ascii.eqb c dquote then Some (acc, s')
      else if Ascii.eqb c backslash then
        match s' with
        | String e s'' =>
            match unescape e with
            | Some c' => lex_string s'' (snoc acc c')
            | None => None
            end
        | EmptyString => None
        end
      else if (nat_of_ascii c <? 32)%nat then None
      else lex_string s' (snoc acc c)
  end.

Definition digit (c : ascii) : option Z :=
  let n := nat_of_ascii c in
  if ((48 <=? n) && (n <=? 57))%nat then Some (Z.of_nat n - 48) else None.

(** The digits [s] starts with: their value, their number, and the rest. *)
Fixpoint lex_digits (s : string) (acc : Z) (count : nat) : Z * nat * string :=
  match s with
  | String c s' =>
      match digit c with
      | Some d => lex_digits s' (acc * 10 + d) (S count)
      | None => (acc, count, s)
      end
  | EmptyString => (acc, count, s)
  end.

Definition starts_digit (s : string) : bool :=
  match s with
  | String c _ => match digit c with Some _ => true | None => false end
  | EmptyString => false
  end.

(** An integer literal has no leading zero. *)
Definition leading_zero (s : string) : bool :=
  match s with
  | String c s' => Ascii.eqb c "0"%char && starts_digit s'
  | EmptyString => false
  end.

Fixpoint drop_prefix (p s : string) : option string :=
  match p, s with
  | EmptyString, _ => Some s
  | String a p', String b s' => if Ascii.eqb a b then drop_prefix p' s' else None
  | String _ _, EmptyString => None
  end.

Fixpoint lex (fuel : nat) (s : string) : option (list token) :=
  match fuel with
  | O => None
  | S fuel' =>
      let one (t : token) (rest : string) :=
        option_map (cons t) (lex fuel' rest) in
      let number (negative : bool) (digits : string) :=
        if starts_digit digits && negb (leading_zero digits) then
          match lex_digits digits 0 0 with
          | (z, count, rest) => one (TInt (if negative then - z else z) count) rest
          end
        else None in
      match s with
      | EmptyString => Some []
      | String c s' =>
          if is_json_space c then lex fuel' s'
          else if Ascii.eqb c "{"%char then one TLBrace s'
          else if Ascii.eqb c "}"%char then one TRBrace s'
          else if Ascii.eqb c "["%char then one TLBracket s'
          else if Ascii.eqb c "]"%char then one TRBracket s'
          else if Ascii.eqb c ":"%char then one TColon s'
          else if Ascii.eqb c ","%char then one TComma s'
          else if Ascii.eqb c dquote then
            match lex_string s' EmptyString with
            | Some (str, rest) => one (TString str) rest
            | None => None
            end
          else if Ascii.eqb c "-"%char then number true s'
          else if starts_digit s then number false s
          else
            match drop_prefix "null" s, drop_prefix "true" s, drop_prefix "false" s with
            | Some rest, _, _ => one TNull rest
            | _, Some rest, _ => one TTrue rest
            | _, _, Some rest => one TFalse rest
            | _, _, _ => None
            end
      end
  end.

Fixpoint parse_value (fuel : nat) (ts : list token) : option (json * list token) :=
  match fuel with
  | O => None
  | S fuel' =>
      match ts with
      | TNull :: r => Some (JNull, r)
      | TTrue :: r => Some (JBool true, r)
      | TFalse :: r => Some (JBool false, r)
      | TInt z _ :: r => Some (JNum z, r)
      | TString s :: r => Some (JStr s, r)
      | TLBracket :: TRBracket :: r => Some (JArr [], r)
      | TLBracket :: r =>
          match parse_items fuel' r with
          | Some (l, r') => Some (JArr l, r')
          | None => None
          end
      | TLBrace :: TRBrace :: r => Some (JObj [], r)
      | TLBrace :: r =>
          match parse_members fuel' r [] with
          | Some (d, r') => Some (JObj d, r')
          | None => None
          end
      | _ => None
      end
  end
with parse_items (fuel : nat) (ts : list token) : option (list json * list token) :=
  match fuel with
  | O => None
  | S fuel' =>
      match parse_value fuel' ts with
      | Some (v, TComma :: r) =>
          match parse_items fuel' r with
          | Some (l, r') => Some (v :: l, r')
          | None => None
          end
      | Some (v, TRBracket :: r) => Some ([v], r)
      | _ => None
      end
  end
with parse_members (fuel : nat) (ts : list token) (acc : dict)
    : option (dict * list token) :=
  match fuel with
  | O => None
  | S fuel' =>
      match ts with
      | TString k :: TColon :: r =>
          match parse_value fuel' r with
          | Some (v, TComma :: r') => parse_members fuel' r' (dict_setitem acc k v)
          | Some (v, TRBrace :: r') => Some (dict_setitem acc k v, r')
          | _ => None
          end
      | _ => None
      end
  end.

(** The recursion limit of the interpreter, less the frames in use. *)
Definition recursion_limit : nat := 990.

(** [sys.get_int_max_str_digits()] *)
Definition max_str_digits : nat := 4300.

(** The deepest nesting of arrays and objects among the tokens. *)
Fixpoint nesting (ts : list token) (current deepest : nat) : nat :=
  match ts with
  | [] => deepest
  | (TLBracket | TLBrace) :: r => nesting r (S current) (Nat.max deepest (S current))
  | (TRBracket | TRBrace) :: r => nesting r (Nat.pred current) deepest
  | _ :: r => nesting r current deepest
  end.

Definition too_many_digits (t : token) : bool :=
  match t with
  | TInt _ digits => (max_str_digits <? digits)%nat
  | _ => false
  end.

Definition decode (s : string) : result json :=
  match lex (S (String.length s)) s with
  | Some ts =>
      if (recursion_limit <? nesting ts 0 0)%nat then Raise RecursionError
      else if existsb too_many_digits ts then Raise ValueError
      else
        match parse_value (S (List.length ts)) ts with
        | Some (v, []) => Ok v
        | _ => Raise JSONDecodeError
        end
  | None => Raise JSONDecodeError
  end.


Definition loads (s : string) : option json :=
  match decode s with
  | Ok v => Some v
  | Raise _ => None
  end.

Definition loads_error (s : string) : exn :=
  match decode s with
  | Ok _ => JSONDecodeError
  | Raise e => e
  end.

Fixpoint escape (s : string) : string :=
  match s with
  | EmptyString => EmptyString
  | String c s' =>
      if Ascii.eqb c dquote || Ascii.eqb c backslash
      then String backslash (String c (escape s'))
      else if Ascii.eqb c (ascii_of_nat 10) then String backslash (String "n" (escape s'))
      else if Ascii.eqb c (ascii_of_nat 9) then String backslash (String "t" (escape s'))
      else String c (escape s')
  end.

Definition quoted (s : string) : string :=
  String dquote (escape s ++ String dquote EmptyString)%string.

Fixpoint sep_by (sep : string) (parts : list string) : string :=
  match parts with
  | [] => EmptyString
  | [p] => p
  | p :: rest => (p ++ sep ++ sep_by sep rest)%string
  end.

Fixpoint dumps (v : json) : string :=
  match v with
  | JNull => "null"
  | JBool true => "true"
  | JBool false => "false"
  | JNum n => str_int n
  | JStr s => quoted s
  | JArr l => ("[" ++ sep_by ", " (map dumps l) ++ "]")%string
  | JObj d =>
      ("{" ++ sep_by ", "
                (map (fun kv => (quoted (fst kv) ++ ": " ++ dumps (snd kv))%string) d)
           ++ "}")%string
  end.

Definition render (e : exn) : string :=
  match e with
  | KeyError k => ("'" ++ k ++ "'")%string
  | TypeError => "TypeError"
  | AttributeError => "AttributeError"
  | JSONDecodeError => "JSONDecodeError"
  | RecursionError => "maximum recursion depth exceeded"
  | ValueError => "Exceeds the limit (4300 digits) for integer string conversion"
  | OSError => "OSError"
  | TimeoutExpired => "TimeoutExpired"
  | TransportError msg => msg
  end.

End RefCodec.

Definition ref_runtime : PyRuntime :=
  {| json_loads := RefCodec.loads;
     json_loads_error := RefCodec.loads_error;
     json_dumps := RefCodec.dumps;
     str_exn := RefCodec.render |}.

(** A system-role message with a text content. *)
Definition system_message (content : string) : dict :=
  [("role", JStr "system"); ("content", JStr content)].

(* ================================================================== *)
(** ** Example worlds *)

Module Examples.

(** A credential record with the given [expiresAt] and [refreshToken]. *)
Definition record (expires_at refresh_token : json) : dict :=
  [("accessToken", JStr "old-access");
   ("refreshToken", refresh_token);
   ("expiresAt", expires_at);
   ("scopes", JArr [JStr "user:inference"])].

Definition document (oauth : dict) : json := JObj [("claudeAiOauth", JObj oauth)].

(** Expired at the example clock, with a refresh token. *)
Definition stale : dict := record (JNum 1000) (JStr "refresh-1").

(** Valid for long after the example clock. *)
Definition valid : dict := record (JNum 2000000) (JStr "refresh-1").

(** Expired, and no refresh token. *)
Definition unrefreshable : dict := record (JNum 1000) JNull.

Definition answer (status : Z) (body : json) : HttpOutcome :=
  Reply {| status_code := status; text := RefCodec.dumps body |}.

(** A Linux host whose clock starts at 1000000 ms, with the given answers of
    the token endpoint and of the messages endpoint (by request number). *)
Definition env (refresh : HttpOutcome) (chat : nat -> HttpOutcome) : Env :=
  {| platform_system := "Linux";
     clock_ms := fun n => 1000000 + Z.of_nat n;
     http_lib := Httpx;
     token_endpoint := fun _ => refresh;
     messages_endpoint := fun n _ _ => chat n;
     file_read_fails := false;
     file_write_fails := false;
     failed_write_leaves := fun old _ => old;
     security_find_fails := false;
     security_delete_fails := false;
     security_add := AddOk |}.

Definition unauthorized : HttpOutcome :=
  Reply {| status_code := 401; text := "token expired" |}.

Definition overloaded : HttpOutcome :=
  Reply {| status_code := 529; text := "overloaded" |}.

(** The credentials file holds the document of [oauth]; nothing has
    happened yet. *)
Definition state (oauth : dict) : State :=
  {| ticks := 0;
     sent := 0;
     creds_file := Some (RefCodec.dumps (document oauth));
     keychain := None;
     trace := [] |}.

Definition provider (oauth : dict) : PState :=
  {| self := {| oauth_token := JStr "old-access";
                api_key := JStr "old-access";
                default_model := "claude-sonnet-4-5-20250929" |};
     world := state oauth |}.

Definition refreshed : json :=
  JObj [("access_token", JStr "new-access");
        ("expires_in", JNum 7200);
        ("scope", JStr "user:inference  user:profile")].

Definition empty_access_token : json :=
  JObj [("access_token", JStr EmptyString)].

Definition no_access_token : json := JObj [("expires_in", JNum 60)].

Definition user_message (content : string) : dict :=
  [("role", JStr "user"); ("content", JStr content)].

(** A tool call as the agent loop writes it. *)
Definition tool_call (id name : string) (arguments : json) : json :=
  JObj [("id", JStr id);
        ("type", JStr "function");
        ("function", JObj [("name", JStr name); ("arguments", arguments)])].

Definition assistant_message (calls : list json) : dict :=
  [("role", JStr "assistant"); ("content", JNull); ("tool_calls", JArr calls)].

(** The same host with a disk that fills up: a write to the credentials
    file raises after the file was opened, and leaves it empty. *)
Definition full_disk_env (refresh : HttpOutcome) (chat : nat -> HttpOutcome) : Env :=
  {| platform_system := "Linux";
     clock_ms := fun n => 1000000 + Z.of_nat n;
     http_lib := Httpx;
     token_endpoint := fun _ => refresh;
     messages_endpoint := fun n _ _ => chat n;
     file_read_fails := false;
     file_write_fails := true;
     failed_write_leaves := fun _ _ => Some EmptyString;
     security_find_fails := false;
     security_delete_fails := false;
     security_add := AddOk |}.

(** No credentials file, no keychain entry. *)
Definition logged_out : State :=
  {| ticks := 0; sent := 0; creds_file := None; keychain := None; trace := [] |}.

(** The credentials file holds the text of [doc]. *)
Definition state_holding (doc : json) : State :=
  {| ticks := 0;
     sent := 0;
     creds_file := Some (RefCodec.dumps doc);
     keychain := None;
     trace := [] |}.

Definition text_content (t : string) : json :=
  JObj [("type", JStr "text"); ("text", JStr t)].

Definition thinking_content : json :=
  JObj [("type", JStr "thinking"); ("thinking", JStr "hm")].

Definition tool_use_content (id name : string) (input : json) : json :=
  JObj [("type", JStr "tool_use"); ("id", JStr id); ("name", JStr name);
        ("input", input)].

(** A vendor response with two texts around a thinking block and a tool
    use. *)
Definition mixed_response : dict :=
  [("content",
    JArr [text_content "Reading the file."; thinking_content;
          tool_use_content "toolu-1" "ReadFile" (JObj [("path", JStr "a.txt")]);
          text_content "One moment."]);
   ("stop_reason", JStr "tool_use")].

Definition metered_response : dict :=
  [("content", JArr [text_content "Hello."]);
   ("stop_reason", JStr "max_tokens");
   ("usage", JObj [("input_tokens", JNum 12); ("output_tokens", JNum 30)])].

Definition tool_message (call_id content : string) : dict :=
  [("role", JStr "tool"); ("tool_call_id", JStr call_id); ("content", JStr content)].

(** A conversation with every role. *)
Definition conversation : list dict :=
  [system_message "Be concise.";
   user_message "Read a.txt";
   assistant_message [tool_call "call-1" "read_file" (JStr "{}")];
   tool_message "call-1" "contents";
   user_message "Thanks"].

Definition read_file_tool : json :=
  JObj [("type", JStr "function");
        ("function",
         JObj [("name", JStr "read_file");
               ("description", JStr "Read a file");
               ("parameters", JObj [("type", JStr "object")])])].

Definition hello_answer : HttpOutcome :=
  answer 200 (JObj [("content", JArr [text_content "Hello."]);
                    ("stop_reason", JStr "end_turn")]).

End Examples.

(* ================================================================== *)
(** ** Vocabulary of the properties *)

(** The Credential Record nested in a credential document, as
    [_extract_token] reads it. *)
Definition oauth_record (data : json) : option dict :=
  match data with
  | JObj d =>
      match dict_get d "claudeAiOauth" (JObj []) with
      | JObj oauth => Some oauth
      | _ => None
      end
  | _ => None
  end.

Definition access_token_of (oauth : dict) : json := dict_get oauth "accessToken" JNull.
Definition refresh_token_of (oauth : dict) : json := dict_get oauth "refreshToken" JNull.
Definition expires_at_of (oauth : dict) : json := dict_get oauth "expiresAt" JNull.

(** [expiresAt] is absent, or the clock reading [now] is within the
    five-minute buffer of it. *)
Definition needs_refresh (E : Env) (w : State) (oauth : dict) : Prop :=
  expires_at_of oauth = JNull \/
  exists t, as_int (expires_at_of oauth) = Some t /\
            t <= clock_ms E (ticks w) + Auth.EXPIRY_BUFFER_MS.

(** The state in which the refresh call of such a record is issued: the
    clock has been read once unless [expiresAt] is absent. *)
Definition after_expiry_check (oauth : dict) (w : State) : State :=
  match expires_at_of oauth with
  | JNull => w
  | _ => set_ticks (S (ticks w)) w
  end.

(** A store write is under way. *)
Definition is_store_write (e : Event) : bool :=
  match e with
  | EvFileWrite _ | EvKeychainDelete | EvKeychainAdd _ => true
  | _ => false
  end.

(** An HTTP request is under way. *)
Definition is_http_call (e : Event) : bool :=
  match e with
  | EvRefreshPost _ | EvChatPost _ _ => true
  | _ => false
  end.

Definition is_chat_post (e : Event) : bool :=
  match e with
  | EvChatPost _ _ => true
  | _ => false
  end.

Definition is_resolve (e : Event) : bool :=
  match e with
  | EvResolve => true
  | _ => false
  end.

Definition count (p : Event -> bool) (t : list Event) : nat :=
  List.length (filter p t).

(** The refresh call did not succeed: the transport failed, or the status
    is not 200. *)
Definition refresh_call_fails (o : HttpOutcome) : Prop :=
  match o with
  | Fails _ => True
  | Reply r => status_code r <> 200
  end.

(** The calls [_extract_token] makes to save a document to [storage_type]. *)
Definition save_events (E : Env) (storage_type : string) (content : string)
    : list Event :=
  if String.eqb storage_type "keychain" then
    if security_delete_fails E then [EvKeychainDelete]
    else [EvKeychainAdd content; EvKeychainDelete]
  else [EvFileWrite content].

(** No character of [s] is whitespace. *)
Fixpoint no_space (s : string) : bool :=
  match s with
  | EmptyString => true
  | String c s' => negb (is_space c) && no_space s'
  end.

(** The text contents of the system-role messages, in order. *)
Fixpoint system_texts (messages : list dict) : list string :=
  match messages with
  | [] => []
  | msg :: rest =>
      match dict_find msg "role", dict_find msg "content" with
      | Some role, Some (JStr s) =>
          if py_eq role (JStr "system") then s :: system_texts rest
          else system_texts rest
      | _, _ => system_texts rest
      end
  end.

(** The text block [_convert_assistant_msg] starts with when the message
    has a content. *)
Definition text_blocks (msg : dict) : list json :=
  if truthy (dict_get msg "content" JNull)
  then [JObj [("type", JStr "text"); ("text", dict_get msg "content" JNull)]]
  else [].

(** The calls of the auth module: the refresh request and the store
    writes. *)
Definition is_auth_event (e : Event) : bool :=
  match e with
  | EvRefreshPost _ | EvFileWrite _ | EvKeychainDelete | EvKeychainAdd _ => true
  | _ => false
  end.

(** [w'] comes from [w] by calls of the auth module alone. *)
Definition auth_frame (w w' : State) : Prop :=
  sent w' = sent w /\
  exists evs, trace w' = evs ++ trace w /\ forallb is_auth_event evs = true.

Definition framed {A} (m : M State A) : Prop :=
  forall w, auth_frame w (snd (m w)).

(** [m] never raises. *)
Definition total {S A} (m : M S A) : Prop :=
  forall s, exists a, fst (m s) = Ok a.

(** The state right after a chat request with [token] and [body] left. *)
Definition after_send (token body : json) (s : PState) : PState :=
  {| self := self s;
     world := set_sent (S (sent (world s))) (log (EvChatPost token body) (world s)) |}.

(** The response [chat] returns when [resp] is the response it keeps. *)
Definition settle `{PyRuntime} (resp : Response) : LLMResponse :=
  match Provider.conclude resp with
  | Ok out => out
  | Raise e => Provider.exception_response e
  end.

(** The provider after [_refresh_token] took [token] from the store. *)
Definition with_token (token : json) (p : Provider) : Provider :=
  {| oauth_token := token; api_key := token; default_model := default_model p |}.

(* ------------------------------------------------------------------ *)
(** *** Vocabulary of the further properties *)

Definition is_refresh_post (e : Event) : bool :=
  match e with
  | EvRefreshPost _ => true
  | _ => false
  end.

(** The store of the host holds a text that decodes to [data], and
    [storage] is the storage type the resolution passes on for it. *)
Definition stored_document `{PyRuntime} (E : Env) (w : State) (data : json)
    (storage : string) : Prop :=
  (String.eqb (platform_system E) "Darwin" = true
   /\ storage = "keychain"
   /\ security_find_fails E = false
   /\ exists stdout, keychain w = Some stdout
                     /\ json_loads (py_strip stdout) = Some data)
  \/ (String.eqb (platform_system E) "Darwin" = false
      /\ String.eqb (platform_system E) "Linux"
         || String.eqb (platform_system E) "Windows" = true
      /\ storage = "file"
      /\ file_read_fails E = false
      /\ exists content, creds_file w = Some content
                         /\ json_loads content = Some data).

(** The host has no store the code knows, or the store gives no document:
    no entry, a read that raises, or a text that is not JSON. *)
Definition credentials_unreadable `{PyRuntime} (E : Env) (w : State) : Prop :=
  if String.eqb (platform_system E) "Darwin" then
    security_find_fails E = true
    \/ keychain w = None
    \/ exists stdout, keychain w = Some stdout
                      /\ json_loads (py_strip stdout) = None
  else if String.eqb (platform_system E) "Linux"
          || String.eqb (platform_system E) "Windows" then
    creds_file w = None
    \/ exists content, creds_file w = Some content
                       /\ (file_read_fails E = true \/ json_loads content = None)
  else True.

(** A document [_extract_token] cannot read: it is no object, or its
    nested record is no object, or [expiresAt] is neither absent nor a
    number. *)
Definition malformed_document (data : json) : Prop :=
  oauth_record data = None
  \/ exists oauth, oauth_record data = Some oauth
                   /\ expires_at_of oauth <> JNull
                   /\ as_int (expires_at_of oauth) = None.

(** The record after a refresh answered with [body], when the clock reads
    [now] and [expires_in] is [secs]. *)
Definition refreshed_record (oauth body : dict) (now secs : Z) : dict :=
  let updated :=
    dict_setitem
      (dict_setitem
         (dict_setitem oauth "accessToken" (dict_get body "access_token" JNull))
         "refreshToken" (dict_get body "refresh_token" (refresh_token_of oauth)))
      "expiresAt" (JNum (now + secs * 1000)) in
  match dict_find body "scope" with
  | Some (JStr sc) => dict_setitem updated "scopes" (JArr (map JStr (py_split sc)))
  | _ => updated
  end.

Definition refreshed_document (data : json) (oauth' : dict) : json :=
  match data with
  | JObj d => JObj (dict_setitem d "claudeAiOauth" (JObj oauth'))
  | _ => data
  end.

(** A relation between the trace before and after a computation. *)
Definition traces {A} (R : list Event -> list Event -> Prop) (m : M State A)
    : Prop :=
  forall w, R (trace w) (trace (snd (m w))).

(** No call at all. *)
Definition quiet {A} (m : M State A) : Prop := traces (fun t t' => t' = t) m.

(** Store writes only. *)
Definition only_writes (t t' : list Event) : Prop :=
  exists evs, t' = evs ++ t /\ forallb is_store_write evs = true.

(** Nothing, or one refresh request followed by store writes only. *)
Definition one_refresh_then_writes (t t' : list Event) : Prop :=
  t' = t
  \/ exists payload writes,
       t' = writes ++ EvRefreshPost payload :: t
       /\ forallb is_store_write writes = true.

(** The wire name of a generic tool name, and back. *)
Definition to_api_name (name : string) : string :=
  match Provider.assoc Provider._TOOL_NAME_TO_API name with
  | Some api => api
  | None => name
  end.

Definition from_api_name (api : string) : string :=
  match Provider.assoc Provider._TOOL_NAME_FROM_API api with
  | Some name => name
  | None => api
  end.

(** A key a dict accepts. *)
Definition hashable (v : json) : bool :=
  match v with
  | JArr _ | JObj _ => false
  | _ => true
  end.

(** What [_parse_response] makes of a content block: a text, a tool use,
    or a block of another type. *)
Inductive wire_block : Type :=
| WText (t : string)
| WToolUse (id : json) (name : string) (input : json)
| WOther.

Inductive reads_as : json -> wire_block -> Prop :=
| reads_text (b : json) (t : string) :
    subscript b "type" = Ok (JStr "text") ->
    subscript b "text" = Ok (JStr t) ->
    reads_as b (WText t)
| reads_tool_use (b id input : json) (name : string) :
    subscript b "type" = Ok (JStr "tool_use") ->
    subscript b "name" = Ok (JStr name) ->
    subscript b "id" = Ok id ->
    py_get b "input" (JObj []) = Ok input ->
    reads_as b (WToolUse id name input)
| reads_other (b ty : json) :
    subscript b "type" = Ok ty ->
    py_eq ty (JStr "text") = false ->
    py_eq ty (JStr "tool_use") = false ->
    reads_as b WOther.

Fixpoint block_texts (blocks : list wire_block) : list string :=
  match blocks with
  | [] => []
  | WText t :: rest => t :: block_texts rest
  | _ :: rest => block_texts rest
  end.

Fixpoint block_calls (blocks : list wire_block) : list ToolCallRequest :=
  match blocks with
  | [] => []
  | WToolUse id name input :: rest =>
      {| tc_id := id; tc_name := JStr (from_api_name name); tc_arguments := input |}
      :: block_calls rest
  | _ :: rest => block_calls rest
  end.

Fixpoint join_lines (lines : list string) : string :=
  match lines with
  | [] => EmptyString
  | [l] => l
  | l :: rest => (l ++ newline ++ join_lines rest)%string
  end.

Definition is_system_message (msg : dict) : bool :=
  match dict_find msg "role" with
  | Some role => py_eq role (JStr "system")
  | None => false
  end.

(** The usage [_parse_response] reports for a response document, when the
    document lets it be read: none without the key [usage], the two counts
    (0 for a missing one) and their sum for an object with integer counts. *)
Definition usage_record (d : dict) : option dict :=
  match dict_find d "usage" with
  | None => Some []
  | Some (JObj u) =>
      let prompt := dict_get u "input_tokens" (JNum 0) in
      let completion := dict_get u "output_tokens" (JNum 0) in
      match as_int prompt, as_int completion with
      | Some a, Some b =>
          Some [("prompt_tokens", prompt); ("completion_tokens", completion);
                ("total_tokens", JNum (a + b))]
      | _, _ => None
      end
  | Some _ => None
  end.

(** A text that [json.loads] either decodes or rejects with
    [JSONDecodeError], the one exception the conversion catches.  A text
    nested too deeply or with too long a number is not of this kind. *)
Definition decoded_or_rejected `{PyRuntime} (s : string) : Prop :=
  match json_loads s with
  | Some _ => True
  | None => json_loads_error s = JSONDecodeError
  end.

(** A tool call with the fields the conversion subscripts, whose arguments,
    when they are a text, are decoded or rejected by [json.loads]. *)
Definition well_formed_tool_call `{PyRuntime} (tc : json) : Prop :=
  exists fn args name id,
    subscript tc "function" = Ok fn
    /\ subscript fn "arguments" = Ok args
    /\ (forall s, args = JStr s -> decoded_or_rejected s)
    /\ subscript fn "name" = Ok name
    /\ hashable name = true
    /\ subscript tc "id" = Ok id.

(** A message with the keys [_build_body] subscripts for its role. *)
Definition well_formed_message `{PyRuntime} (msg : dict) : Prop :=
  exists role,
    dict_find msg "role" = Some role
    /\ if py_eq role (JStr "system") then dict_find msg "content" <> None
       else if py_eq role (JStr "tool") then True
       else if py_eq role (JStr "assistant") then
         truthy (dict_get msg "tool_calls" JNull) = false
         \/ exists tcs, dict_get msg "tool_calls" JNull = JArr tcs
                        /\ Forall well_formed_tool_call tcs
       else dict_find msg "content" <> None.

(** A tool definition, bare or wrapped under [function], with a name. *)
Definition well_formed_tool (tool : json) : Prop :=
  exists td fd name,
    tool = JObj td
    /\ dict_get td "function" tool = JObj fd
    /\ dict_find fd "name" = Some name
    /\ hashable name = true.

(** A wire message has the role [user] or [assistant]. *)
Definition wire_role (m : json) : Prop :=
  subscript m "role" = Ok (JStr "user")
  \/ subscript m "role" = Ok (JStr "assistant").

Fixpoint no_slash (s : string) : bool :=
  match s with
  | EmptyString => true
  | String c s' => negb (Ascii.eqb c "/"%char) && no_slash s'
  end.

(* ================================================================== *)
(** ** Properties of the token lifecycle *)

Ltac run :=
  unfold bind, ret, raise, lift, try_except, modify, gets, in_world in *;
  cbn [fst snd] in *.

Lemma py_json_loads_some `{PyRuntime} (s : string) (v : json) :
  json_loads s = Some v -> py_json_loads s = Ok v.
Proof. intros Hs. unfold py_json_loads. now rewrite Hs. Qed.

Lemma py_json_loads_none `{PyRuntime} (s : string) :
  json_loads s = None -> py_json_loads s = Raise (json_loads_error s).
Proof. intros Hs. unfold py_json_loads. now rewrite Hs. Qed.

Section AuthFacts.
Context `{PyRuntime}.
Variable E : Env.

Lemma oauth_record_get (data : json) (oauth : dict) :
  oauth_record data = Some oauth ->
  py_get data "claudeAiOauth" (JObj []) = Ok (JObj oauth).
Proof.
  unfold oauth_record, py_get. destruct data; try discriminate.
  destruct (dict_get fields "claudeAiOauth" (JObj [])); try discriminate.
  now intros [= ->].
Qed.

Lemma expired_run (oauth : dict) (w : State) :
  needs_refresh E w oauth ->
  Auth._is_token_expired E (expires_at_of oauth) w
  = (Ok true, after_expiry_check oauth w).
Proof.
  unfold needs_refresh, after_expiry_check, Auth._is_token_expired.
  intros [-> | (t & Ht & Hle)]; [reflexivity|].
  destruct (expires_at_of oauth) eqn:Hx; try discriminate; run;
    unfold Auth.current_time_ms, py_int_ge; rewrite Ht;
    replace (t <=? _) with true by (symmetry; apply Z.leb_le; exact Hle);
    reflexivity.
Qed.

Lemma trace_after_expiry_check (oauth : dict) (w : State) :
  trace (after_expiry_check oauth w) = trace w.
Proof. unfold after_expiry_check. now destruct (expires_at_of oauth). Qed.

(** C8: a credential document with an access token whose [expiresAt] is
    more than five minutes after the current time resolves to the stored
    access token; the clock is read once and nothing else happens: no
    refresh call, no store write. *)
Theorem C8_valid_token_returned_without_refresh
    (data : json) (oauth : dict) (storage_type : string) (w : State) (t : Z) :
  oauth_record data = Some oauth ->
  truthy (access_token_of oauth) = true ->
  expires_at_of oauth = JNum t ->
  clock_ms E (ticks w) + Auth.EXPIRY_BUFFER_MS < t ->
  Auth._extract_token E data storage_type w
  = (Ok (access_token_of oauth), set_ticks (S (ticks w)) w)
  /\ trace (snd (Auth._extract_token E data storage_type w)) = trace w
  /\ creds_file (snd (Auth._extract_token E data storage_type w)) = creds_file w
  /\ keychain (snd (Auth._extract_token E data storage_type w)) = keychain w.
Proof.
  intros Hrec Htok Hexp Hlt.
  assert (Hrun : Auth._extract_token E data storage_type w
                 = (Ok (access_token_of oauth), set_ticks (S (ticks w)) w)).
  { unfold Auth._extract_token. run.
    rewrite (oauth_record_get _ _ Hrec). cbn [py_get].
    fold (expires_at_of oauth). rewrite Hexp.
    unfold Auth._is_token_expired, Auth.current_time_ms. run.
    unfold py_int_ge. cbn [as_int].
    replace (t <=? _) with false by (symmetry; apply Z.leb_gt; exact Hlt).
    unfold Auth.return_token. fold (access_token_of oauth). now rewrite Htok. }
  rewrite Hrun. now repeat split.
Qed.

(** C10: a credential document that has no refresh token and whose
    [expiresAt] is absent or within the five-minute buffer resolves to no
    token, and no HTTP request and no store write is made. *)
Theorem C10_expired_without_refresh_token
    (data : json) (oauth : dict) (storage_type : string) (w : State) :
  oauth_record data = Some oauth ->
  truthy (refresh_token_of oauth) = false ->
  needs_refresh E w oauth ->
  fst (Auth._extract_token E data storage_type w) = Ok JNull
  /\ trace (snd (Auth._extract_token E data storage_type w)) = trace w
  /\ count is_http_call (trace (snd (Auth._extract_token E data storage_type w)))
     = count is_http_call (trace w).
Proof.
  intros Hrec Hrt Hexp.
  assert (Hrun : Auth._extract_token E data storage_type w
                 = (Ok JNull, after_expiry_check oauth w)).
  { unfold Auth._extract_token. run.
    rewrite (oauth_record_get _ _ Hrec). cbn [py_get].
    fold (expires_at_of oauth). rewrite (expired_run _ _ Hexp).
    fold (refresh_token_of oauth). now rewrite Hrt. }
  rewrite Hrun. cbn [fst snd].
  assert (Htr : trace (after_expiry_check oauth w) = trace w).
  { unfold after_expiry_check. now destruct (expires_at_of oauth). }
  now rewrite Htr.
Qed.

(** The refresh call as [_refresh_token] issues it, by what the endpoint
    answers. *)
Lemma refresh_run_failure (refresh_token : json) (w : State) :
  http_lib E <> NoHttpLib ->
  refresh_call_fails (token_endpoint E (Auth.refresh_payload refresh_token)) ->
  Auth._refresh_token E refresh_token w
  = (Ok JNull, log (EvRefreshPost (Auth.refresh_payload refresh_token)) w).
Proof.
  intros Hlib Hfail. unfold Auth._refresh_token.
  destruct (http_lib E); try congruence;
    unfold Auth._refresh_token_with_httpx, Auth._refresh_token_with_requests,
      Auth.post_token; run;
    destruct (token_endpoint E (Auth.refresh_payload refresh_token)) as [r|e];
    cbn in Hfail |- *; try reflexivity;
    apply Z.eqb_neq in Hfail; now rewrite Hfail.
Qed.

Lemma refresh_run_success (refresh_token : json) (w : State) (r : Response)
    (body : json) :
  http_lib E <> NoHttpLib ->
  token_endpoint E (Auth.refresh_payload refresh_token) = Reply r ->
  status_code r = 200 ->
  json_loads (text r) = Some body ->
  Auth._refresh_token E refresh_token w
  = (Ok body, log (EvRefreshPost (Auth.refresh_payload refresh_token)) w).
Proof.
  intros Hlib Hrep Hst Hbody. unfold Auth._refresh_token.
  destruct (http_lib E); try congruence;
    unfold Auth._refresh_token_with_httpx, Auth._refresh_token_with_requests,
      Auth.post_token, response_json, py_json_loads; run;
    rewrite Hrep, Hst, Hbody; reflexivity.
Qed.

(** C4: when the refresh call of an expired credential with a refresh token
    answers with a status other than 200 or fails in transport, the
    resolution yields no token, the refresh request is the only call made,
    and the store keeps the stale document: no write is attempted. *)
Theorem C4_failed_refresh_leaves_store_untouched
    (data : json) (oauth : dict) (storage_type : string) (w : State) :
  oauth_record data = Some oauth ->
  truthy (refresh_token_of oauth) = true ->
  needs_refresh E w oauth ->
  http_lib E <> NoHttpLib ->
  refresh_call_fails
    (token_endpoint E (Auth.refresh_payload (refresh_token_of oauth))) ->
  fst (Auth._extract_token E data storage_type w) = Ok JNull
  /\ trace (snd (Auth._extract_token E data storage_type w))
     = EvRefreshPost (Auth.refresh_payload (refresh_token_of oauth)) :: trace w
  /\ count is_store_write (trace (snd (Auth._extract_token E data storage_type w)))
     = count is_store_write (trace w)
  /\ creds_file (snd (Auth._extract_token E data storage_type w)) = creds_file w
  /\ keychain (snd (Auth._extract_token E data storage_type w)) = keychain w.
Proof.
  intros Hrec Hrt Hexp Hlib Hfail.
  assert (Hrun : Auth._extract_token E data storage_type w
                 = (Ok JNull,
                    log (EvRefreshPost (Auth.refresh_payload (refresh_token_of oauth)))
                      (after_expiry_check oauth w))).
  { unfold Auth._extract_token. run.
    rewrite (oauth_record_get _ _ Hrec). cbn [py_get].
    fold (expires_at_of oauth). rewrite (expired_run _ _ Hexp).
    fold (refresh_token_of oauth). rewrite Hrt. cbn [negb].
    now rewrite (refresh_run_failure _ _ Hlib Hfail). }
  rewrite Hrun. cbn [fst snd log trace creds_file keychain].
  unfold after_expiry_check.
  destruct (expires_at_of oauth); repeat split; reflexivity.
Qed.

Lemma dict_find_setitem_same (d : dict) (k : string) (v : json) :
  dict_find (dict_setitem d k v) k = Some v.
Proof.
  induction d as [|[k' v'] d IH]; cbn.
  - now rewrite String.eqb_refl.
  - destruct (String.eqb k' k) eqn:Hk; cbn; rewrite Hk; [reflexivity | exact IH].
Qed.

Lemma dict_find_setitem_other (d : dict) (k k' : string) (v : json) :
  k <> k' ->
  dict_find (dict_setitem d k v) k' = dict_find d k'.
Proof.
  intros Hne. induction d as [|[k0 v0] d IH]; cbn.
  - apply String.eqb_neq in Hne. now rewrite Hne.
  - destruct (String.eqb k0 k) eqn:Hk; cbn.
    + apply String.eqb_eq in Hk. subst k0.
      apply String.eqb_neq in Hne. now rewrite Hne.
    + destruct (String.eqb k0 k'); [reflexivity | exact IH].
Qed.

Lemma dict_get_setitem_same (d : dict) (k : string) (v default : json) :
  dict_get (dict_setitem d k v) k default = v.
Proof. unfold dict_get. now rewrite dict_find_setitem_same. Qed.

Lemma dict_get_setitem_other (d : dict) (k k' : string) (v default : json) :
  k <> k' ->
  dict_get (dict_setitem d k v) k' default = dict_get d k' default.
Proof. intros. unfold dict_get. now rewrite dict_find_setitem_other. Qed.

(** Saving never raises, and makes exactly the calls of [save_events]. *)
Lemma save_run (storage_type : string) (data : json) (w : State) :
  exists saved : bool,
    fst (Auth.save_credentials E storage_type data w) = Ok saved
    /\ trace (snd (Auth.save_credentials E storage_type data w))
       = save_events E storage_type (json_dumps data) ++ trace w
    /\ ticks (snd (Auth.save_credentials E storage_type data w)) = ticks w
    /\ sent (snd (Auth.save_credentials E storage_type data w)) = sent w.
Proof.
  unfold Auth.save_credentials, save_events,
    Auth._save_credentials_to_keychain, Auth._save_credentials_to_file.
  destruct (String.eqb storage_type "keychain"); run.
  - destruct (security_delete_fails E); cbn.
    + now exists false.
    + destruct (security_add E); cbn;
        [now exists true | now exists false | now exists false].
  - destruct (file_write_fails E); cbn; [now exists false | now exists true].
Qed.

Lemma save_file_run (storage_type : string) (data : json) (w : State) :
  String.eqb storage_type "keychain" = false ->
  file_write_fails E = false ->
  creds_file (snd (Auth.save_credentials E storage_type data w))
  = Some (json_dumps data).
Proof.
  intros Hst Hw.
  unfold Auth.save_credentials, Auth._save_credentials_to_file.
  rewrite Hst. run. now rewrite Hw.
Qed.

Lemma save_then_return {A} (storage_type : string) (data : json) (w : State)
    (a : A) :
  bind (Auth.save_credentials E storage_type data) (fun _ => ret a) w
  = (Ok a, snd (Auth.save_credentials E storage_type data w)).
Proof.
  destruct (save_run storage_type data w) as (b & Hb & _).
  unfold bind, ret.
  destruct (Auth.save_credentials E storage_type data w) as [res w'].
  cbn in Hb |- *. now subst res.
Qed.

(** The success path of [_extract_token]: an expired record with a refresh
    token, and a 200 answer whose body is a non-empty object with an integer
    [expires_in] (or none) and a string [scope] (or none). *)
Lemma refresh_update_run
    (data : json) (oauth : dict) (storage_type : string) (w : State)
    (r : Response) (body : dict) (secs : Z) :
  oauth_record data = Some oauth ->
  truthy (refresh_token_of oauth) = true ->
  needs_refresh E w oauth ->
  http_lib E <> NoHttpLib ->
  token_endpoint E (Auth.refresh_payload (refresh_token_of oauth)) = Reply r ->
  status_code r = 200 ->
  json_loads (text r) = Some (JObj body) ->
  body <> [] ->
  as_int (dict_get body "expires_in" (JNum 3600)) = Some secs ->
  (dict_find body "scope" = None
   \/ exists sc, dict_find body "scope" = Some (JStr sc)) ->
  exists (data' : json) (oauth' : dict),
    let w1 := log (EvRefreshPost (Auth.refresh_payload (refresh_token_of oauth)))
                (after_expiry_check oauth w) in
    Auth._extract_token E data storage_type w
    = (Ok (Auth.return_token (dict_get body "access_token" JNull)),
       snd (Auth.save_credentials E storage_type data' (set_ticks (S (ticks w1)) w1)))
    /\ oauth_record data' = Some oauth'
    /\ dict_find oauth' "accessToken" = Some (dict_get body "access_token" JNull)
    /\ dict_find oauth' "refreshToken"
       = Some (dict_get body "refresh_token" (refresh_token_of oauth))
    /\ dict_find oauth' "expiresAt"
       = Some (JNum (clock_ms E (ticks w1) + secs * 1000))
    /\ (forall sc, dict_find body "scope" = Some (JStr sc) ->
        dict_find oauth' "scopes" = Some (JArr (map JStr (py_split sc))))
    /\ (dict_find body "scope" = None ->
        dict_find oauth' "scopes" = dict_find oauth "scopes").
Proof.
  intros Hrec Hrt Hexp Hlib Hrep Hst Hbody Hne Hsecs Hscope.
  set (new_access := dict_get body "access_token" JNull).
  set (new_refresh := dict_get body "refresh_token" (refresh_token_of oauth)).
  set (w1 := log (EvRefreshPost (Auth.refresh_payload (refresh_token_of oauth)))
               (after_expiry_check oauth w)).
  set (new_expires := JNum (clock_ms E (ticks w1) + secs * 1000)).
  set (oauth3 :=
         dict_setitem
           (dict_setitem (dict_setitem oauth "accessToken" new_access)
              "refreshToken" new_refresh)
           "expiresAt" new_expires).
  set (oauth' :=
         match dict_find body "scope" with
         | Some (JStr sc) => dict_setitem oauth3 "scopes" (JArr (map JStr (py_split sc)))
         | _ => oauth3
         end).
  destruct data as [| | | | |d]; try discriminate.
  exists (JObj (dict_setitem d "claudeAiOauth" (JObj oauth'))), oauth'.
  cbv zeta.
  assert (Hmul : exists m, py_mul_int (dict_get body "expires_in" (JNum 3600)) 1000
                           = Ok (JNum m) /\ m = secs * 1000).
  { destruct (dict_get body "expires_in" (JNum 3600)); try discriminate;
      cbn in Hsecs |- *; injection Hsecs as <-; eexists; split; reflexivity. }
  destruct Hmul as (m & Hmul & ->).
  split.
  { unfold Auth._extract_token. run.
    rewrite (oauth_record_get _ _ Hrec). cbn [py_get].
    fold (expires_at_of oauth). rewrite (expired_run _ _ Hexp).
    fold (refresh_token_of oauth). rewrite Hrt. cbn [negb].
    rewrite (refresh_run_success _ _ _ _ Hlib Hrep Hst Hbody).
    fold w1.
    assert (Htr : truthy (JObj body) = true) by (destruct body; [congruence|reflexivity]).
    rewrite Htr. cbn [py_get].
    unfold Auth.current_time_ms. rewrite Hmul. cbn [py_add as_int].
    cbn [py_setitem py_contains].
    fold new_access new_refresh new_expires oauth3.
    unfold dict_contains.
    destruct Hscope as [Hno | (sc & Hsc)].
    - subst oauth'. rewrite Hno. cbn [py_setitem].
      exact (save_then_return _ _ _ _).
    - subst oauth'. rewrite Hsc. unfold subscript, dict_getitem. rewrite Hsc.
      cbn [py_split_method py_setitem].
      exact (save_then_return _ _ _ _). }
  assert (H3a : dict_find oauth3 "accessToken" = Some new_access).
  { subst oauth3. rewrite !dict_find_setitem_other by discriminate.
    apply dict_find_setitem_same. }
  assert (H3r : dict_find oauth3 "refreshToken" = Some new_refresh).
  { subst oauth3. rewrite dict_find_setitem_other by discriminate.
    apply dict_find_setitem_same. }
  assert (H3e : dict_find oauth3 "expiresAt" = Some new_expires).
  { subst oauth3. apply dict_find_setitem_same. }
  assert (H3s : dict_find oauth3 "scopes" = dict_find oauth "scopes").
  { subst oauth3. now rewrite !dict_find_setitem_other by discriminate. }
  repeat split.
  - unfold oauth_record. now rewrite dict_get_setitem_same.
  - subst oauth'. destruct (dict_find body "scope") as [[]|];
      rewrite ?dict_find_setitem_other by discriminate; exact H3a.
  - subst oauth'. destruct (dict_find body "scope") as [[]|];
      rewrite ?dict_find_setitem_other by discriminate; exact H3r.
  - subst oauth'. destruct (dict_find body "scope") as [[]|];
      rewrite ?dict_find_setitem_other by discriminate; exact H3e.
  - intros sc Hsc. subst oauth'. rewrite Hsc. apply dict_find_setitem_same.
  - intros Hno. subst oauth'. rewrite Hno. exact H3s.
Qed.

Lemma no_space_snoc (word : string) (c : ascii) :
  no_space word = true ->
  is_space c = false ->
  no_space (word ++ String c EmptyString) = true.
Proof.
  intros Hw Hc. induction word as [|a word IH]; cbn in *.
  - now rewrite Hc.
  - apply andb_true_iff in Hw. destruct Hw as [Ha Hw].
    rewrite Ha. cbn. now apply IH.
Qed.

Lemma split_go_pieces (s word : string) :
  no_space word = true ->
  Forall (fun piece => nonempty_str piece = true /\ no_space piece = true)
    (split_go s word).
Proof.
  revert word. induction s as [|c s IH]; intros word Hword; cbn [split_go].
  - destruct (nonempty_str word) eqn:Hne; constructor; auto.
  - destruct (is_space c) eqn:Hc.
    + destruct (nonempty_str word) eqn:Hne.
      * constructor; [auto | now apply IH].
      * now apply IH.
    + apply IH. now apply no_space_snoc.
Qed.

(** [s.split()] yields non-empty pieces without whitespace. *)
Lemma py_split_pieces (s : string) :
  Forall (fun piece => nonempty_str piece = true /\ no_space piece = true)
    (py_split s).
Proof. now apply split_go_pieces. Qed.

Lemma py_split_scopes :
  py_split "user:inference   user:mcp_servers user:profile "
  = ["user:inference"; "user:mcp_servers"; "user:profile"].
Proof. reflexivity. Qed.

(** C3 (amended): for an expired credential with a refresh token, when the
    refresh endpoint answers 200 with a JSON object whose [access_token] is
    non-empty, whose [expires_in] is an integer or absent and whose [scope]
    is a string or absent, the resolved token is the new [access_token]; the
    document handed to the store has [accessToken] the new token,
    [expiresAt] the clock reading plus [expires_in * 1000] (3600 seconds
    when the body has no [expires_in]), the prior [refreshToken] when the
    body has none, and [scopes] the whitespace split of a [scope] string. *)
Theorem C3_refresh_updates_record_and_resolves
    (data : json) (oauth : dict) (storage_type : string) (w : State)
    (r : Response) (body : dict) (new_token : json) (secs : Z) :
  oauth_record data = Some oauth ->
  truthy (refresh_token_of oauth) = true ->
  needs_refresh E w oauth ->
  http_lib E <> NoHttpLib ->
  token_endpoint E (Auth.refresh_payload (refresh_token_of oauth)) = Reply r ->
  status_code r = 200 ->
  json_loads (text r) = Some (JObj body) ->
  dict_find body "access_token" = Some new_token ->
  truthy new_token = true ->
  as_int (dict_get body "expires_in" (JNum 3600)) = Some secs ->
  (dict_find body "scope" = None
   \/ exists sc, dict_find body "scope" = Some (JStr sc)) ->
  exists (data' : json) (oauth' : dict),
    fst (Auth._extract_token E data storage_type w) = Ok new_token
    /\ trace (snd (Auth._extract_token E data storage_type w))
       = save_events E storage_type (json_dumps data')
         ++ EvRefreshPost (Auth.refresh_payload (refresh_token_of oauth)) :: trace w
    /\ (String.eqb storage_type "keychain" = false ->
        file_write_fails E = false ->
        creds_file (snd (Auth._extract_token E data storage_type w))
        = Some (json_dumps data'))
    /\ oauth_record data' = Some oauth'
    /\ dict_find oauth' "accessToken" = Some new_token
    /\ dict_find oauth' "expiresAt"
       = Some (JNum (clock_ms E (ticks (after_expiry_check oauth w)) + secs * 1000))
    /\ (dict_find body "expires_in" = None -> secs = 3600)
    /\ (dict_find body "refresh_token" = None ->
        dict_find oauth' "refreshToken" = Some (refresh_token_of oauth))
    /\ (forall sc, dict_find body "scope" = Some (JStr sc) ->
        dict_find oauth' "scopes" = Some (JArr (map JStr (py_split sc)))).
Proof.
  intros Hrec Hrt Hexp Hlib Hrep Hst Hbody Hnew Htruthy Hsecs Hscope.
  assert (Hne : body <> []) by (intros ->; discriminate).
  destruct (refresh_update_run data oauth storage_type w r body secs
              Hrec Hrt Hexp Hlib Hrep Hst Hbody Hne Hsecs Hscope)
    as (data' & oauth' & Hrun & Hrec' & Hat & Hrf & Hex & Hsc & _).
  cbv zeta in Hrun, Hex.
  assert (Hget : dict_get body "access_token" JNull = new_token)
    by (unfold dict_get; now rewrite Hnew).
  rewrite Hget in Hrun, Hat.
  exists data', oauth'. rewrite Hrun. cbn [fst snd].
  unfold Auth.return_token. rewrite Htruthy.
  match goal with
  | |- context [Auth.save_credentials E storage_type data' ?w2] =>
      destruct (save_run storage_type data' w2) as (b & _ & Htr & _);
      pose proof (save_file_run storage_type data' w2) as Hfile
  end.
  repeat split; try assumption.
  - rewrite Htr. cbn [trace set_ticks log].
    now rewrite trace_after_expiry_check.
  - intros Hno. unfold dict_get in Hsecs. rewrite Hno in Hsecs.
    now injection Hsecs as <-.
  - intros Hno. rewrite Hrf. unfold dict_get. now rewrite Hno.
Qed.

(** C5 (amended): for an expired credential with a refresh token, when the
    refresh endpoint answers 200 with a non-empty JSON object that has no
    [access_token] field (and an integer or absent [expires_in], a string or
    absent [scope]), no token is resolved, yet the document is saved: the
    saved record has [accessToken] null and a fresh [expiresAt], and a file
    store that accepts the write holds it afterwards. *)
Theorem C5_refresh_without_access_token_still_saves
    (data : json) (oauth : dict) (storage_type : string) (w : State)
    (r : Response) (body : dict) (secs : Z) :
  oauth_record data = Some oauth ->
  truthy (refresh_token_of oauth) = true ->
  needs_refresh E w oauth ->
  http_lib E <> NoHttpLib ->
  token_endpoint E (Auth.refresh_payload (refresh_token_of oauth)) = Reply r ->
  status_code r = 200 ->
  json_loads (text r) = Some (JObj body) ->
  body <> [] ->
  dict_find body "access_token" = None ->
  as_int (dict_get body "expires_in" (JNum 3600)) = Some secs ->
  (dict_find body "scope" = None
   \/ exists sc, dict_find body "scope" = Some (JStr sc)) ->
  exists (data' : json) (oauth' : dict),
    fst (Auth._extract_token E data storage_type w) = Ok JNull
    /\ trace (snd (Auth._extract_token E data storage_type w))
       = save_events E storage_type (json_dumps data')
         ++ EvRefreshPost (Auth.refresh_payload (refresh_token_of oauth)) :: trace w
    /\ (String.eqb storage_type "keychain" = false ->
        file_write_fails E = false ->
        creds_file (snd (Auth._extract_token E data storage_type w))
        = Some (json_dumps data'))
    /\ oauth_record data' = Some oauth'
    /\ dict_find oauth' "accessToken" = Some JNull
    /\ dict_find oauth' "expiresAt"
       = Some (JNum (clock_ms E (ticks (after_expiry_check oauth w)) + secs * 1000)).
Proof.
  intros Hrec Hrt Hexp Hlib Hrep Hst Hbody Hne Hnew Hsecs Hscope.
  destruct (refresh_update_run data oauth storage_type w r body secs
              Hrec Hrt Hexp Hlib Hrep Hst Hbody Hne Hsecs Hscope)
    as (data' & oauth' & Hrun & Hrec' & Hat & _ & Hex & _).
  cbv zeta in Hrun, Hex.
  assert (Hget : dict_get body "access_token" JNull = JNull)
    by (unfold dict_get; now rewrite Hnew).
  rewrite Hget in Hrun, Hat.
  exists data', oauth'. rewrite Hrun. cbn [fst snd].
  match goal with
  | |- context [Auth.save_credentials E storage_type data' ?w2] =>
      destruct (save_run storage_type data' w2) as (b & _ & Htr & _);
      pose proof (save_file_run storage_type data' w2) as Hfile
  end.
  repeat split; try assumption.
  rewrite Htr. cbn [trace set_ticks log].
  now rewrite trace_after_expiry_check.
Qed.

(** [get_claude_code_token] on a host with a credentials file: the
    document in the file goes to [_extract_token], and whatever that raises
    is no token. *)
Lemma resolve_from_file (w : State) (content : string) (data : json) :
  String.eqb (platform_system E) "Darwin" = false ->
  String.eqb (platform_system E) "Linux"
  || String.eqb (platform_system E) "Windows" = true ->
  creds_file w = Some content ->
  file_read_fails E = false ->
  json_loads content = Some data ->
  Auth.get_claude_code_token E w
  = try_except (Auth._extract_token E data "file") (fun _ => ret JNull)
      (log EvResolve w).
Proof.
  intros Hd Hl Hfile Hread Hdata.
  unfold Auth.get_claude_code_token, Auth._get_token_from_credentials_file.
  run. rewrite Hd, Hl. cbn [creds_file log].
  rewrite Hfile, Hread, (py_json_loads_some _ _ Hdata).
  reflexivity.
Qed.

(** What [_extract_token] returns for the document of the file is what
    the resolution returns. *)
Lemma resolve_returns_extract (w w' : State) (content : string) (data token : json) :
  String.eqb (platform_system E) "Darwin" = false ->
  String.eqb (platform_system E) "Linux"
  || String.eqb (platform_system E) "Windows" = true ->
  creds_file w = Some content ->
  file_read_fails E = false ->
  json_loads content = Some data ->
  Auth._extract_token E data "file" (log EvResolve w) = (Ok token, w') ->
  Auth.get_claude_code_token E w = (Ok token, w').
Proof.
  intros Hd Hl Hfile Hread Hdata Hrun.
  rewrite (resolve_from_file w content data Hd Hl Hfile Hread Hdata).
  unfold try_except. now rewrite Hrun.
Qed.

(** The same on macOS, from the keychain entry. *)
Lemma resolve_from_keychain (w : State) (stdout : string) (data : json) :
  String.eqb (platform_system E) "Darwin" = true ->
  security_find_fails E = false ->
  keychain w = Some stdout ->
  json_loads (py_strip stdout) = Some data ->
  Auth.get_claude_code_token E w
  = try_except (Auth._extract_token E data "keychain") (fun _ => ret JNull)
      (log EvResolve w).
Proof.
  intros Hd Hfind Hentry Hdata.
  unfold Auth.get_claude_code_token, Auth._get_token_from_keychain.
  run. rewrite Hd, Hfind. cbn [keychain log].
  rewrite Hentry, (py_json_loads_some _ _ Hdata).
  reflexivity.
Qed.

End AuthFacts.

(* ================================================================== *)
(** ** Properties of the translation *)

Section TranslatorFacts.
Context `{PyRuntime}.

Lemma build_loop_system_parts (messages : list dict) :
  forall (system_parts : list string) (anthropic_messages : list json)
         (parts : list string * list json),
    Provider.build_loop messages system_parts anthropic_messages = Ok parts ->
    fst parts = system_parts ++ system_texts messages.
Proof.
  induction messages as [|msg rest IH]; intros sp am parts; cbn [Provider.build_loop system_texts].
  - intros [= <-]. cbn. now rewrite app_nil_r.
  - unfold dict_getitem.
    destruct (dict_find msg "role") as [role|]; cbn [rbind]; [|discriminate].
    destruct (py_eq role (JStr "system")) eqn:Hsys.
    + destruct (dict_find msg "content") as [content|]; cbn [rbind]; [|discriminate].
      destruct content; intros Hrun; apply IH in Hrun; rewrite Hrun;
        try reflexivity.
      now rewrite <- app_assoc.
    + assert (Hskip : match dict_find msg "content" with
                      | Some (JStr s) => system_texts rest
                      | _ => system_texts rest
                      end = system_texts rest)
        by (destruct (dict_find msg "content") as [[]|]; reflexivity).
      rewrite Hskip.
      destruct (py_eq role (JStr "tool")); [now apply IH|].
      destruct (py_eq role (JStr "assistant")).
      * destruct (Provider._convert_assistant_msg msg); cbn [rbind];
          [now apply IH | discriminate].
      * destruct (dict_find msg "content"); cbn [rbind];
          [now apply IH | discriminate].
Qed.

Lemma body_system (messages : list dict) (tools : json) (model : string)
    (max_tokens temperature body : json) :
  Provider._build_body messages tools model max_tokens temperature = Ok body ->
  subscript body "system"
  = Ok (JArr (map Provider.text_block
                (Provider.CLAUDE_CODE_SYSTEM_PREFIX :: system_texts messages))).
Proof.
  unfold Provider._build_body.
  destruct (Provider.build_loop messages [Provider.CLAUDE_CODE_SYSTEM_PREFIX] [])
    as [parts|] eqn:Hloop; cbn [rbind]; [|discriminate].
  apply build_loop_system_parts in Hloop. rewrite Hloop. cbn [app].
  destruct (truthy tools).
  - destruct (Provider._convert_tools tools); cbn [rbind]; [|discriminate].
    now intros [= <-].
  - now intros [= <-].
Qed.

(** C6 (amended): whenever a request is built, its system block list is the
    fixed identification block followed by one text block for each
    system-role message whose content is a string, in their original order
    (a system message with any other content is skipped); the two system
    messages of the scenario give exactly three blocks. *)
Theorem C6_system_blocks_prefix_then_messages_in_order :
  (forall (messages : list dict) (tools : json) (model : string)
          (max_tokens temperature body : json),
      Provider._build_body messages tools model max_tokens temperature = Ok body ->
      subscript body "system"
      = Ok (JArr (Provider.text_block Provider.CLAUDE_CODE_SYSTEM_PREFIX
                  :: map Provider.text_block (system_texts messages))))
  /\ (forall (model : string) (max_tokens temperature : json),
      exists body,
        Provider._build_body
          [system_message "Be concise."; system_message "Use metric units."]
          JNull model max_tokens temperature = Ok body
        /\ subscript body "system"
           = Ok (JArr [Provider.text_block Provider.CLAUDE_CODE_SYSTEM_PREFIX;
                       Provider.text_block "Be concise.";
                       Provider.text_block "Use metric units."])).
Proof.
  split.
  - intros * Hbody. now apply body_system in Hbody.
  - intros. eexists. split; reflexivity.
Qed.

Lemma to_api_from_api (name : string) :
  name <> "ReadFile" ->
  exists api : string,
    Provider.name_map_get Provider._TOOL_NAME_TO_API (JStr name) = Ok (JStr api)
    /\ Provider.name_map_get Provider._TOOL_NAME_FROM_API (JStr api) = Ok (JStr name).
Proof.
  intros Hne.
  unfold Provider.name_map_get, Provider._TOOL_NAME_FROM_API,
    Provider._TOOL_NAME_TO_API.
  cbn [map fst snd Provider.assoc].
  destruct (String.eqb "read_file" name) eqn:Hrf.
  - apply String.eqb_eq in Hrf. subst name. now exists "ReadFile".
  - exists name. split; [reflexivity|].
    cbn [Provider.assoc].
    assert (Hx : String.eqb "ReadFile" name = false)
      by (apply String.eqb_neq; congruence).
    now rewrite Hx.
Qed.

(** C7 (amended): an assistant message with an optional text and one tool
    call whose arguments are an object, converted to wire format and its
    content blocks parsed back as a response, gives one tool-call request
    with the same id, the same arguments and, for every tool name other than
    [ReadFile], the same name. *)
Theorem C7_tool_call_round_trip
    (msg : dict) (tc fn id : json) (name : string) (args : dict) :
  dict_get msg "tool_calls" JNull = JArr [tc] ->
  subscript tc "function" = Ok fn ->
  subscript fn "arguments" = Ok (JObj args) ->
  subscript fn "name" = Ok (JStr name) ->
  subscript tc "id" = Ok id ->
  (dict_get msg "content" JNull = JNull
   \/ exists t, dict_get msg "content" JNull = JStr t) ->
  name <> "ReadFile" ->
  exists (blocks : list json) (resp : LLMResponse),
    Provider._convert_assistant_msg msg
    = Ok (JObj [("role", JStr "assistant"); ("content", JArr blocks)])
    /\ Provider._parse_response
         (JObj [("content", JArr blocks); ("stop_reason", JStr "tool_use")])
       = Ok resp
    /\ tool_calls resp
       = [{| tc_id := id; tc_name := JStr name; tc_arguments := JObj args |}].
Proof.
  intros Htcs Hfn Hargs Hname Hid Hcontent Hne.
  destruct (to_api_from_api name Hne) as (api & Hto & Hfrom).
  assert (Hconv : Provider.convert_tool_call tc
                  = Ok (JObj [("type", JStr "tool_use"); ("id", id);
                              ("name", JStr api); ("input", JObj args)])).
  { unfold Provider.convert_tool_call.
    rewrite Hfn. cbn [rbind]. rewrite Hargs. cbn [rbind].
    rewrite Hname. cbn [rbind]. rewrite Hid. cbn [rbind].
    rewrite Hto. reflexivity. }
  assert (Hblock : forall acc,
             Provider.parse_block acc
               (JObj [("type", JStr "tool_use"); ("id", id);
                      ("name", JStr api); ("input", JObj args)])
             = Ok (fst acc,
                   snd acc ++ [{| tc_id := id; tc_name := JStr name;
                                  tc_arguments := JObj args |}])).
  { intros acc. unfold Provider.parse_block.
    cbn -[Provider.name_map_get Provider._TOOL_NAME_FROM_API].
    rewrite Hfrom. reflexivity. }
  unfold Provider._convert_assistant_msg. rewrite Htcs.
  cbn [truthy py_iter rbind rmap]. rewrite Hconv. cbn [rbind].
  destruct Hcontent as [Hc | (t & Hc)]; rewrite Hc; cbn [truthy].
  - eexists. eexists. split; [reflexivity|].
    unfold Provider._parse_response.
    cbn [py_get dict_get dict_find String.eqb Ascii.eqb Bool.eqb py_iter rbind
         Provider.parse_blocks app].
    rewrite Hblock. cbn. split; reflexivity.
  - destruct t as [|c t']; cbn [nonempty_str].
    + eexists. eexists. split; [reflexivity|].
      unfold Provider._parse_response.
      cbn [py_get dict_get dict_find String.eqb Ascii.eqb Bool.eqb py_iter rbind
           Provider.parse_blocks app].
      rewrite Hblock. cbn. split; reflexivity.
    + eexists. eexists. split; [reflexivity|].
      unfold Provider._parse_response.
      cbn [py_get dict_get dict_find String.eqb Ascii.eqb Bool.eqb py_iter rbind
           Provider.parse_blocks app].
      assert (Htext : Provider.parse_block ([], [])
                        (JObj [("type", JStr "text"); ("text", JStr (String c t'))])
                      = Ok ([JStr (String c t')], [])) by reflexivity.
      rewrite Htext. cbn [rbind]. rewrite Hblock. cbn. split; reflexivity.
Qed.





End TranslatorFacts.

(* ================================================================== *)
(** ** Properties of the orchestrator *)

Section OrchestratorFacts.
Context `{PyRuntime}.
Variable E : Env.

Lemma auth_frame_refl (w : State) : auth_frame w w.
Proof. split; [reflexivity|]. now exists []. Qed.

Lemma auth_frame_trans (w1 w2 w3 : State) :
  auth_frame w1 w2 -> auth_frame w2 w3 -> auth_frame w1 w3.
Proof.
  intros (Hs1 & e1 & Ht1 & He1) (Hs2 & e2 & Ht2 & He2). split.
  - congruence.
  - exists (e2 ++ e1). split.
    + rewrite Ht2, Ht1. now rewrite app_assoc.
    + rewrite forallb_app. now rewrite He1, He2.
Qed.

Lemma framed_ret {A} (a : A) : framed (ret a).
Proof. intros w. apply auth_frame_refl. Qed.

Lemma framed_raise {A} (e : exn) : framed (@raise State A e).
Proof. intros w. apply auth_frame_refl. Qed.

Lemma framed_lift {A} (r : result A) : framed (lift r).
Proof. intros w. apply auth_frame_refl. Qed.

Lemma framed_gets {A} (f : State -> A) : framed (gets f).
Proof. intros w. apply auth_frame_refl. Qed.

Lemma framed_bind {A B} (m : M State A) (k : A -> M State B) :
  framed m -> (forall a, framed (k a)) -> framed (bind m k).
Proof.
  intros Hm Hk w. unfold bind. specialize (Hm w).
  destruct (m w) as [[a|e] w1]; cbn [snd] in *.
  - eapply auth_frame_trans; [exact Hm | apply Hk].
  - exact Hm.
Qed.

Lemma framed_try {A} (m : M State A) (h : exn -> M State A) :
  framed m -> (forall e, framed (h e)) -> framed (try_except m h).
Proof.
  intros Hm Hh w. unfold try_except. specialize (Hm w).
  destruct (m w) as [[a|e] w1]; cbn [snd] in *.
  - exact Hm.
  - eapply auth_frame_trans; [exact Hm | apply Hh].
Qed.

Lemma framed_log (e : Event) : is_auth_event e = true -> framed (modify (log e)).
Proof.
  intros He w. split; [reflexivity|]. exists [e]. split; [reflexivity|].
  cbn. now rewrite He.
Qed.

Lemma framed_set_creds_file (f : option string) : framed (modify (set_creds_file f)).
Proof. intros w. split; [reflexivity|]. now exists []. Qed.

Lemma framed_set_keychain (k : option string) : framed (modify (set_keychain k)).
Proof. intros w. split; [reflexivity|]. now exists []. Qed.

Lemma framed_current_time : framed (Auth.current_time_ms E).
Proof. intros w. split; [reflexivity|]. now exists []. Qed.

Create HintDb framed.

#[local] Hint Resolve framed_ret framed_raise framed_lift framed_gets framed_log
  framed_set_creds_file framed_set_keychain framed_current_time : framed.

Ltac framed_step :=
  first
    [ apply framed_bind; [| intros ?]
    | apply framed_try; [| intros ?]
    | solve [auto with framed]
    | match goal with
      | |- framed (if ?b then _ else _) => destruct b
      | |- framed (match ?x with _ => _ end) => destruct x
      end ].

Lemma framed_refresh_token (refresh_token : json) :
  framed (Auth._refresh_token E refresh_token).
Proof.
  unfold Auth._refresh_token, Auth._refresh_token_with_httpx,
    Auth._refresh_token_with_requests, Auth.post_token.
  repeat framed_step.
Qed.

Lemma framed_save (storage_type : string) (data : json) :
  framed (Auth.save_credentials E storage_type data).
Proof.
  unfold Auth.save_credentials, Auth._save_credentials_to_keychain,
    Auth._save_credentials_to_file.
  repeat framed_step.
Qed.

Lemma framed_is_token_expired (expires_at : json) :
  framed (Auth._is_token_expired E expires_at).
Proof. unfold Auth._is_token_expired. repeat framed_step. Qed.

#[local] Hint Resolve framed_refresh_token framed_save framed_is_token_expired : framed.

Lemma framed_extract_token (data : json) (storage_type : string) :
  framed (Auth._extract_token E data storage_type).
Proof. unfold Auth._extract_token. repeat framed_step. Qed.

#[local] Hint Resolve framed_extract_token : framed.

Lemma framed_from_keychain : framed (Auth._get_token_from_keychain E).
Proof. unfold Auth._get_token_from_keychain. repeat framed_step. Qed.

Lemma framed_from_file : framed (Auth._get_token_from_credentials_file E).
Proof. unfold Auth._get_token_from_credentials_file. repeat framed_step. Qed.

Lemma total_try {S A} (m : M S A) (a : A) :
  total (try_except m (fun _ => ret a)).
Proof.
  intros s. unfold try_except, ret.
  destruct (m s) as [[x|e] s1]; cbn; eauto.
Qed.

Lemma total_from_keychain : total (Auth._get_token_from_keychain E).
Proof. apply total_try. Qed.

Lemma total_from_file : total (Auth._get_token_from_credentials_file E).
Proof.
  intros w. unfold Auth._get_token_from_credentials_file. run.
  destruct (creds_file w); [apply total_try | cbn; eauto].
Qed.

(** One resolution never raises, is logged once, makes no chat request and
    leaves the request counter alone. *)
Lemma resolve_run (w : State) :
  exists (token : json) (w' : State) (evs : list Event),
    Auth.get_claude_code_token E w = (Ok token, w')
    /\ sent w' = sent w
    /\ trace w' = evs ++ EvResolve :: trace w
    /\ forallb is_auth_event evs = true.
Proof.
  unfold Auth.get_claude_code_token. run.
  set (w0 := log EvResolve w).
  assert (Hcase : forall m : M State json,
             framed m -> total m ->
             exists token w' evs,
               m w0 = (Ok token, w') /\ sent w' = sent w
               /\ trace w' = evs ++ EvResolve :: trace w
               /\ forallb is_auth_event evs = true).
  { intros m Hf Ht. destruct (Ht w0) as (token & Hok).
    destruct (Hf w0) as (Hsent & evs & Htr & Hev).
    destruct (m w0) as [r w'] eqn:Hm. cbn [fst snd] in *. subst r.
    exists token, w', evs. repeat split; assumption. }
  destruct (String.eqb (platform_system E) "Darwin").
  - apply Hcase; [apply framed_from_keychain | apply total_from_keychain].
  - destruct (String.eqb (platform_system E) "Linux"
              || String.eqb (platform_system E) "Windows").
    + apply Hcase; [apply framed_from_file | apply total_from_file].
    + exists JNull, w0, []. repeat split; reflexivity.
Qed.

Lemma count_app (p : Event -> bool) (t1 t2 : list Event) :
  count p (t1 ++ t2) = (count p t1 + count p t2)%nat.
Proof. unfold count. now rewrite filter_app, length_app. Qed.

Lemma count_auth_events (evs : list Event) :
  forallb is_auth_event evs = true ->
  count is_chat_post evs = 0%nat /\ count is_resolve evs = 0%nat.
Proof.
  unfold count. induction evs as [|e evs IH]; cbn; [now split|].
  intros Hall. apply andb_true_iff in Hall. destruct Hall as [He Hall].
  destruct (IH Hall) as [IH1 IH2].
  destruct e; try discriminate; cbn; now split.
Qed.

Lemma send_run (body : json) (s : PState) :
  Provider._send_request E body s
  = (match messages_endpoint E (sent (world s)) (oauth_token (self s)) body with
     | Reply r => Ok r
     | Fails e => Raise e
     end,
     after_send (oauth_token (self s)) body s).
Proof.
  unfold Provider._send_request, after_send. run.
  now destruct (messages_endpoint E (sent (world s)) (oauth_token (self s)) body).
Qed.

Lemma settle_error (resp : Response) :
  status_code resp <> 200 ->
  settle resp = Provider.error_response (Provider.api_error_text resp).
Proof.
  intros Hst. unfold settle, Provider.conclude.
  apply Z.eqb_neq in Hst. now rewrite Hst.
Qed.

Lemma provider_refresh_run (s : PState) (new_token : json) (w2 : State) :
  Auth.get_claude_code_token E (world s) = (Ok new_token, w2) ->
  Provider._refresh_token E s
  = if truthy new_token && negb (py_eq new_token (oauth_token (self s)))
    then (Ok true, {| self := with_token new_token (self s); world := w2 |})
    else (Ok false, {| self := self s; world := w2 |}).
Proof.
  intros Hres. unfold Provider._refresh_token. run. rewrite Hres.
  cbn [self world].
  now destruct (truthy new_token && negb (py_eq new_token (oauth_token (self s)))).
Qed.

(** The control flow of [chat] on a request that was built. *)
Lemma chat_run (messages : list dict) (tools : json) (model : option string)
    (max_tokens temperature body : json) (s : PState) :
  Provider._build_body messages tools
    (Provider.resolve_model (default_model (self s)) model)
    max_tokens temperature = Ok body ->
  let token := oauth_token (self s) in
  let s1 := after_send token body s in
  exists (new_token : json) (w2 : State) (evs : list Event),
    Auth.get_claude_code_token E (world s1) = (Ok new_token, w2)
    /\ sent w2 = S (sent (world s))
    /\ trace w2 = evs ++ EvResolve :: trace (world s1)
    /\ forallb is_auth_event evs = true
    /\ Provider.chat E messages tools model max_tokens temperature s
       = match messages_endpoint E (sent (world s)) token body with
         | Fails e => (Ok (Provider.exception_response e), s1)
         | Reply r1 =>
             if status_code r1 =? 401 then
               if truthy new_token && negb (py_eq new_token token) then
                 let s2 := {| self := with_token new_token (self s); world := w2 |} in
                 match messages_endpoint E (S (sent (world s))) new_token body with
                 | Fails e =>
                     (Ok (Provider.exception_response e),
                      after_send new_token body s2)
                 | Reply r2 => (Ok (settle r2), after_send new_token body s2)
                 end
               else (Ok (settle r1), {| self := self s; world := w2 |})
             else (Ok (settle r1), s1)
         end.
Proof.
  intros Hbody token s1.
  destruct (resolve_run (world s1)) as (new_token & w2 & evs & Hres & Hsent & Htr & Hev).
  exists new_token, w2, evs.
  assert (Hsent' : sent w2 = S (sent (world s))) by (rewrite Hsent; reflexivity).
  repeat split; try assumption.
  unfold Provider.chat. run. rewrite Hbody.
  rewrite send_run. fold token. fold s1.
  destruct (messages_endpoint E (sent (world s)) token body) as [r1|e];
    [|reflexivity].
  destruct (status_code r1 =? 401) eqn:H401.
  - rewrite (provider_refresh_run s1 new_token w2 Hres).
    change (oauth_token (self s1)) with token.
    change (self s1) with (self s).
    destruct (truthy new_token && negb (py_eq new_token token)).
    + rewrite send_run. cbn [self world oauth_token with_token].
      rewrite Hsent'. unfold settle.
      destruct (messages_endpoint E (S (sent (world s))) new_token body) as [r2|e];
        [|reflexivity].
      now destruct (Provider.conclude r2).
    + unfold settle. now destruct (Provider.conclude r1).
  - unfold settle. now destruct (Provider.conclude r1).
Qed.

Lemma count_cons (p : Event -> bool) (e : Event) (t : list Event) :
  count p (e :: t) = ((if p e then 1 else 0) + count p t)%nat.
Proof. unfold count. cbn. now destruct (p e). Qed.

Lemma str_prefix_length (n : nat) (s : string) :
  (String.length (str_prefix n s) <= n)%nat.
Proof.
  unfold str_prefix. revert s. induction n as [|n IH]; intros s.
  - destruct s; cbn; lia.
  - destruct s as [|c s]; cbn; [lia|]. specialize (IH s). lia.
Qed.

(** C1: a [chat] call never sends more than two requests to the messages
    endpoint.  When the first request is answered with 401, the token is
    re-resolved exactly once; the request is sent again, once, only when the
    re-resolved token is non-empty and differs from the token just used, and
    then with the new token; a 401 on that retry, like a first 401 that is
    not retried, is returned as a response with finish reason [error]. *)
Theorem C1_one_resolution_and_at_most_one_retry_on_401
    (messages : list dict) (tools : json) (model : option string)
    (max_tokens temperature : json) (s : PState) :
  let out := Provider.chat E messages tools model max_tokens temperature s in
  let token := oauth_token (self s) in
  (count is_chat_post (trace (world (snd out)))
   <= count is_chat_post (trace (world s)) + 2)%nat
  /\ forall (body : json) (resp1 : Response),
      Provider._build_body messages tools
        (Provider.resolve_model (default_model (self s)) model)
        max_tokens temperature = Ok body ->
      messages_endpoint E (sent (world s)) token body = Reply resp1 ->
      status_code resp1 = 401 ->
      exists (new_token : json) (mid : list Event),
        fst (Auth.get_claude_code_token E (world (after_send token body s)))
        = Ok new_token
        /\ count is_resolve mid = 1%nat
        /\ count is_chat_post mid = 0%nat
        /\ ((truthy new_token && negb (py_eq new_token token) = false
             /\ trace (world (snd out))
                = mid ++ EvChatPost token body :: trace (world s)
             /\ fst out = Ok (Provider.error_response (Provider.api_error_text resp1))
             /\ finish_reason (Provider.error_response (Provider.api_error_text resp1))
                = "error")
            \/ (truthy new_token = true
                /\ py_eq new_token token = false
                /\ trace (world (snd out))
                   = EvChatPost new_token body
                     :: mid ++ EvChatPost token body :: trace (world s)
                /\ forall resp2 : Response,
                    messages_endpoint E (S (sent (world s))) new_token body
                    = Reply resp2 ->
                    status_code resp2 = 401 ->
                    fst out
                    = Ok (Provider.error_response (Provider.api_error_text resp2))
                    /\ finish_reason
                         (Provider.error_response (Provider.api_error_text resp2))
                       = "error")).
Proof.
  intros out token. split.
  - subst out.
    destruct (Provider._build_body messages tools
                (Provider.resolve_model (default_model (self s)) model)
                max_tokens temperature) as [body|e] eqn:Hbody.
    + destruct (chat_run messages tools model max_tokens temperature body s Hbody)
        as (new_token & w2 & evs & _ & _ & Htr & Hev & Hrun).
      cbv zeta in Hrun, Htr. rewrite Hrun. fold token.
      destruct (count_auth_events evs Hev) as [Hposts _].
      assert (Hw2 : count is_chat_post (trace w2)
                    = S (count is_chat_post (trace (world s)))).
      { rewrite Htr, count_app, Hposts. cbn [after_send world set_sent log trace].
        now rewrite !count_cons. }
      destruct (messages_endpoint E (sent (world s)) token body) as [r1|e].
      * destruct (status_code r1 =? 401).
        -- destruct (truthy new_token && negb (py_eq new_token token)).
           ++ destruct (messages_endpoint E (S (sent (world s))) new_token body);
                cbn [snd after_send world set_sent log trace];
                rewrite count_cons, Hw2; cbn; lia.
           ++ cbn [snd world]. rewrite Hw2. lia.
        -- cbn [snd after_send world set_sent log trace].
           rewrite count_cons. cbn. lia.
      * cbn [snd after_send world set_sent log trace].
        rewrite count_cons. cbn. lia.
    + unfold Provider.chat. run. rewrite Hbody. cbn [snd]. lia.
  - intros body resp1 Hbody Hrep H401.
    destruct (chat_run messages tools model max_tokens temperature body s Hbody)
      as (new_token & w2 & evs & Hres & _ & Htr & Hev & Hrun).
    cbv zeta in Hrun, Htr, Hres. fold token in Hrun, Htr, Hres.
    subst out. rewrite Hrun, Hrep.
    assert (Hst : (status_code resp1 =? 401) = true) by (now apply Z.eqb_eq).
    rewrite Hst.
    destruct (count_auth_events evs Hev) as [Hposts Hresolves].
    exists new_token, (evs ++ [EvResolve]).
    rewrite Hres. cbn [fst].
    assert (Hmid : forall t, (evs ++ [EvResolve]) ++ t = evs ++ EvResolve :: t)
      by (intros t; now rewrite <- app_assoc).
    split; [reflexivity|].
    split; [rewrite count_app, Hresolves; reflexivity|].
    split; [rewrite count_app, Hposts; reflexivity|].
    destruct (truthy new_token && negb (py_eq new_token token)) eqn:Hretry.
    + right. apply andb_true_iff in Hretry. destruct Hretry as [Ht Hne].
      apply negb_true_iff in Hne.
      split; [exact Ht|]. split; [exact Hne|]. split.
      * destruct (messages_endpoint E (S (sent (world s))) new_token body);
          cbn [snd after_send world set_sent log trace];
          rewrite Htr, Hmid; reflexivity.
      * intros resp2 Hrep2 H401'. rewrite Hrep2. cbn [fst].
        rewrite settle_error by lia. split; reflexivity.
    + left. split; [reflexivity|]. cbn [fst snd world]. split.
      * rewrite Htr, Hmid. reflexivity.
      * rewrite settle_error by lia. split; reflexivity.
Qed.

(** C2 (amended): once the request body has been built, [chat] returns a
    response and raises nothing: a transport failure of the first request or
    of the retry is returned as a response with finish reason [error], and
    so is every status other than 200 that [chat] keeps (any status but 200
    and 401 on the first request, any status but 200 on the retry), with the
    first 500 characters of the vendor error body in its text. *)
Theorem C2_failures_become_error_responses
    (messages : list dict) (tools : json) (model : option string)
    (max_tokens temperature body : json) (s : PState) :
  Provider._build_body messages tools
    (Provider.resolve_model (default_model (self s)) model)
    max_tokens temperature = Ok body ->
  let out := Provider.chat E messages tools model max_tokens temperature s in
  let token := oauth_token (self s) in
  (exists resp : LLMResponse, fst out = Ok resp)
  /\ (forall e : exn,
        messages_endpoint E (sent (world s)) token body = Fails e ->
        fst out = Ok (Provider.exception_response e))
  /\ (forall resp1 : Response,
        messages_endpoint E (sent (world s)) token body = Reply resp1 ->
        status_code resp1 <> 200 ->
        status_code resp1 <> 401 ->
        fst out = Ok (Provider.error_response (Provider.api_error_text resp1)))
  /\ (forall (resp1 : Response) (new_token : json),
        messages_endpoint E (sent (world s)) token body = Reply resp1 ->
        status_code resp1 = 401 ->
        fst (Auth.get_claude_code_token E (world (after_send token body s)))
        = Ok new_token ->
        truthy new_token && negb (py_eq new_token token) = true ->
        (forall e : exn,
            messages_endpoint E (S (sent (world s))) new_token body = Fails e ->
            fst out = Ok (Provider.exception_response e))
        /\ (forall resp2 : Response,
              messages_endpoint E (S (sent (world s))) new_token body = Reply resp2 ->
              status_code resp2 <> 200 ->
              fst out = Ok (Provider.error_response (Provider.api_error_text resp2))))
  /\ (forall e : exn, finish_reason (Provider.exception_response e) = "error")
  /\ (forall resp : Response,
        finish_reason (Provider.error_response (Provider.api_error_text resp)) = "error"
        /\ content (Provider.error_response (Provider.api_error_text resp))
           = Some ("Error from Anthropic API (" ++ str_int (status_code resp) ++ "): "
                   ++ str_prefix 500 (text resp))%string
        /\ (String.length (str_prefix 500 (text resp)) <= 500)%nat).
Proof.
  intros Hbody out token.
  destruct (chat_run messages tools model max_tokens temperature body s Hbody)
    as (new_token & w2 & evs & Hres & _ & _ & _ & Hrun).
  cbv zeta in Hrun, Hres. fold token in Hrun, Hres. subst out. rewrite Hrun.
  split; [|split; [|split; [|split; [|split]]]].
  - destruct (messages_endpoint E (sent (world s)) token body) as [r1|e];
      [|cbn; eauto].
    destruct (status_code r1 =? 401); [|cbn; eauto].
    destruct (truthy new_token && negb (py_eq new_token token)); [|cbn; eauto].
    destruct (messages_endpoint E (S (sent (world s))) new_token body);
      cbn; eauto.
  - intros e He. now rewrite He.
  - intros resp1 Hrep H200 H401. rewrite Hrep.
    apply Z.eqb_neq in H401. rewrite H401. cbn [fst].
    now rewrite settle_error.
  - intros resp1 tok Hrep H401 Htok Hretry. rewrite Hrep.
    assert (Hst : (status_code resp1 =? 401) = true) by (now apply Z.eqb_eq).
    rewrite Hst. rewrite Hres in Htok. cbn [fst] in Htok. injection Htok as ->.
    rewrite Hretry. split.
    + intros e He. now rewrite He.
    + intros resp2 Hrep2 H200. rewrite Hrep2. cbn [fst].
      now rewrite settle_error.
  - reflexivity.
  - intros resp. repeat split. apply str_prefix_length.
Qed.

End OrchestratorFacts.

(* ================================================================== *)
(** ** Further properties of the token lifecycle *)

Section LifecycleFacts.
Context `{PyRuntime}.
Variable E : Env.

Lemma resolve_stored (w : State) (data : json) (storage : string) :
  stored_document E w data storage ->
  Auth.get_claude_code_token E w
  = try_except (Auth._extract_token E data storage) (fun _ => ret JNull)
      (log EvResolve w).
Proof.
  intros [(Hd & -> & Hfind & stdout & Hentry & Hdata)
         | (Hd & Hl & -> & Hread & content & Hfile & Hdata)].
  - now apply (resolve_from_keychain E w stdout).
  - now apply (resolve_from_file E w content).
Qed.

(** X2: when the host has no store the code knows, or the store yields no
    document (no file or entry, a read that raises, a text that is not
    JSON), the resolution returns no token and does nothing else: no clock
    reading, no HTTP request, no store write. *)
Theorem X2_unreadable_store_resolves_to_nothing (w : State) :
  credentials_unreadable E w ->
  Auth.get_claude_code_token E w = (Ok JNull, log EvResolve w).
Proof.
  unfold credentials_unreadable, Auth.get_claude_code_token,
    Auth._get_token_from_keychain, Auth._get_token_from_credentials_file.
  run.
  destruct (String.eqb (platform_system E) "Darwin").
  - intros [Hfind | [Hnone | (stdout & Hentry & Hbad)]].
    + now rewrite Hfind.
    + destruct (security_find_fails E); [reflexivity|].
      cbn [keychain log]. now rewrite Hnone.
    + destruct (security_find_fails E); [reflexivity|].
      cbn [keychain log]. now rewrite Hentry, (py_json_loads_none _ Hbad).
  - destruct (String.eqb (platform_system E) "Linux"
              || String.eqb (platform_system E) "Windows"); [|reflexivity].
    cbn [creds_file log].
    intros [Hnone | (content & Hfile & [Hread | Hbad])].
    + now rewrite Hnone.
    + now rewrite Hfile, Hread.
    + rewrite Hfile, (py_json_loads_none _ Hbad). now destruct (file_read_fails E).
Qed.

(** X3: a stored document that [_extract_token] cannot read (not an
    object, a nested record that is not an object, an [expiresAt] that is
    neither absent nor a number) makes the resolution return no token; the
    exception is swallowed, no HTTP request is made and the store is left
    as it was. *)
Theorem X3_malformed_document_resolves_to_nothing
    (w : State) (data : json) (storage : string) :
  stored_document E w data storage ->
  malformed_document data ->
  fst (Auth.get_claude_code_token E w) = Ok JNull
  /\ trace (snd (Auth.get_claude_code_token E w)) = EvResolve :: trace w
  /\ creds_file (snd (Auth.get_claude_code_token E w)) = creds_file w
  /\ keychain (snd (Auth.get_claude_code_token E w)) = keychain w.
Proof.
  intros Hstored Hbad. rewrite (resolve_stored w data storage Hstored).
  unfold Auth._extract_token. run.
  destruct Hbad as [Hnone | (oauth & Hrec & Hnn & Hint)].
  - unfold oauth_record in Hnone.
    destruct data as [| | | | |d]; try (cbn; now repeat split).
    cbn [py_get].
    destruct (dict_get d "claudeAiOauth" (JObj [])); try discriminate;
      cbn; now repeat split.
  - rewrite (oauth_record_get _ _ Hrec). cbn [py_get].
    fold (expires_at_of oauth).
    unfold Auth._is_token_expired, Auth.current_time_ms, py_int_ge. run.
    rewrite Hint.
    destruct (expires_at_of oauth); try congruence; cbn; now repeat split.
Qed.

Lemma valid_run (data : json) (oauth : dict) (storage_type : string)
    (w : State) (t : Z) :
  oauth_record data = Some oauth ->
  expires_at_of oauth = JNum t ->
  clock_ms E (ticks w) + Auth.EXPIRY_BUFFER_MS < t ->
  Auth._extract_token E data storage_type w
  = (Ok (Auth.return_token (access_token_of oauth)), set_ticks (S (ticks w)) w).
Proof.
  intros Hrec Hexp Hlt.
  unfold Auth._extract_token. run.
  rewrite (oauth_record_get _ _ Hrec). cbn [py_get].
  fold (expires_at_of oauth). rewrite Hexp.
  unfold Auth._is_token_expired, Auth.current_time_ms. run.
  unfold py_int_ge. cbn [as_int].
  replace (t <=? _) with false by (symmetry; apply Z.leb_gt; exact Hlt).
  reflexivity.
Qed.

(** The success path with the saved document spelled out. *)
Lemma refresh_saves_document
    (data : json) (oauth : dict) (storage_type : string) (w : State)
    (r : Response) (body : dict) (secs : Z) :
  oauth_record data = Some oauth ->
  truthy (refresh_token_of oauth) = true ->
  needs_refresh E w oauth ->
  http_lib E <> NoHttpLib ->
  token_endpoint E (Auth.refresh_payload (refresh_token_of oauth)) = Reply r ->
  status_code r = 200 ->
  json_loads (text r) = Some (JObj body) ->
  body <> [] ->
  as_int (dict_get body "expires_in" (JNum 3600)) = Some secs ->
  (dict_find body "scope" = None
   \/ exists sc, dict_find body "scope" = Some (JStr sc)) ->
  let w1 := log (EvRefreshPost (Auth.refresh_payload (refresh_token_of oauth)))
              (after_expiry_check oauth w) in
  Auth._extract_token E data storage_type w
  = (Ok (Auth.return_token (dict_get body "access_token" JNull)),
     snd (Auth.save_credentials E storage_type
            (refreshed_document data
               (refreshed_record oauth body (clock_ms E (ticks w1)) secs))
            (set_ticks (S (ticks w1)) w1))).
Proof.
  intros Hrec Hrt Hexp Hlib Hrep Hst Hbody Hne Hsecs Hscope w1.
  destruct data as [| | | | |d]; try discriminate.
  assert (Hmul : py_mul_int (dict_get body "expires_in" (JNum 3600)) 1000
                 = Ok (JNum (secs * 1000))).
  { destruct (dict_get body "expires_in" (JNum 3600)); try discriminate;
      cbn in Hsecs |- *; now injection Hsecs as <-. }
  unfold Auth._extract_token. run.
  rewrite (oauth_record_get _ _ Hrec). cbn [py_get].
  fold (expires_at_of oauth). rewrite (expired_run _ _ _ Hexp).
  fold (refresh_token_of oauth). rewrite Hrt. cbn [negb].
  rewrite (refresh_run_success _ _ _ _ _ Hlib Hrep Hst Hbody).
  fold w1.
  assert (Htr : truthy (JObj body) = true) by (destruct body; [congruence|reflexivity]).
  rewrite Htr. cbn [py_get].
  unfold Auth.current_time_ms. rewrite Hmul. cbn [py_add as_int].
  cbn [py_setitem py_contains]. unfold dict_contains, refreshed_record.
  cbn [refreshed_document].
  destruct Hscope as [Hno | (sc & Hsc)].
  - rewrite Hno. cbn [py_setitem]. exact (save_then_return _ _ _ _ _).
  - rewrite Hsc. unfold subscript, dict_getitem. rewrite Hsc.
    cbn [py_split_method py_setitem]. exact (save_then_return _ _ _ _ _).
Qed.

Lemma save_file_fails_run (storage_type : string) (data : json) (w : State) :
  String.eqb storage_type "keychain" = false ->
  file_write_fails E = true ->
  Auth.save_credentials E storage_type data w
  = (Ok false,
     set_creds_file (failed_write_leaves E (creds_file w) (json_dumps data))
       (log (EvFileWrite (json_dumps data)) w)).
Proof.
  intros Hst Hw.
  unfold Auth.save_credentials, Auth._save_credentials_to_file.
  rewrite Hst. run. now rewrite Hw.
Qed.

(** X4: a write-back that fails does not fail the resolution: when writing
    the credentials file raises, the freshly obtained access token is still
    returned, exactly one write of the refreshed document was attempted and
    the keychain is untouched.  The file is not promised to be as it was:
    it holds whatever the failed [write_text] left of it, which after the
    truncating open may be nothing or a part of the new text. *)
Theorem X4_failed_write_back_still_resolves
    (data : json) (oauth : dict) (storage_type : string) (w : State)
    (r : Response) (body : dict) (new_token : json) (secs : Z) :
  oauth_record data = Some oauth ->
  truthy (refresh_token_of oauth) = true ->
  needs_refresh E w oauth ->
  http_lib E <> NoHttpLib ->
  token_endpoint E (Auth.refresh_payload (refresh_token_of oauth)) = Reply r ->
  status_code r = 200 ->
  json_loads (text r) = Some (JObj body) ->
  dict_find body "access_token" = Some new_token ->
  truthy new_token = true ->
  as_int (dict_get body "expires_in" (JNum 3600)) = Some secs ->
  (dict_find body "scope" = None
   \/ exists sc, dict_find body "scope" = Some (JStr sc)) ->
  String.eqb storage_type "keychain" = false ->
  file_write_fails E = true ->
  let saved :=
    refreshed_document data
      (refreshed_record oauth body
         (clock_ms E (ticks (after_expiry_check oauth w))) secs) in
  fst (Auth._extract_token E data storage_type w) = Ok new_token
  /\ trace (snd (Auth._extract_token E data storage_type w))
     = EvFileWrite (json_dumps saved)
       :: EvRefreshPost (Auth.refresh_payload (refresh_token_of oauth))
       :: trace w
  /\ creds_file (snd (Auth._extract_token E data storage_type w))
     = failed_write_leaves E (creds_file w) (json_dumps saved)
  /\ keychain (snd (Auth._extract_token E data storage_type w)) = keychain w
  /\ count is_store_write (trace (snd (Auth._extract_token E data storage_type w)))
     = S (count is_store_write (trace w)).
Proof.
  intros Hrec Hrt Hexp Hlib Hrep Hst Hbody Hnew Htruthy Hsecs Hscope Hfile Hfail
    saved.
  assert (Hne : body <> []) by (intros ->; discriminate).
  rewrite (refresh_saves_document data oauth storage_type w r body secs
             Hrec Hrt Hexp Hlib Hrep Hst Hbody Hne Hsecs Hscope).
  rewrite (save_file_fails_run _ _ _ Hfile Hfail).
  cbn [fst snd log set_ticks set_creds_file creds_file keychain trace ticks].
  fold saved.
  assert (Hget : dict_get body "access_token" JNull = new_token)
    by (unfold dict_get; now rewrite Hnew).
  rewrite Hget. unfold Auth.return_token. rewrite Htruthy.
  rewrite !count_cons, trace_after_expiry_check. cbn [is_store_write].
  unfold after_expiry_check.
  destruct (expires_at_of oauth);
    (split; [reflexivity|]; split; [reflexivity|]; split; [reflexivity|];
     split; reflexivity).
Qed.

Lemma refreshed_record_fields (oauth body : dict) (now secs : Z) :
  access_token_of (refreshed_record oauth body now secs)
  = dict_get body "access_token" JNull
  /\ expires_at_of (refreshed_record oauth body now secs) = JNum (now + secs * 1000).
Proof.
  unfold access_token_of, expires_at_of, refreshed_record.
  destruct (dict_find body "scope") as [[]|];
    rewrite ?(dict_get_setitem_other _ "scopes") by discriminate;
    (split;
     [ rewrite !dict_get_setitem_other by discriminate;
       apply dict_get_setitem_same
     | apply dict_get_setitem_same ]).
Qed.

(** X6: a refresh is persisted.  On a host with a credentials file that
    accepts the write, after a resolution that refreshed the token the next
    resolution reads the saved document and, while the new [expiresAt] is
    more than five minutes away, returns the same new token without any
    refresh request or store write. *)
Theorem X6_next_resolution_uses_saved_token
    (data : json) (oauth : dict) (w : State)
    (r : Response) (body : dict) (new_token : json) (secs : Z) :
  stored_document E w data "file" ->
  file_write_fails E = false ->
  oauth_record data = Some oauth ->
  truthy (refresh_token_of oauth) = true ->
  needs_refresh E w oauth ->
  http_lib E <> NoHttpLib ->
  token_endpoint E (Auth.refresh_payload (refresh_token_of oauth)) = Reply r ->
  status_code r = 200 ->
  json_loads (text r) = Some (JObj body) ->
  dict_find body "access_token" = Some new_token ->
  truthy new_token = true ->
  as_int (dict_get body "expires_in" (JNum 3600)) = Some secs ->
  (dict_find body "scope" = None
   \/ exists sc, dict_find body "scope" = Some (JStr sc)) ->
  let k := ticks (after_expiry_check oauth w) in
  let saved := refreshed_document data
                 (refreshed_record oauth body (clock_ms E k) secs) in
  json_loads (json_dumps saved) = Some saved ->
  clock_ms E (S k) + Auth.EXPIRY_BUFFER_MS < clock_ms E k + secs * 1000 ->
  exists w' : State,
    Auth.get_claude_code_token E w = (Ok new_token, w')
    /\ creds_file w' = Some (json_dumps saved)
    /\ Auth.get_claude_code_token E w'
       = (Ok new_token, set_ticks (S (ticks w')) (log EvResolve w')).
Proof.
  intros Hstored Hwrite Hrec Hrt Hexp Hlib Hrep Hst Hbody Hnew Htruthy Hsecs
    Hscope k saved Hcodec Hfresh.
  assert (Hne : body <> []) by (intros ->; discriminate).
  assert (Hget : dict_get body "access_token" JNull = new_token)
    by (unfold dict_get; now rewrite Hnew).
  assert (Hfilehost :
            String.eqb (platform_system E) "Darwin" = false
            /\ String.eqb (platform_system E) "Linux"
               || String.eqb (platform_system E) "Windows" = true
            /\ file_read_fails E = false).
  { destruct Hstored as [(_ & Hkc & _) | (Hd & Hl & _ & Hread & _)];
      [discriminate | now repeat split]. }
  destruct Hfilehost as (Hd & Hl & Hread).
  rewrite (resolve_stored w data "file" Hstored).
  unfold try_except.
  rewrite (refresh_saves_document data oauth "file" (log EvResolve w) r body secs
             Hrec Hrt Hexp Hlib Hrep Hst Hbody Hne Hsecs Hscope).
  change (ticks (log (EvRefreshPost (Auth.refresh_payload (refresh_token_of oauth)))
                   (after_expiry_check oauth (log EvResolve w))))
    with (ticks (after_expiry_check oauth (log EvResolve w))).
  assert (Hk : ticks (after_expiry_check oauth (log EvResolve w)) = k).
  { subst k. unfold after_expiry_check. now destruct (expires_at_of oauth). }
  rewrite Hk. fold saved.
  rewrite Hget. unfold Auth.return_token at 1. rewrite Htruthy.
  match goal with
  | |- context [Auth.save_credentials E "file" saved ?w2] => set (w2s := w2)
  end.
  exists (snd (Auth.save_credentials E "file" saved w2s)).
  destruct (save_run E "file" saved w2s) as (b & _ & _ & Hticks & _).
  pose proof (save_file_run E "file" saved w2s eq_refl Hwrite) as Hsaved.
  split; [reflexivity|]. split; [exact Hsaved|].
  set (w' := snd (Auth.save_credentials E "file" saved w2s)) in *.
  assert (Hstored' : stored_document E w' saved "file").
  { right. repeat split; try assumption.
    exists (json_dumps saved). split; [exact Hsaved | exact Hcodec]. }
  rewrite (resolve_stored w' saved "file" Hstored').
  unfold try_except.
  assert (Hrec' : oauth_record saved
                  = Some (refreshed_record oauth body (clock_ms E k) secs)).
  { subst saved. destruct data as [| | | | |d]; try discriminate.
    unfold refreshed_document, oauth_record. now rewrite dict_get_setitem_same. }
  destruct (refreshed_record_fields oauth body (clock_ms E k) secs) as [Hat Hex].
  rewrite (valid_run saved _ "file" (log EvResolve w') _ Hrec' Hex).
  - rewrite Hat, Hget. unfold Auth.return_token. now rewrite Htruthy.
  - cbn [ticks log]. subst w'. rewrite Hticks. subst w2s. cbn [ticks set_ticks].
    exact Hfresh.
Qed.

Lemma traces_quiet_bind {A B} (R : list Event -> list Event -> Prop)
    (m : M State A) (k : A -> M State B) :
  (forall t, R t t) ->
  quiet m ->
  (forall a, traces R (k a)) ->
  traces R (bind m k).
Proof.
  intros Hrefl Hm Hk w. unfold bind. specialize (Hm w).
  destruct (m w) as [[a|e] w1]; cbn [snd] in *.
  - rewrite <- Hm. apply Hk.
  - rewrite Hm. apply Hrefl.
Qed.

Lemma quiet_lift {A} (r : result A) : quiet (lift r).
Proof. intros w. reflexivity. Qed.

Lemma quiet_ret {A} (a : A) : quiet (@ret State A a).
Proof. intros w. reflexivity. Qed.

Lemma quiet_is_token_expired (expires_at : json) :
  quiet (Auth._is_token_expired E expires_at).
Proof.
  intros w. unfold Auth._is_token_expired, Auth.current_time_ms. run.
  destruct expires_at; try reflexivity;
    match goal with
    | |- context [py_int_ge ?a ?v] => destruct (py_int_ge a v)
    end; reflexivity.
Qed.

Lemma quiet_current_time : quiet (Auth.current_time_ms E).
Proof. intros w. reflexivity. Qed.

Lemma only_writes_refl (t : list Event) : only_writes t t.
Proof. now exists []. Qed.

Lemma one_refresh_refl (t : list Event) : one_refresh_then_writes t t.
Proof. now left. Qed.

Lemma quiet_only_writes {A} (m : M State A) : quiet m -> traces only_writes m.
Proof. intros Hm w. rewrite (Hm w). apply only_writes_refl. Qed.

Lemma quiet_one_refresh {A} (m : M State A) :
  quiet m -> traces one_refresh_then_writes m.
Proof. intros Hm w. rewrite (Hm w). apply one_refresh_refl. Qed.

Lemma save_only_writes {A} (storage_type : string) (data : json) (a : A) :
  traces only_writes
    (bind (Auth.save_credentials E storage_type data) (fun _ => ret a)).
Proof.
  intros w. rewrite save_then_return. cbn [snd].
  destruct (save_run E storage_type data w) as (b & _ & Htr & _).
  exists (save_events E storage_type (json_dumps data)). split; [exact Htr|].
  unfold save_events.
  destruct (String.eqb storage_type "keychain");
    [destruct (security_delete_fails E)|]; reflexivity.
Qed.

(** What one call of [_refresh_token] leaves in the trace. *)
Lemma refresh_trace (refresh_token : json) (w : State) :
  (Auth._refresh_token E refresh_token w = (Ok JNull, w))
  \/ exists v,
       Auth._refresh_token E refresh_token w
       = (Ok v, log (EvRefreshPost (Auth.refresh_payload refresh_token)) w).
Proof.
  assert (Hpost : forall m : M State json,
             m = Auth._refresh_token_with_httpx E refresh_token ->
             exists v,
               m w = (Ok v, log (EvRefreshPost (Auth.refresh_payload refresh_token)) w)).
  { intros m ->. unfold Auth._refresh_token_with_httpx, Auth.post_token. run.
    destruct (token_endpoint E (Auth.refresh_payload refresh_token)) as [r|e];
      [|now exists JNull].
    destruct (negb (status_code r =? 200)); [now exists JNull|].
    destruct (response_json r) as [v|e]; [now exists v | now exists JNull]. }
  unfold Auth._refresh_token.
  destruct (http_lib E).
  - right. now apply Hpost.
  - right. now apply Hpost.
  - now left.
Qed.

Ltac quiet_bind R_refl :=
  apply traces_quiet_bind;
  [ exact R_refl
  | first [ apply quiet_lift | apply quiet_ret | apply quiet_current_time
          | apply quiet_is_token_expired ]
  | intros ? ].

(** X7: whatever the document and the answers, one run of
    [_extract_token] makes at most one refresh request, and it writes to
    the store only after a refresh request: the calls it adds are none, or
    one refresh request followed by store writes only. *)
Theorem X7_at_most_one_refresh_and_writes_only_after_it
    (data : json) (storage_type : string) (w : State) :
  one_refresh_then_writes (trace w)
    (trace (snd (Auth._extract_token E data storage_type w))).
Proof.
  revert w. change (traces one_refresh_then_writes
                      (Auth._extract_token E data storage_type)).
  unfold Auth._extract_token.
  do 5 quiet_bind one_refresh_refl.
  match goal with |- traces _ (if ?b then _ else _) => destruct b end;
    [|apply quiet_one_refresh, quiet_ret].
  match goal with |- traces _ (if ?b then _ else _) => destruct b end;
    [apply quiet_one_refresh, quiet_ret|].
  intros w. unfold bind at 1.
  match goal with
  | |- context [Auth._refresh_token E ?rt w] =>
      destruct (refresh_trace rt w) as [Hnone | (v & Hpost)]
  end.
  - rewrite Hnone. cbn [truthy]. now left.
  - rewrite Hpost.
    match goal with
    | |- context [EvRefreshPost ?p] => set (payload := p)
    end.
    assert (Htail : forall m : M State json,
               traces only_writes m ->
               one_refresh_then_writes (trace w)
                 (trace (snd (m (log (EvRefreshPost payload) w))))).
    { intros m Hm. destruct (Hm (log (EvRefreshPost payload) w))
        as (evs & Htr & Hev).
      right. exists payload, evs. split; [exact Htr | exact Hev]. }
    apply Htail.
    destruct (truthy v); [|apply quiet_only_writes, quiet_ret].
    do 10 quiet_bind only_writes_refl.
    apply traces_quiet_bind; [exact only_writes_refl | | intros ?].
    + match goal with |- quiet (if ?b then _ else _) => destruct b end;
        [|apply quiet_ret].
      intros w0. run.
      repeat match goal with
             | |- context [match ?x with _ => _ end] => destruct x
             end; reflexivity.
    + quiet_bind only_writes_refl.
      apply save_only_writes.
Qed.

End LifecycleFacts.

(* ================================================================== *)
(** ** Further properties of the translation *)

Section TranslationFacts.
Context `{PyRuntime}.

Lemma name_to_api (name : string) :
  Provider.name_map_get Provider._TOOL_NAME_TO_API (JStr name)
  = Ok (JStr (to_api_name name)).
Proof.
  unfold Provider.name_map_get, to_api_name.
  now destruct (Provider.assoc Provider._TOOL_NAME_TO_API name).
Qed.

Lemma name_from_api (api : string) :
  Provider.name_map_get Provider._TOOL_NAME_FROM_API (JStr api)
  = Ok (JStr (from_api_name api)).
Proof.
  unfold Provider.name_map_get, from_api_name.
  now destruct (Provider.assoc Provider._TOOL_NAME_FROM_API api).
Qed.

Lemma to_api_name_cases (name : string) :
  (name = "read_file" /\ to_api_name name = "ReadFile")
  \/ (name <> "read_file" /\ to_api_name name = name).
Proof.
  unfold to_api_name, Provider._TOOL_NAME_TO_API. cbn [Provider.assoc].
  destruct (String.eqb "read_file" name) eqn:Hn.
  - apply String.eqb_eq in Hn. left. now split.
  - apply String.eqb_neq in Hn. right. split; [congruence | reflexivity].
Qed.

Lemma from_api_name_cases (api : string) :
  (api = "ReadFile" /\ from_api_name api = "read_file")
  \/ (api <> "ReadFile" /\ from_api_name api = api).
Proof.
  unfold from_api_name, Provider._TOOL_NAME_FROM_API, Provider._TOOL_NAME_TO_API.
  cbn [map fst snd Provider.assoc].
  destruct (String.eqb "ReadFile" api) eqn:Hn.
  - apply String.eqb_eq in Hn. left. now split.
  - apply String.eqb_neq in Hn. right. split; [congruence | reflexivity].
Qed.

(** X8: the two name maps undo each other except on one name each way.  A
    generic name sent to the API and mapped back is the same name exactly
    when it is not [ReadFile]; a wire name received from the API and sent
    again is the same name exactly when it is not [read_file]. *)
Theorem X8_name_maps_invert_each_other_except_on_one_name :
  (forall name : string,
      Provider.name_map_get Provider._TOOL_NAME_TO_API (JStr name)
      = Ok (JStr (to_api_name name))
      /\ (from_api_name (to_api_name name) = name <-> name <> "ReadFile"))
  /\ (forall api : string,
      Provider.name_map_get Provider._TOOL_NAME_FROM_API (JStr api)
      = Ok (JStr (from_api_name api))
      /\ (to_api_name (from_api_name api) = api <-> api <> "read_file")).
Proof.
  split.
  - intros name. split; [apply name_to_api|].
    destruct (to_api_name_cases name) as [[-> ->] | [Hne ->]].
    + split; [discriminate | reflexivity].
    + destruct (from_api_name_cases name) as [[-> ->] | [Hne' ->]].
      * split; [discriminate | congruence].
      * split; [auto | reflexivity].
  - intros api. split; [apply name_from_api|].
    destruct (from_api_name_cases api) as [[-> ->] | [Hne ->]].
    + split; [discriminate | reflexivity].
    + destruct (to_api_name_cases api) as [[-> ->] | [Hne' ->]].
      * split; [discriminate | congruence].
      * split; [auto | reflexivity].
Qed.

Lemma parse_block_reads (b : json) (shape : wire_block)
    (acc : list json * list ToolCallRequest) :
  reads_as b shape ->
  Provider.parse_block acc b
  = Ok (fst acc ++ map JStr (block_texts [shape]),
        snd acc ++ block_calls [shape]).
Proof.
  intros Hr. unfold Provider.parse_block.
  destruct Hr as [b t Hty Htext | b id input name Hty Hname Hid Hin
                 | b ty Hty Hnt Hnu].
  - rewrite Hty. cbn [rbind]. cbn [py_eq]. rewrite String.eqb_refl.
    rewrite Htext. cbn [rbind block_texts block_calls map].
    now rewrite app_nil_r.
  - rewrite Hty. cbn [rbind].
    assert (Hne : py_eq (JStr "tool_use") (JStr "text") = false) by reflexivity.
    rewrite Hne.
    assert (Heq : py_eq (JStr "tool_use") (JStr "tool_use") = true) by reflexivity.
    rewrite Heq. rewrite Hname. cbn [rbind]. rewrite Hid. cbn [rbind].
    rewrite name_from_api. cbn [rbind]. rewrite Hin.
    cbn [rbind block_texts block_calls map]. now rewrite app_nil_r.
  - rewrite Hty. cbn [rbind]. rewrite Hnt, Hnu.
    cbn [block_texts block_calls map]. rewrite !app_nil_r. now destruct acc.
Qed.

Lemma block_texts_cons (shape : wire_block) (shapes : list wire_block) :
  block_texts (shape :: shapes) = block_texts [shape] ++ block_texts shapes.
Proof. now destruct shape. Qed.

Lemma block_calls_cons (shape : wire_block) (shapes : list wire_block) :
  block_calls (shape :: shapes) = block_calls [shape] ++ block_calls shapes.
Proof. now destruct shape. Qed.

Lemma parse_blocks_read (blocks : list json) (shapes : list wire_block) :
  Forall2 reads_as blocks shapes ->
  forall acc,
    Provider.parse_blocks blocks acc
    = Ok (fst acc ++ map JStr (block_texts shapes), snd acc ++ block_calls shapes).
Proof.
  induction 1 as [|b shape blocks shapes Hr _ IH]; intros acc.
  - cbn. rewrite !app_nil_r. now destruct acc.
  - cbn [Provider.parse_blocks]. rewrite (parse_block_reads b shape acc Hr).
    cbn [rbind]. rewrite IH. cbn [fst snd].
    rewrite (block_texts_cons shape shapes), (block_calls_cons shape shapes).
    now rewrite map_app, !app_assoc.
Qed.

Lemma join_lines_run (lines : list string) :
  py_join newline (map JStr lines) = Ok (join_lines lines).
Proof.
  induction lines as [|l rest IH]; [reflexivity|].
  destruct rest as [|l' rest]; [reflexivity|].
  cbn [map py_join join_lines] in *. now rewrite IH.
Qed.

Lemma usage_record_absent (d : dict) :
  dict_find d "usage" = None -> usage_record d = Some [].
Proof. intros Hnone. unfold usage_record. now rewrite Hnone. Qed.

Lemma parse_response_read
    (d : dict) (blocks : list json) (shapes : list wire_block) (finish : string)
    (used : dict) :
  dict_get d "content" (JArr []) = JArr blocks ->
  Forall2 reads_as blocks shapes ->
  Provider.finish_of (dict_get d "stop_reason" (JStr "end_turn")) = Ok finish ->
  usage_record d = Some used ->
  Provider._parse_response (JObj d)
  = Ok {| content := match block_texts shapes with
                     | [] => None
                     | _ :: _ => Some (join_lines (block_texts shapes))
                     end;
          tool_calls := block_calls shapes;
          finish_reason := finish;
          usage := used |}.
Proof.
  intros Hcontent Hshapes Hfinish Husage.
  unfold Provider._parse_response. cbn [py_get]. rewrite Hcontent.
  cbn [rbind py_iter]. rewrite (parse_blocks_read blocks shapes Hshapes).
  cbn [rbind fst snd app]. rewrite Hfinish. cbn [rbind py_contains].
  unfold usage_record in Husage. unfold dict_contains.
  destruct (dict_find d "usage") as [u|] eqn:Hu.
  - destruct u as [| | | | |u]; try discriminate.
    cbn [subscript]. unfold dict_getitem. rewrite Hu. cbn [rbind py_get].
    unfold py_add.
    destruct (as_int (dict_get u "input_tokens" (JNum 0))) as [a|];
      [|discriminate].
    destruct (as_int (dict_get u "output_tokens" (JNum 0))) as [b|];
      [|discriminate].
    injection Husage as <-. cbn [rbind].
    destruct (block_texts shapes) as [|t ts]; [reflexivity|].
    cbn [map]. change (JStr t :: map JStr ts) with (map JStr (t :: ts)).
    now rewrite join_lines_run.
  - injection Husage as <-. cbn [rbind].
    destruct (block_texts shapes) as [|t ts]; [reflexivity|].
    cbn [map]. change (JStr t :: map JStr ts) with (map JStr (t :: ts)).
    now rewrite join_lines_run.
Qed.

(** X9: [_parse_response] splits the content blocks by type and keeps their
    order: the texts of the [text] blocks are joined with newlines (no text
    block gives no text, not an empty string), each [tool_use] block becomes
    a tool call with its id, its name mapped back and its input (an empty
    object when [input] is missing), and a block of any other type is
    ignored.  This holds for every response whose stop reason and usage can
    be read, with or without a [usage] block; the response returned carries
    the finish reason and the usage read. *)
Theorem X9_parse_response_partitions_blocks_in_order
    (d : dict) (blocks : list json) (shapes : list wire_block) (finish : string)
    (used : dict) :
  dict_get d "content" (JArr []) = JArr blocks ->
  Forall2 reads_as blocks shapes ->
  Provider.finish_of (dict_get d "stop_reason" (JStr "end_turn")) = Ok finish ->
  usage_record d = Some used ->
  Provider._parse_response (JObj d)
  = Ok {| content := match block_texts shapes with
                     | [] => None
                     | _ :: _ => Some (join_lines (block_texts shapes))
                     end;
          tool_calls := block_calls shapes;
          finish_reason := finish;
          usage := used |}.
Proof. apply parse_response_read. Qed.

(** What a successful parse tells about the document parsed. *)
Lemma parse_response_inv (d : dict) (resp : LLMResponse) :
  Provider._parse_response (JObj d) = Ok resp ->
  Provider.finish_of (dict_get d "stop_reason" (JStr "end_turn"))
  = Ok (finish_reason resp)
  /\ (if dict_contains d "usage" then
        exists u prompt completion total,
          dict_getitem d "usage" = Ok u
          /\ py_get u "input_tokens" (JNum 0) = Ok prompt
          /\ py_get u "output_tokens" (JNum 0) = Ok completion
          /\ py_add prompt completion = Ok total
          /\ usage resp = [("prompt_tokens", prompt);
                           ("completion_tokens", completion);
                           ("total_tokens", total)]
      else usage resp = []).
Proof.
  unfold Provider._parse_response. cbn [py_get rbind].
  destruct (py_iter (dict_get d "content" (JArr []))) as [blocks|];
    cbn [rbind]; [|discriminate].
  destruct (Provider.parse_blocks blocks ([], [])) as [acc|];
    cbn [rbind]; [|discriminate].
  destruct (Provider.finish_of (dict_get d "stop_reason" (JStr "end_turn")))
    as [finish|]; cbn [rbind py_contains]; [|discriminate].
  destruct (dict_contains d "usage").
  - cbn [subscript].
    destruct (dict_getitem d "usage") as [u|]; cbn [rbind]; [|discriminate].
    destruct (py_get u "input_tokens" (JNum 0)) as [prompt|] eqn:Hp;
      cbn [rbind]; [|discriminate].
    destruct (py_get u "output_tokens" (JNum 0)) as [completion|] eqn:Hc;
      cbn [rbind]; [|discriminate].
    destruct (py_add prompt completion) as [total|] eqn:Ht;
      cbn [rbind]; [|discriminate].
    destruct (fst acc) as [|t ts]; cbn [rbind].
    + intros [= <-]. cbn. split; [reflexivity|].
      exists u, prompt, completion, total. now repeat split.
    + destruct (py_join newline (t :: ts)); cbn [rbind]; [|discriminate].
      intros [= <-]. cbn. split; [reflexivity|].
      exists u, prompt, completion, total. now repeat split.
  - cbn [rbind].
    destruct (fst acc) as [|t ts]; cbn [rbind].
    + intros [= <-]. now split.
    + destruct (py_join newline (t :: ts)); cbn [rbind]; [|discriminate].
      intros [= <-]. now split.
Qed.

(** X10: the finish reason of a parsed response is [tool_calls] exactly for
    the stop reason [tool_use], [length] exactly for [max_tokens], and
    [stop] for every other stop reason and for none; a parsed response
    never has the finish reason [error]. *)
Theorem X10_finish_reason_of_a_parsed_response
    (d : dict) (resp : LLMResponse) :
  Provider._parse_response (JObj d) = Ok resp ->
  (finish_reason resp = "tool_calls"
   <-> dict_find d "stop_reason" = Some (JStr "tool_use"))
  /\ (finish_reason resp = "length"
      <-> dict_find d "stop_reason" = Some (JStr "max_tokens"))
  /\ (finish_reason resp = "stop"
      \/ finish_reason resp = "tool_calls"
      \/ finish_reason resp = "length")
  /\ finish_reason resp <> "error".
Proof.
  intros Hparse. destruct (parse_response_inv d resp Hparse) as [Hfinish _].
  revert Hfinish. unfold dict_get, Provider.finish_of.
  destruct (dict_find d "stop_reason") as [v|].
  - destruct v as [| | |s| |]; try discriminate;
      try (intros [= <-]; repeat split; try discriminate; try (now left);
           intros; discriminate).
    unfold Provider.finish_map. cbn [Provider.assoc].
    destruct (String.eqb "end_turn" s) eqn:H1.
    { apply String.eqb_eq in H1. subst s. intros [= <-].
      repeat split; try discriminate; now left. }
    destruct (String.eqb "tool_use" s) eqn:H2.
    { apply String.eqb_eq in H2. subst s. intros [= <-].
      repeat split; try discriminate; auto. }
    destruct (String.eqb "max_tokens" s) eqn:H3.
    { apply String.eqb_eq in H3. subst s. intros [= <-].
      repeat split; try discriminate; auto. }
    apply String.eqb_neq in H2, H3. intros [= <-].
    repeat split; try discriminate; try (now left);
      intros [= Hs]; congruence.
  - cbn. intros [= <-]. repeat split; try discriminate; now left.
Qed.

(** X11: the usage of a parsed response has the input and output counts
    of the vendor (0 for a missing one) as prompt and completion tokens and
    their sum as total; a response without [usage] has an empty usage. *)
Theorem X11_usage_of_a_parsed_response (d : dict) (resp : LLMResponse) :
  Provider._parse_response (JObj d) = Ok resp ->
  (dict_find d "usage" = None -> usage resp = [])
  /\ (forall u a b,
        dict_find d "usage" = Some (JObj u) ->
        as_int (dict_get u "input_tokens" (JNum 0)) = Some a ->
        as_int (dict_get u "output_tokens" (JNum 0)) = Some b ->
        usage resp
        = [("prompt_tokens", dict_get u "input_tokens" (JNum 0));
           ("completion_tokens", dict_get u "output_tokens" (JNum 0));
           ("total_tokens", JNum (a + b))]).
Proof.
  intros Hparse. destruct (parse_response_inv d resp Hparse) as [_ Husage].
  unfold dict_contains, dict_getitem in Husage. split.
  - intros Hnone. now rewrite Hnone in Husage.
  - intros u a b Hu Ha Hb. rewrite Hu in Husage.
    destruct Husage as (u' & p & c & t & [= <-] & Hp & Hc & Ht & ->).
    cbn [py_get] in Hp, Hc. injection Hp as <-. injection Hc as <-.
    unfold py_add in Ht. rewrite Ha, Hb in Ht. now injection Ht as <-.
Qed.

Lemma tool_fields (td fd : dict) :
  dict_get td "function" (JObj td) = JObj fd ->
  Provider.convert_tool (JObj td)
  = (name <- dict_getitem fd "name" ;;
     api_name <- Provider.name_map_get Provider._TOOL_NAME_TO_API name ;;
     Ok (JObj [("name", api_name);
               ("description", dict_get fd "description" (JStr EmptyString));
               ("input_schema", dict_get fd "parameters" (JObj []))]))%res.
Proof.
  intros Hfn. unfold Provider.convert_tool. cbn [py_get]. rewrite Hfn.
  cbn [rbind subscript py_get].
  destruct (dict_getitem fd "name") as [name|]; cbn [rbind]; [|reflexivity].
  now destruct (Provider.name_map_get Provider._TOOL_NAME_TO_API name).
Qed.

Lemma rmap_length {A B} (f : A -> result B) (l : list A) (out : list B) :
  rmap f l = Ok out -> List.length out = List.length l.
Proof.
  revert out. induction l as [|a l IH]; intros out; cbn [rmap].
  - now intros [= <-].
  - destruct (f a); cbn [rbind]; [|discriminate].
    destruct (rmap f l) as [bs|]; cbn [rbind]; [|discriminate].
    intros [= <-]. cbn. now rewrite (IH bs eq_refl).
Qed.

(** X12: a tool definition converts the same whether it is given bare or
    wrapped under [function]; the wire tool has the name rewritten through
    the allow-list, the description (empty when missing) and the parameters
    as input schema (an empty object when missing); a converted tool list
    has one wire tool per definition. *)
Theorem X12_tool_definitions_bare_or_wrapped :
  (forall td fd : dict,
      dict_find td "function" = Some (JObj fd) ->
      dict_find fd "function" = None ->
      Provider.convert_tool (JObj td) = Provider.convert_tool (JObj fd))
  /\ (forall (fd : dict) (name : string),
      dict_find fd "function" = None ->
      dict_find fd "name" = Some (JStr name) ->
      Provider.convert_tool (JObj fd)
      = Ok (JObj [("name", JStr (to_api_name name));
                  ("description", dict_get fd "description" (JStr EmptyString));
                  ("input_schema", dict_get fd "parameters" (JObj []))]))
  /\ (forall (tools out : list json),
      Provider._convert_tools (JArr tools) = Ok (JArr out) ->
      List.length out = List.length tools).
Proof.
  split; [|split].
  - intros td fd Hwrapped Hbare.
    rewrite (tool_fields td fd) by (unfold dict_get; now rewrite Hwrapped).
    rewrite (tool_fields fd fd) by (unfold dict_get; now rewrite Hbare).
    reflexivity.
  - intros fd name Hbare Hname.
    rewrite (tool_fields fd fd) by (unfold dict_get; now rewrite Hbare).
    unfold dict_getitem. rewrite Hname. cbn [rbind].
    now rewrite name_to_api.
  - intros tools out. unfold Provider._convert_tools. cbn [py_iter rbind].
    destruct (rmap Provider.convert_tool tools) as [converted|] eqn:Hmap;
      cbn [rbind]; [|discriminate].
    intros [= <-]. now apply rmap_length in Hmap.
Qed.

(** X13: a built request carries the model, [max_tokens] and
    [temperature] it was given; it has a [tools] field exactly when the
    tool list is non-empty, and then the field is the converted list: an
    empty list or no list leaves the field out. *)
Theorem X13_request_fields_and_optional_tools
    (messages : list dict) (tools : json) (model : string)
    (max_tokens temperature body : json) :
  Provider._build_body messages tools model max_tokens temperature = Ok body ->
  subscript body "model" = Ok (JStr model)
  /\ subscript body "max_tokens" = Ok max_tokens
  /\ subscript body "temperature" = Ok temperature
  /\ (truthy tools = false -> subscript body "tools" = Raise (KeyError "tools"))
  /\ (truthy tools = true ->
      exists converted,
        Provider._convert_tools tools = Ok converted
        /\ subscript body "tools" = Ok converted).
Proof.
  unfold Provider._build_body.
  destruct (Provider.build_loop messages [Provider.CLAUDE_CODE_SYSTEM_PREFIX] [])
    as [parts|]; cbn [rbind]; [|discriminate].
  destruct (truthy tools).
  - destruct (Provider._convert_tools tools) as [converted|]; cbn [rbind];
      [|discriminate].
    intros [= <-]. repeat split; try reflexivity; try discriminate.
    intros _. now exists converted.
  - intros [= <-]. repeat split; try reflexivity; discriminate.
Qed.

Lemma convert_assistant_role (msg : dict) (converted : json) :
  Provider._convert_assistant_msg msg = Ok converted ->
  subscript converted "role" = Ok (JStr "assistant").
Proof.
  unfold Provider._convert_assistant_msg.
  match goal with
  | |- (rbind ?m _ = _) -> _ => destruct m; cbn [rbind]; [|discriminate]
  end.
  now intros [= <-].
Qed.

Lemma build_loop_messages (messages : list dict) :
  forall (system_parts : list string) (anthropic_messages : list json)
         (parts : list string * list json),
    Provider.build_loop messages system_parts anthropic_messages = Ok parts ->
    exists new,
      snd parts = anthropic_messages ++ new
      /\ List.length new
         = List.length (filter (fun m => negb (is_system_message m)) messages)
      /\ Forall wire_role new.
Proof.
  induction messages as [|msg rest IH]; intros sp am parts;
    cbn [Provider.build_loop filter].
  - intros [= <-]. exists []. cbn. now rewrite app_nil_r.
  - unfold dict_getitem, is_system_message.
    destruct (dict_find msg "role") as [role|]; cbn [rbind]; [|discriminate].
    assert (Hstep : forall wire,
               wire_role wire ->
               Provider.build_loop rest sp (am ++ [wire]) = Ok parts ->
               exists new,
                 snd parts = am ++ new
                 /\ List.length new
                    = S (List.length
                           (filter (fun m => negb (is_system_message m)) rest))
                 /\ Forall wire_role new).
    { intros wire Hrole Hrun. destruct (IH _ _ _ Hrun) as (new & Hsnd & Hlen & Hall).
      exists (wire :: new). rewrite Hsnd, <- app_assoc. cbn.
      split; [reflexivity|]. split; [now rewrite Hlen | now constructor]. }
    destruct (py_eq role (JStr "system")) eqn:Hsys; cbn [negb].
    + destruct (dict_find msg "content") as [content|]; cbn [rbind]; [|discriminate].
      destruct content; apply IH.
    + destruct (py_eq role (JStr "tool")).
      { apply Hstep. now left. }
      destruct (py_eq role (JStr "assistant")).
      * destruct (Provider._convert_assistant_msg msg) as [converted|] eqn:Hconv;
          cbn [rbind]; [|discriminate].
        apply Hstep. right. now apply (convert_assistant_role msg).
      * destruct (dict_find msg "content") as [content|]; cbn [rbind];
          [|discriminate].
        apply Hstep. now left.
Qed.

(** X14: a built request has exactly one wire message for each message
    that is not a system message, and none for a system message; every wire
    message has the role [user] or [assistant] (a tool result goes out under
    the role [user]). *)
Theorem X14_one_wire_message_per_non_system_message
    (messages : list dict) (tools : json) (model : string)
    (max_tokens temperature body : json) :
  Provider._build_body messages tools model max_tokens temperature = Ok body ->
  exists wire : list json,
    subscript body "messages" = Ok (JArr wire)
    /\ List.length wire
       = List.length (filter (fun m => negb (is_system_message m)) messages)
    /\ Forall (fun m => subscript m "role" = Ok (JStr "user")
                        \/ subscript m "role" = Ok (JStr "assistant")) wire.
Proof.
  unfold Provider._build_body.
  destruct (Provider.build_loop messages [Provider.CLAUDE_CODE_SYSTEM_PREFIX] [])
    as [parts|] eqn:Hloop; cbn [rbind]; [|discriminate].
  destruct (build_loop_messages _ _ _ _ Hloop) as (new & Hsnd & Hlen & Hall).
  cbn [app] in Hsnd. rewrite Hsnd.
  destruct (truthy tools).
  - destruct (Provider._convert_tools tools); cbn [rbind]; [|discriminate].
    intros [= <-]. exists new. now repeat split.
  - intros [= <-]. exists new. now repeat split.
Qed.

(** X15: tool-call arguments that arrive as JSON text come back decoded.
    An assistant message with an optional text and one tool call whose
    arguments are a string that [json.loads] accepts, converted to wire
    format and parsed back as a response, gives one tool call with the same
    id, the decoded arguments and, for every name but [ReadFile], the same
    name. *)
Theorem X15_round_trip_decodes_text_arguments
    (msg : dict) (tc fn id decoded : json) (name arguments : string) :
  dict_get msg "tool_calls" JNull = JArr [tc] ->
  subscript tc "function" = Ok fn ->
  subscript fn "arguments" = Ok (JStr arguments) ->
  json_loads arguments = Some decoded ->
  subscript fn "name" = Ok (JStr name) ->
  subscript tc "id" = Ok id ->
  (dict_get msg "content" JNull = JNull
   \/ exists t, dict_get msg "content" JNull = JStr t) ->
  name <> "ReadFile" ->
  exists (blocks : list json) (resp : LLMResponse),
    Provider._convert_assistant_msg msg
    = Ok (JObj [("role", JStr "assistant"); ("content", JArr blocks)])
    /\ Provider._parse_response
         (JObj [("content", JArr blocks); ("stop_reason", JStr "tool_use")])
       = Ok resp
    /\ tool_calls resp
       = [{| tc_id := id; tc_name := JStr name; tc_arguments := decoded |}]
    /\ finish_reason resp = "tool_calls".
Proof.
  intros Htcs Hfn Hargs Hdec Hname Hid Hcontent Hne.
  set (block := JObj [("type", JStr "tool_use"); ("id", id);
                      ("name", JStr (to_api_name name)); ("input", decoded)]).
  assert (Hconv : Provider.convert_tool_call tc = Ok block).
  { unfold Provider.convert_tool_call.
    rewrite Hfn. cbn [rbind]. rewrite Hargs. cbn [rbind].
    unfold Provider.decode_arguments.
    rewrite (py_json_loads_some _ _ Hdec). cbn [rbind].
    rewrite Hname. cbn [rbind]. rewrite Hid. cbn [rbind].
    now rewrite name_to_api. }
  assert (Hread : reads_as block (WToolUse id (to_api_name name) decoded))
    by (now constructor).
  assert (Hback : from_api_name (to_api_name name) = name).
  { destruct (to_api_name_cases name) as [[-> ->] | [_ ->]]; [reflexivity|].
    destruct (from_api_name_cases name) as [[-> _] | [_ ->]];
      [congruence | reflexivity]. }
  unfold Provider._convert_assistant_msg. rewrite Htcs.
  cbn [truthy py_iter rbind rmap]. rewrite Hconv. cbn [rbind].
  assert (Hparse : forall (texts : list json) (shapes : list wire_block),
             Forall2 reads_as texts shapes ->
             block_calls shapes = [] ->
             exists resp,
               Provider._parse_response
                 (JObj [("content", JArr (texts ++ [block]));
                        ("stop_reason", JStr "tool_use")]) = Ok resp
               /\ tool_calls resp
                  = [{| tc_id := id; tc_name := JStr name;
                        tc_arguments := decoded |}]
               /\ finish_reason resp = "tool_calls").
  { intros texts shapes Htexts Hcalls.
    eexists. split.
    - apply (parse_response_read _ (texts ++ [block])
               (shapes ++ [WToolUse id (to_api_name name) decoded])
               "tool_calls").
      + reflexivity.
      + apply Forall2_app; [exact Htexts | now constructor].
      + reflexivity.
      + now apply usage_record_absent.
    - cbn [tool_calls finish_reason]. split; [|reflexivity].
      clear Htexts. revert Hcalls.
      induction shapes as [|shape shapes IH]; cbn [app block_calls].
      + intros _. now rewrite Hback.
      + destruct shape; try discriminate; exact IH. }
  destruct Hcontent as [Hc | (t & Hc)]; rewrite Hc; cbn [truthy].
  - destruct (Hparse [] [] (Forall2_nil _) eq_refl) as (resp & Hp & Hcalls & Hf).
    exists [block], resp. now repeat split.
  - destruct t as [|c t']; cbn [nonempty_str].
    + destruct (Hparse [] [] (Forall2_nil _) eq_refl) as (resp & Hp & Hcalls & Hf).
      exists [block], resp. now repeat split.
    + assert (Htext : reads_as
                        (JObj [("type", JStr "text"); ("text", JStr (String c t'))])
                        (WText (String c t'))) by (now constructor).
      destruct (Hparse _ [WText (String c t')]
                  (Forall2_cons _ _ Htext (Forall2_nil _)) eq_refl)
        as (resp & Hp & Hcalls & Hf).
      eexists. exists resp. split; [reflexivity|]. now repeat split.
Qed.

Lemma convert_tool_call_total (tc : json) :
  well_formed_tool_call tc ->
  exists block, Provider.convert_tool_call tc = Ok block.
Proof.
  intros (fn & args & name & id & Hfn & Hargs & Hdec & Hname & Hhash & Hid).
  unfold Provider.convert_tool_call.
  rewrite Hfn. cbn [rbind]. rewrite Hargs. cbn [rbind].
  assert (Hinput : exists input, Provider.decode_arguments args = Ok input).
  { destruct args as [| | |text| |]; cbn [Provider.decode_arguments]; eauto.
    specialize (Hdec text eq_refl). unfold decoded_or_rejected in Hdec.
    unfold py_json_loads.
    destruct (json_loads text) as [v|]; [eauto|]. rewrite Hdec. eauto. }
  destruct Hinput as (input & ->). cbn [rbind].
  rewrite Hname. cbn [rbind]. rewrite Hid. cbn [rbind].
  destruct name; try discriminate; cbn [Provider.name_map_get rbind]; eauto.
  destruct (Provider.assoc Provider._TOOL_NAME_TO_API s); cbn [rbind]; eauto.
Qed.

Lemma rmap_total {A B} (f : A -> result B) (P : A -> Prop) (l : list A) :
  (forall a, P a -> exists b, f a = Ok b) ->
  Forall P l ->
  exists out, rmap f l = Ok out.
Proof.
  intros Hf. induction 1 as [|a l Ha _ IH]; cbn [rmap]; [eauto|].
  destruct (Hf a Ha) as (b & ->). destruct IH as (bs & ->). cbn. eauto.
Qed.

Lemma build_loop_total (messages : list dict) :
  Forall well_formed_message messages ->
  forall (system_parts : list string) (anthropic_messages : list json),
    exists parts,
      Provider.build_loop messages system_parts anthropic_messages = Ok parts.
Proof.
  induction 1 as [|msg rest Hmsg _ IH]; intros sp am; cbn [Provider.build_loop];
    [eauto|].
  destruct Hmsg as (role & Hrole & Hwf).
  unfold dict_getitem. rewrite Hrole. cbn [rbind].
  destruct (py_eq role (JStr "system")).
  - destruct (dict_find msg "content") as [content|]; [|congruence].
    cbn [rbind]. destruct content; apply IH.
  - destruct (py_eq role (JStr "tool")); [apply IH|].
    destruct (py_eq role (JStr "assistant")).
    + assert (Hconv : exists converted,
                 Provider._convert_assistant_msg msg = Ok converted).
      { unfold Provider._convert_assistant_msg.
        destruct Hwf as [Hnone | (tcs & Htcs & Hall)].
        - rewrite Hnone. cbn [rbind]. eauto.
        - rewrite Htcs.
          destruct (rmap_total _ _ tcs convert_tool_call_total Hall) as (out & Hout).
          destruct (truthy (JArr tcs)); cbn [py_iter rbind];
            rewrite ?Hout; cbn [rbind]; eauto. }
      destruct Hconv as (converted & ->). cbn [rbind]. apply IH.
    + destruct (dict_find msg "content") as [content|]; [|congruence].
      cbn [rbind]. apply IH.
Qed.

Lemma convert_tool_total (tool : json) :
  well_formed_tool tool ->
  exists wire, Provider.convert_tool tool = Ok wire.
Proof.
  intros (td & fd & name & -> & Hfn & Hname & Hhash).
  rewrite (tool_fields td fd Hfn). unfold dict_getitem. rewrite Hname.
  cbn [rbind].
  destruct name; try discriminate; cbn [Provider.name_map_get rbind]; eauto.
  destruct (Provider.assoc Provider._TOOL_NAME_TO_API s); cbn [rbind]; eauto.
Qed.

(** X16: [_build_body] builds a request for every list of messages that
    have the keys it subscripts for their role (a role; a content for
    system, user and unknown roles; for an assistant, tool calls with id,
    function name and arguments, the arguments being no text on which
    [json.loads] raises anything but [JSONDecodeError]) and every list of
    tool definitions that have a name: on such input it raises nothing. *)
Theorem X16_request_built_for_well_formed_input
    (messages : list dict) (tools : json) (model : string)
    (max_tokens temperature : json) :
  Forall well_formed_message messages ->
  (truthy tools = false
   \/ exists defs, tools = JArr defs /\ Forall well_formed_tool defs) ->
  exists body,
    Provider._build_body messages tools model max_tokens temperature = Ok body.
Proof.
  intros Hmsgs Htools. unfold Provider._build_body.
  destruct (build_loop_total messages Hmsgs [Provider.CLAUDE_CODE_SYSTEM_PREFIX] [])
    as (parts & ->).
  cbn [rbind].
  destruct Htools as [-> | (defs & -> & Hdefs)]; [eauto|].
  unfold Provider._convert_tools. cbn [py_iter rbind].
  destruct (rmap_total _ _ defs convert_tool_total Hdefs) as (out & ->).
  cbn [rbind]. destruct (truthy (JArr defs)); eauto.
Qed.

Lemma after_slash_none (s : string) :
  no_slash s = true -> after_slash s = None.
Proof.
  induction s as [|c s IH]; cbn; [reflexivity|].
  intros Hs. apply andb_true_iff in Hs. destruct Hs as [Hc Hs].
  apply negb_true_iff in Hc. rewrite Hc. now apply IH.
Qed.

Lemma after_slash_prefix (provider rest : string) :
  no_slash provider = true ->
  after_slash (provider ++ String "/" rest)%string = Some rest.
Proof.
  induction provider as [|c provider IH]; cbn; [reflexivity|].
  intros Hs. apply andb_true_iff in Hs. destruct Hs as [Hc Hs].
  apply negb_true_iff in Hc. rewrite Hc. now apply IH.
Qed.

(** X17: the model name sent is what follows the first slash of the name
    asked for, whatever follows it; a name without a slash is sent as it
    is; no name, or an empty one, falls back to the provider's default
    model, and the default set at construction is stripped the same way. *)
Theorem X17_model_name_after_the_first_slash :
  (forall default provider name : string,
      no_slash provider = true ->
      Provider.resolve_model default (Some (provider ++ String "/" name)%string) = name)
  /\ (forall default model : string,
      no_slash model = true ->
      nonempty_str model = true ->
      Provider.resolve_model default (Some model) = model)
  /\ (forall default : string,
      Provider.resolve_model default None = strip_provider_prefix default
      /\ Provider.resolve_model default (Some EmptyString)
         = strip_provider_prefix default)
  /\ (forall (token : json) (provider name : string),
      no_slash provider = true ->
      default_model (Provider.init token (provider ++ String "/" name)%string) = name).
Proof.
  split; [|split; [|split]].
  - intros default provider name Hp. unfold Provider.resolve_model.
    assert (Hne : nonempty_str (provider ++ String "/" name)%string = true)
      by (now destruct provider).
    rewrite Hne. unfold strip_provider_prefix.
    now rewrite after_slash_prefix.
  - intros default model Hm Hne. unfold Provider.resolve_model.
    rewrite Hne. unfold strip_provider_prefix. now rewrite after_slash_none.
  - intros default. now split.
  - intros token provider name Hp. cbn. unfold strip_provider_prefix.
    now rewrite after_slash_prefix.
Qed.

End TranslationFacts.

(* ================================================================== *)
(** ** Further properties of the orchestrator *)

Section ChatFacts.
Context `{PyRuntime}.
Variable E : Env.

Lemma chat_unbuilt (messages : list dict) (tools : json) (model : option string)
    (max_tokens temperature : json) (s : PState) (e : exn) :
  Provider._build_body messages tools
    (Provider.resolve_model (default_model (self s)) model)
    max_tokens temperature = Raise e ->
  Provider.chat E messages tools model max_tokens temperature s = (Raise e, s).
Proof. intros Hbody. unfold Provider.chat. run. now rewrite Hbody. Qed.

Lemma chat_returns (messages : list dict) (tools : json) (model : option string)
    (max_tokens temperature body : json) (s : PState) :
  Provider._build_body messages tools
    (Provider.resolve_model (default_model (self s)) model)
    max_tokens temperature = Ok body ->
  exists resp,
    fst (Provider.chat E messages tools model max_tokens temperature s) = Ok resp.
Proof.
  intros Hbody.
  destruct (chat_run E messages tools model max_tokens temperature body s Hbody)
    as (new_token & w2 & evs & _ & _ & _ & _ & Hrun).
  cbv zeta in Hrun. rewrite Hrun.
  destruct (messages_endpoint E (sent (world s)) (oauth_token (self s)) body);
    [|cbn; eauto].
  destruct (status_code r =? 401); [|cbn; eauto].
  destruct (truthy new_token && negb (py_eq new_token (oauth_token (self s))));
    [|cbn; eauto].
  destruct (messages_endpoint E (S (sent (world s))) new_token body); cbn; eauto.
Qed.

(** X18: [chat] raises exactly when building the request raises, and then
    it raises that exception, sends nothing and changes nothing: everything
    that fails after the request was built comes back as a response. *)
Theorem X18_chat_raises_exactly_when_the_request_is_not_built
    (messages : list dict) (tools : json) (model : option string)
    (max_tokens temperature : json) (s : PState) (e : exn) :
  (fst (Provider.chat E messages tools model max_tokens temperature s) = Raise e
   <-> Provider._build_body messages tools
         (Provider.resolve_model (default_model (self s)) model)
         max_tokens temperature = Raise e)
  /\ (fst (Provider.chat E messages tools model max_tokens temperature s) = Raise e ->
      snd (Provider.chat E messages tools model max_tokens temperature s) = s).
Proof.
  destruct (Provider._build_body messages tools
              (Provider.resolve_model (default_model (self s)) model)
              max_tokens temperature) as [body|e0] eqn:Hbody.
  - destruct (chat_returns _ _ _ _ _ _ _ Hbody) as (resp & Hresp).
    rewrite Hresp. split; [split|]; intros; discriminate.
  - rewrite (chat_unbuilt _ _ _ _ _ _ _ Hbody). cbn [fst snd].
    split; [split; intros [= ->]; reflexivity | reflexivity].
Qed.

(** X19: a 200 answer is parsed: [chat] returns what [_parse_response]
    makes of the JSON body, having sent one request and touched neither the
    provider nor the store; a 200 whose body [json.loads] does not decode
    (whatever it raises), or whose JSON does not parse as a response, comes
    back as an error response. *)
Theorem X19_successful_answer_is_parsed
    (messages : list dict) (tools : json) (model : option string)
    (max_tokens temperature body : json) (s : PState) (r : Response) :
  Provider._build_body messages tools
    (Provider.resolve_model (default_model (self s)) model)
    max_tokens temperature = Ok body ->
  messages_endpoint E (sent (world s)) (oauth_token (self s)) body = Reply r ->
  status_code r = 200 ->
  let out := Provider.chat E messages tools model max_tokens temperature s in
  snd out = after_send (oauth_token (self s)) body s
  /\ (forall data resp,
        json_loads (text r) = Some data ->
        Provider._parse_response data = Ok resp ->
        fst out = Ok resp)
  /\ (forall data e,
        json_loads (text r) = Some data ->
        Provider._parse_response data = Raise e ->
        fst out = Ok (Provider.exception_response e))
  /\ (json_loads (text r) = None ->
      fst out = Ok (Provider.exception_response (json_loads_error (text r)))).
Proof.
  intros Hbody Hrep H200 out.
  destruct (chat_run E messages tools model max_tokens temperature body s Hbody)
    as (new_token & w2 & evs & _ & _ & _ & _ & Hrun).
  cbv zeta in Hrun. subst out. rewrite Hrun, Hrep, H200.
  cbn [Z.eqb Pos.eqb fst snd].
  unfold settle, Provider.conclude, response_json. rewrite H200.
  cbn [Z.eqb Pos.eqb negb].
  split; [reflexivity|]. split; [|split].
  - intros data resp Hdata Hparse.
    rewrite (py_json_loads_some _ _ Hdata). cbn [rbind].
    now rewrite Hparse.
  - intros data e Hdata Hparse.
    rewrite (py_json_loads_some _ _ Hdata). cbn [rbind].
    now rewrite Hparse.
  - intros Hdata. now rewrite (py_json_loads_none _ Hdata).
Qed.

(** X20: the token is re-resolved only after a 401.  When the first
    request fails in transport or is answered with any other status, the
    call consists of that one request: no resolution, no refresh, no store
    access, and the provider keeps its token. *)
Theorem X20_no_resolution_without_a_401
    (messages : list dict) (tools : json) (model : option string)
    (max_tokens temperature body : json) (s : PState) :
  Provider._build_body messages tools
    (Provider.resolve_model (default_model (self s)) model)
    max_tokens temperature = Ok body ->
  (forall r, messages_endpoint E (sent (world s)) (oauth_token (self s)) body
             = Reply r -> status_code r <> 401) ->
  snd (Provider.chat E messages tools model max_tokens temperature s)
  = after_send (oauth_token (self s)) body s
  /\ trace (world (snd (Provider.chat E messages tools model max_tokens temperature s)))
     = EvChatPost (oauth_token (self s)) body :: trace (world s).
Proof.
  intros Hbody Hno401.
  destruct (chat_run E messages tools model max_tokens temperature body s Hbody)
    as (new_token & w2 & evs & _ & _ & _ & _ & Hrun).
  cbv zeta in Hrun. rewrite Hrun.
  destruct (messages_endpoint E (sent (world s)) (oauth_token (self s)) body)
    as [r|e]; [|now split].
  specialize (Hno401 r eq_refl). apply Z.eqb_neq in Hno401. rewrite Hno401.
  now split.
Qed.

(** X21: [chat] keeps the provider consistent: the default model never
    changes, [api_key] stays equal to [oauth_token], and the token changes
    only together with a retry and only to a non-empty token. *)
Theorem X21_provider_token_changes_only_with_a_retry
    (messages : list dict) (tools : json) (model : option string)
    (max_tokens temperature : json) (s : PState) :
  let s' := snd (Provider.chat E messages tools model max_tokens temperature s) in
  default_model (self s') = default_model (self s)
  /\ (api_key (self s) = oauth_token (self s) ->
      api_key (self s') = oauth_token (self s'))
  /\ (oauth_token (self s') <> oauth_token (self s) ->
      truthy (oauth_token (self s')) = true
      /\ py_eq (oauth_token (self s')) (oauth_token (self s)) = false
      /\ sent (world s') = S (S (sent (world s)))).
Proof.
  cbv zeta.
  destruct (Provider._build_body messages tools
              (Provider.resolve_model (default_model (self s)) model)
              max_tokens temperature) as [body|e0] eqn:Hbody.
  - destruct (chat_run E messages tools model max_tokens temperature body s Hbody)
      as (new_token & w2 & evs & _ & Hsent & _ & _ & Hrun).
    cbv zeta in Hrun. rewrite Hrun.
    destruct (messages_endpoint E (sent (world s)) (oauth_token (self s)) body)
      as [r|e]; [|cbn; repeat split; auto; congruence].
    destruct (status_code r =? 401); [|cbn; repeat split; auto; congruence].
    destruct (truthy new_token && negb (py_eq new_token (oauth_token (self s))))
      eqn:Hretry; [|cbn; repeat split; auto; congruence].
    apply andb_true_iff in Hretry. destruct Hretry as [Ht Hne].
    apply negb_true_iff in Hne.
    destruct (messages_endpoint E (S (sent (world s))) new_token body);
      cbn [snd after_send self world with_token oauth_token api_key
           default_model sent set_sent];
      rewrite Hsent; repeat split; auto.
  - rewrite (chat_unbuilt _ _ _ _ _ _ _ Hbody). cbn [snd].
    repeat split; auto; congruence.
Qed.

End ChatFacts.

(* ================================================================== *)
(** ** Concrete runs *)

Section Runs.
#[local] Existing Instance ref_runtime.
Import Examples.

(** A valid token is returned after one reading of the clock. *)
Lemma C8_witness :
  Auth._extract_token (env unauthorized (fun _ => unauthorized))
    (document valid) "file" (state valid)
  = (Ok (JStr "old-access"), set_ticks 1 (state valid)).
Proof.
  apply (C8_valid_token_returned_without_refresh
           (env unauthorized (fun _ => unauthorized))
           (document valid) valid "file" (state valid) 2000000).
  - reflexivity.
  - reflexivity.
  - reflexivity.
  - cbn. lia.
Defined.

(** An expired record without a refresh token resolves to nothing, and
    nothing is called. *)
Lemma C10_witness :
  fst (Auth._extract_token (env unauthorized (fun _ => unauthorized))
         (document unrefreshable) "file" (state unrefreshable)) = Ok JNull
  /\ trace (snd (Auth._extract_token (env unauthorized (fun _ => unauthorized))
                   (document unrefreshable) "file" (state unrefreshable))) = [].
Proof.
  destruct (C10_expired_without_refresh_token
              (env unauthorized (fun _ => unauthorized))
              (document unrefreshable) unrefreshable "file" (state unrefreshable))
    as (Hfst & Htrace & _).
  - reflexivity.
  - reflexivity.
  - right. exists 1000. split; [reflexivity | cbn; lia].
  - split; [exact Hfst | exact Htrace].
Defined.

(** A refresh answered with 401 leaves the credentials file as it was. *)
Lemma C4_witness :
  fst (Auth._extract_token (env unauthorized (fun _ => unauthorized))
         (document stale) "file" (state stale)) = Ok JNull
  /\ creds_file (snd (Auth._extract_token (env unauthorized (fun _ => unauthorized))
                        (document stale) "file" (state stale)))
     = Some (RefCodec.dumps (document stale)).
Proof.
  destruct (C4_failed_refresh_leaves_store_untouched
              (env unauthorized (fun _ => unauthorized))
              (document stale) stale "file" (state stale))
    as (Hfst & _ & _ & Hfile & _).
  - reflexivity.
  - reflexivity.
  - right. exists 1000. split; [reflexivity | cbn; lia].
  - discriminate.
  - cbn. lia.
  - split; [exact Hfst | exact Hfile].
Defined.

(** C3 as stated fails when the new [access_token] is the empty string: the
    endpoint answers 200 with a body that contains [access_token], and the
    resolution yields no token instead of that one. *)
Lemma C3_counterexample_empty_access_token :
  let E := env (answer 200 empty_access_token) (fun _ => unauthorized) in
  oauth_record (document stale) = Some stale
  /\ truthy (refresh_token_of stale) = true
  /\ needs_refresh E (state stale) stale
  /\ token_endpoint E (Auth.refresh_payload (refresh_token_of stale))
     = answer 200 empty_access_token
  /\ json_loads (RefCodec.dumps empty_access_token)
     = Some (JObj [("access_token", JStr EmptyString)])
  /\ fst (Auth._extract_token E (document stale) "file" (state stale)) = Ok JNull
  /\ fst (Auth._extract_token E (document stale) "file" (state stale))
     <> Ok (JStr EmptyString).
Proof.
  cbv zeta.
  split; [reflexivity|]. split; [reflexivity|].
  split; [right; exists 1000; split; [reflexivity | cbn; lia]|].
  split; [reflexivity|].
  split; [vm_compute; reflexivity|].
  split; [vm_compute; reflexivity|].
  vm_compute. discriminate.
Qed.

(** A refresh with a new token: the token is returned and the file holds
    the updated document. *)
Lemma C3_witness :
  fst (Auth._extract_token (env (answer 200 refreshed) (fun _ => unauthorized))
         (document stale) "file" (state stale)) = Ok (JStr "new-access").
Proof.
  destruct (C3_refresh_updates_record_and_resolves
              (env (answer 200 refreshed) (fun _ => unauthorized))
              (document stale) stale "file" (state stale)
              {| status_code := 200; text := RefCodec.dumps refreshed |}
              [("access_token", JStr "new-access");
               ("expires_in", JNum 7200);
               ("scope", JStr "user:inference  user:profile")]
              (JStr "new-access") 7200)
    as (data' & oauth' & Hfst & _).
  - reflexivity.
  - reflexivity.
  - right. exists 1000. split; [reflexivity | cbn; lia].
  - discriminate.
  - reflexivity.
  - reflexivity.
  - vm_compute. reflexivity.
  - reflexivity.
  - reflexivity.
  - reflexivity.
  - right. now exists "user:inference  user:profile".
  - exact Hfst.
Defined.

(** C5 as stated fails for the body [{}]: it lacks [access_token], no token
    is resolved, and nothing is written to the store. *)
Lemma C5_counterexample_empty_body :
  let E := env (answer 200 (JObj [])) (fun _ => unauthorized) in
  json_loads (RefCodec.dumps (JObj [])) = Some (JObj [])
  /\ dict_find [] "access_token" = None
  /\ fst (Auth._extract_token E (document stale) "file" (state stale)) = Ok JNull
  /\ count is_store_write
       (trace (snd (Auth._extract_token E (document stale) "file" (state stale))))
     = 0%nat
  /\ creds_file (snd (Auth._extract_token E (document stale) "file" (state stale)))
     = creds_file (state stale).
Proof.
  cbv zeta. repeat split; vm_compute; reflexivity.
Qed.

(** A body without [access_token]: no token, and the file is overwritten
    with a record whose [accessToken] is null. *)
Lemma C5_witness :
  let out := Auth._extract_token
               (env (answer 200 no_access_token) (fun _ => unauthorized))
               (document stale) "file" (state stale) in
  fst out = Ok JNull
  /\ exists data' oauth',
      creds_file (snd out) = Some (RefCodec.dumps data')
      /\ oauth_record data' = Some oauth'
      /\ dict_find oauth' "accessToken" = Some JNull.
Proof.
  cbv zeta.
  destruct (C5_refresh_without_access_token_still_saves
              (env (answer 200 no_access_token) (fun _ => unauthorized))
              (document stale) stale "file" (state stale)
              {| status_code := 200; text := RefCodec.dumps no_access_token |}
              [("expires_in", JNum 60)] 60)
    as (data' & oauth' & Hfst & _ & Hfile & Hrec & Hat & _).
  - reflexivity.
  - reflexivity.
  - right. exists 1000. split; [reflexivity | cbn; lia].
  - discriminate.
  - reflexivity.
  - reflexivity.
  - vm_compute. reflexivity.
  - discriminate.
  - reflexivity.
  - reflexivity.
  - now left.
  - split; [exact Hfst|]. exists data', oauth'.
    split; [apply Hfile; reflexivity|]. split; [exact Hrec | exact Hat].
Defined.

(** C6 as stated fails for a system message whose content is not a string:
    the request is built, and that message is in none of its system
    blocks. *)
Lemma C6_counterexample_system_message_without_text :
  exists body,
    Provider._build_body
      [[("role", JStr "system"); ("content", JArr [JStr "Be concise."])]]
      JNull "claude" (JNum 4096) (JNum 1) = Ok body
    /\ subscript body "system"
       = Ok (JArr [Provider.text_block Provider.CLAUDE_CODE_SYSTEM_PREFIX]).
Proof. eexists. split; reflexivity. Qed.

(** System messages between other messages keep their order. *)
Lemma C6_witness :
  exists body,
    Provider._build_body
      [system_message "Be concise."; user_message "How far is the moon?";
       system_message "Use metric units."]
      JNull "claude" (JNum 4096) (JNum 1) = Ok body
    /\ subscript body "system"
       = Ok (JArr [Provider.text_block Provider.CLAUDE_CODE_SYSTEM_PREFIX;
                   Provider.text_block "Be concise.";
                   Provider.text_block "Use metric units."]).
Proof.
  eexists. split; [reflexivity|].
  apply (proj1 C6_system_blocks_prefix_then_messages_in_order
           [system_message "Be concise."; user_message "How far is the moon?";
            system_message "Use metric units."]
           JNull "claude" (JNum 4096) (JNum 1)).
  reflexivity.
Defined.

(** C7 as stated fails for a tool named [ReadFile]: it comes back as
    [read_file]. *)
Lemma C7_counterexample_wire_vocabulary_name :
  exists (blocks : list json) (resp : LLMResponse),
    Provider._convert_assistant_msg
      (assistant_message [tool_call "call-1" "ReadFile" (JObj [("x", JNum 1)])])
    = Ok (JObj [("role", JStr "assistant"); ("content", JArr blocks)])
    /\ Provider._parse_response
         (JObj [("content", JArr blocks); ("stop_reason", JStr "tool_use")])
       = Ok resp
    /\ tool_calls resp
       = [{| tc_id := JStr "call-1"; tc_name := JStr "read_file";
             tc_arguments := JObj [("x", JNum 1)] |}]
    /\ JStr "read_file" <> JStr "ReadFile".
Proof.
  eexists. eexists.
  split; [reflexivity|]. split; [reflexivity|]. split; [reflexivity|].
  discriminate.
Qed.

(** The renamed tool [read_file] comes back under its own name. *)
Lemma C7_witness :
  exists (blocks : list json) (resp : LLMResponse),
    Provider._convert_assistant_msg
      (assistant_message [tool_call "call-1" "read_file" (JObj [("x", JNum 1)])])
    = Ok (JObj [("role", JStr "assistant"); ("content", JArr blocks)])
    /\ Provider._parse_response
         (JObj [("content", JArr blocks); ("stop_reason", JStr "tool_use")])
       = Ok resp
    /\ tool_calls resp
       = [{| tc_id := JStr "call-1"; tc_name := JStr "read_file";
             tc_arguments := JObj [("x", JNum 1)] |}].
Proof.
  apply (C7_tool_call_round_trip
           (assistant_message [tool_call "call-1" "read_file" (JObj [("x", JNum 1)])])
           (tool_call "call-1" "read_file" (JObj [("x", JNum 1)]))
           (JObj [("name", JStr "read_file"); ("arguments", JObj [("x", JNum 1)])])
           (JStr "call-1") "read_file" [("x", JNum 1)]).
  - reflexivity.
  - reflexivity.
  - reflexivity.
  - reflexivity.
  - reflexivity.
  - now left.
  - discriminate.
Defined.



(** Two 401 in a row, with a refresh in between: two requests, one
    resolution, an error response. *)
Lemma C1_witness :
  let out := Provider.chat (env (answer 200 refreshed) (fun _ => unauthorized))
               [user_message "hello"] JNull None (JNum 4096) (JNum 1)
               (provider stale) in
  fst out
  = Ok (Provider.error_response
          (Provider.api_error_text {| status_code := 401; text := "token expired" |}))
  /\ (count is_chat_post (trace (world (snd out))) <= 2)%nat.
Proof.
  cbv zeta.
  destruct (C1_one_resolution_and_at_most_one_retry_on_401
              (env (answer 200 refreshed) (fun _ => unauthorized))
              [user_message "hello"] JNull None (JNum 4096) (JNum 1)
              (provider stale)) as [Hbound Hcase].
  split; [|exact Hbound].
  destruct (Hcase
              (JObj [("model", JStr "claude-sonnet-4-5-20250929");
                     ("max_tokens", JNum 4096);
                     ("temperature", JNum 1);
                     ("system",
                      JArr [Provider.text_block Provider.CLAUDE_CODE_SYSTEM_PREFIX]);
                     ("messages",
                      JArr [JObj [("role", JStr "user"); ("content", JStr "hello")]])])
              {| status_code := 401; text := "token expired" |}
              eq_refl eq_refl eq_refl)
    as (new_token & mid & Hres & _ & _ & [(_ & _ & Hout & _) | (_ & _ & _ & Hsecond)]).
  - exact Hout.
  - exact (proj1 (Hsecond {| status_code := 401; text := "token expired" |}
                    eq_refl eq_refl)).
Defined.

(** C2 as stated fails for a user message without [content]: building the
    request raises [KeyError], outside the [try] block, and [chat] raises
    it. *)
Lemma C2_counterexample_unbuilt_request_raises :
  fst (Provider.chat (env unauthorized (fun _ => overloaded))
         [[("role", JStr "user")]] JNull None (JNum 4096) (JNum 1)
         (provider valid))
  = Raise (KeyError "content").
Proof. reflexivity. Qed.

(** A 529 of the vendor is returned as an error response. *)
Lemma C2_witness :
  fst (Provider.chat (env unauthorized (fun _ => overloaded))
         [user_message "hello"] JNull None (JNum 4096) (JNum 1)
         (provider valid))
  = Ok (Provider.error_response
          (Provider.api_error_text {| status_code := 529; text := "overloaded" |})).
Proof.
  destruct (C2_failures_become_error_responses
              (env unauthorized (fun _ => overloaded))
              [user_message "hello"] JNull None (JNum 4096) (JNum 1)
              (JObj [("model", JStr "claude-sonnet-4-5-20250929");
                     ("max_tokens", JNum 4096);
                     ("temperature", JNum 1);
                     ("system",
                      JArr [Provider.text_block Provider.CLAUDE_CODE_SYSTEM_PREFIX]);
                     ("messages",
                      JArr [JObj [("role", JStr "user"); ("content", JStr "hello")]])])
              (provider valid) eq_refl)
    as (_ & _ & Hstatus & _).
  apply (Hstatus {| status_code := 529; text := "overloaded" |}).
  - reflexivity.
  - cbn. lia.
  - cbn. lia.
Defined.

(** Without a credentials file the resolution gives nothing. *)
Lemma X2_witness :
  Auth.get_claude_code_token (env unauthorized (fun _ => unauthorized)) logged_out
  = (Ok JNull, log EvResolve logged_out).
Proof.
  apply (X2_unreadable_store_resolves_to_nothing
           (env unauthorized (fun _ => unauthorized)) logged_out).
  cbn. now left.
Defined.

(** A credentials file that holds a JSON array. *)
Lemma X3_witness :
  fst (Auth.get_claude_code_token (env unauthorized (fun _ => unauthorized))
         (state_holding (JArr [JNum 1]))) = Ok JNull.
Proof.
  apply (X3_malformed_document_resolves_to_nothing
           (env unauthorized (fun _ => unauthorized))
           (state_holding (JArr [JNum 1])) (JArr [JNum 1]) "file").
  - right. repeat split.
    exists (RefCodec.dumps (JArr [JNum 1])). split; [reflexivity|].
    vm_compute. reflexivity.
  - now left.
Defined.

(** A disk that fills up: the new token is returned, and the credentials
    file, opened and truncated by the write that failed, is left empty. *)
Lemma X4_witness :
  fst (Auth._extract_token (full_disk_env (answer 200 refreshed) (fun _ => unauthorized))
         (document stale) "file" (state stale)) = Ok (JStr "new-access")
  /\ creds_file
       (snd (Auth._extract_token
               (full_disk_env (answer 200 refreshed) (fun _ => unauthorized))
               (document stale) "file" (state stale)))
     = Some EmptyString.
Proof.
  destruct (X4_failed_write_back_still_resolves
              (full_disk_env (answer 200 refreshed) (fun _ => unauthorized))
              (document stale) stale "file" (state stale)
              {| status_code := 200; text := RefCodec.dumps refreshed |}
              [("access_token", JStr "new-access");
               ("expires_in", JNum 7200);
               ("scope", JStr "user:inference  user:profile")]
              (JStr "new-access") 7200)
    as (Hfst & _ & Hfile & _).
  - reflexivity.
  - reflexivity.
  - right. exists 1000. split; [reflexivity | cbn; lia].
  - discriminate.
  - reflexivity.
  - reflexivity.
  - vm_compute. reflexivity.
  - reflexivity.
  - reflexivity.
  - reflexivity.
  - right. now exists "user:inference  user:profile".
  - reflexivity.
  - reflexivity.
  - split; [exact Hfst | exact Hfile].
Defined.

(** After a refresh, the next resolution returns the new token from the
    file. *)
Lemma X6_witness :
  exists w' : State,
    Auth.get_claude_code_token (env (answer 200 refreshed) (fun _ => unauthorized))
      (state stale) = (Ok (JStr "new-access"), w')
    /\ Auth.get_claude_code_token (env (answer 200 refreshed) (fun _ => unauthorized)) w'
       = (Ok (JStr "new-access"), set_ticks (S (ticks w')) (log EvResolve w')).
Proof.
  destruct (X6_next_resolution_uses_saved_token
              (env (answer 200 refreshed) (fun _ => unauthorized))
              (document stale) stale (state stale)
              {| status_code := 200; text := RefCodec.dumps refreshed |}
              [("access_token", JStr "new-access");
               ("expires_in", JNum 7200);
               ("scope", JStr "user:inference  user:profile")]
              (JStr "new-access") 7200)
    as (w' & Hfirst & _ & Hsecond).
  - right. repeat split.
    exists (RefCodec.dumps (document stale)). split; [reflexivity|].
    vm_compute. reflexivity.
  - reflexivity.
  - reflexivity.
  - reflexivity.
  - right. exists 1000. split; [reflexivity | cbn; lia].
  - discriminate.
  - reflexivity.
  - reflexivity.
  - vm_compute. reflexivity.
  - reflexivity.
  - reflexivity.
  - reflexivity.
  - right. now exists "user:inference  user:profile".
  - vm_compute. reflexivity.
  - cbn. lia.
  - exists w'. split; [exact Hfirst | exact Hsecond].
Defined.

(** Texts around a thinking block and a tool use, in a response that
    reports its usage. *)
Lemma X9_witness :
  Provider._parse_response
    (JObj (mixed_response
           ++ [("usage", JObj [("input_tokens", JNum 12);
                               ("output_tokens", JNum 30)])]))
  = Ok {| content := Some ("Reading the file." ++ newline ++ "One moment.")%string;
          tool_calls :=
            [{| tc_id := JStr "toolu-1"; tc_name := JStr "read_file";
                tc_arguments := JObj [("path", JStr "a.txt")] |}];
          finish_reason := "tool_calls";
          usage := [("prompt_tokens", JNum 12); ("completion_tokens", JNum 30);
                    ("total_tokens", JNum 42)] |}.
Proof.
  apply (X9_parse_response_partitions_blocks_in_order
           (mixed_response
            ++ [("usage", JObj [("input_tokens", JNum 12);
                                ("output_tokens", JNum 30)])])
           [text_content "Reading the file."; thinking_content;
            tool_use_content "toolu-1" "ReadFile" (JObj [("path", JStr "a.txt")]);
            text_content "One moment."]
           [WText "Reading the file."; WOther;
            WToolUse (JStr "toolu-1") "ReadFile" (JObj [("path", JStr "a.txt")]);
            WText "One moment."]
           "tool_calls"
           [("prompt_tokens", JNum 12); ("completion_tokens", JNum 30);
            ("total_tokens", JNum 42)]).
  - reflexivity.
  - repeat constructor.
    apply (reads_other thinking_content (JStr "thinking")); reflexivity.
  - reflexivity.
  - reflexivity.
Defined.

Lemma X10_witness :
  exists resp,
    Provider._parse_response (JObj metered_response) = Ok resp
    /\ finish_reason resp = "length".
Proof.
  eexists. split; [reflexivity|].
  apply (X10_finish_reason_of_a_parsed_response metered_response _ eq_refl).
  reflexivity.
Defined.

Lemma X11_witness :
  exists resp,
    Provider._parse_response (JObj metered_response) = Ok resp
    /\ usage resp
       = [("prompt_tokens", JNum 12); ("completion_tokens", JNum 30);
          ("total_tokens", JNum 42)].
Proof.
  eexists. split; [reflexivity|].
  apply (proj2 (X11_usage_of_a_parsed_response metered_response _ eq_refl)
           [("input_tokens", JNum 12); ("output_tokens", JNum 30)] 12 30);
    reflexivity.
Defined.

(** No tool list, no [tools] field. *)
Lemma X13_witness :
  exists body,
    Provider._build_body conversation (JArr []) "claude" (JNum 4096) (JNum 1) = Ok body
    /\ subscript body "tools" = Raise (KeyError "tools").
Proof.
  assert (Hbuilt : exists body,
             Provider._build_body conversation (JArr []) "claude" (JNum 4096) (JNum 1)
             = Ok body) by (eexists; vm_compute; reflexivity).
  destruct Hbuilt as (body & Hbody).
  destruct (X13_request_fields_and_optional_tools
              conversation (JArr []) "claude" (JNum 4096) (JNum 1) body Hbody)
    as (_ & _ & _ & Hnone & _).
  exists body. split; [exact Hbody | exact (Hnone eq_refl)].
Defined.

(** Five messages, one of them a system message: four wire messages. *)
Lemma X14_witness :
  exists body wire,
    Provider._build_body conversation JNull "claude" (JNum 4096) (JNum 1) = Ok body
    /\ subscript body "messages" = Ok (JArr wire)
    /\ List.length wire = 4%nat.
Proof.
  assert (Hbuilt : exists body,
             Provider._build_body conversation JNull "claude" (JNum 4096) (JNum 1)
             = Ok body) by (eexists; vm_compute; reflexivity).
  destruct Hbuilt as (body & Hbody).
  destruct (X14_one_wire_message_per_non_system_message
              conversation JNull "claude" (JNum 4096) (JNum 1) body Hbody)
    as (wire & Hwire & Hlen & _).
  exists body, wire. split; [exact Hbody|]. split; [exact Hwire | exact Hlen].
Defined.

(** Arguments sent as the text of [{"x": 1}] come back as the object. *)
Lemma X15_witness :
  exists (blocks : list json) (resp : LLMResponse),
    Provider._convert_assistant_msg
      (assistant_message
         [tool_call "call-1" "read_file"
            (JStr (RefCodec.dumps (JObj [("x", JNum 1)])))])
    = Ok (JObj [("role", JStr "assistant"); ("content", JArr blocks)])
    /\ Provider._parse_response
         (JObj [("content", JArr blocks); ("stop_reason", JStr "tool_use")])
       = Ok resp
    /\ tool_calls resp
       = [{| tc_id := JStr "call-1"; tc_name := JStr "read_file";
             tc_arguments := JObj [("x", JNum 1)] |}]
    /\ finish_reason resp = "tool_calls".
Proof.
  apply (X15_round_trip_decodes_text_arguments
           (assistant_message
              [tool_call "call-1" "read_file"
                 (JStr (RefCodec.dumps (JObj [("x", JNum 1)])))])
           (tool_call "call-1" "read_file"
              (JStr (RefCodec.dumps (JObj [("x", JNum 1)]))))
           (JObj [("name", JStr "read_file");
                  ("arguments", JStr (RefCodec.dumps (JObj [("x", JNum 1)])))])
           (JStr "call-1") (JObj [("x", JNum 1)]) "read_file"
           (RefCodec.dumps (JObj [("x", JNum 1)]))).
  - reflexivity.
  - reflexivity.
  - reflexivity.
  - vm_compute. reflexivity.
  - reflexivity.
  - reflexivity.
  - now left.
  - discriminate.
Defined.

(** The example conversation and one tool definition are built. *)
Lemma X16_witness :
  exists body,
    Provider._build_body conversation (JArr [read_file_tool]) "claude"
      (JNum 4096) (JNum 1) = Ok body.
Proof.
  apply X16_request_built_for_well_formed_input.
  - unfold conversation.
    repeat (apply Forall_cons || apply Forall_nil).
    + exists (JStr "system"). split; [reflexivity|]. cbn. discriminate.
    + exists (JStr "user"). split; [reflexivity|]. cbn. discriminate.
    + exists (JStr "assistant"). split; [reflexivity|]. cbn. right.
      eexists. split; [reflexivity|].
      apply Forall_cons; [|apply Forall_nil].
      exists (JObj [("name", JStr "read_file"); ("arguments", JStr "{}")]),
        (JStr "{}"), (JStr "read_file"), (JStr "call-1").
      split; [reflexivity|]. split; [reflexivity|].
      split; [intros s [= <-]; vm_compute; exact I|].
      split; [reflexivity|]. split; reflexivity.
    + exists (JStr "tool"). split; [reflexivity|]. cbn. exact I.
    + exists (JStr "user"). split; [reflexivity|]. cbn. discriminate.
  - right. eexists. split; [reflexivity|].
    apply Forall_cons; [|apply Forall_nil].
    eexists. eexists. exists (JStr "read_file").
    split; [reflexivity|]. split; [reflexivity|]. split; reflexivity.
Defined.

(** A 200 with a text block. *)
Lemma X19_witness :
  fst (Provider.chat (env unauthorized (fun _ => hello_answer))
         [user_message "hello"] JNull None (JNum 4096) (JNum 1) (provider valid))
  = Ok {| content := Some "Hello."; tool_calls := [];
          finish_reason := "stop"; usage := [] |}.
Proof.
  destruct (X19_successful_answer_is_parsed
              (env unauthorized (fun _ => hello_answer))
              [user_message "hello"] JNull None (JNum 4096) (JNum 1)
              (JObj [("model", JStr "claude-sonnet-4-5-20250929");
                     ("max_tokens", JNum 4096);
                     ("temperature", JNum 1);
                     ("system",
                      JArr [Provider.text_block Provider.CLAUDE_CODE_SYSTEM_PREFIX]);
                     ("messages",
                      JArr [JObj [("role", JStr "user"); ("content", JStr "hello")]])])
              (provider valid)
              {| status_code := 200;
                 text := RefCodec.dumps
                           (JObj [("content", JArr [text_content "Hello."]);
                                  ("stop_reason", JStr "end_turn")]) |}
              eq_refl eq_refl eq_refl)
    as (_ & Hparsed & _).
  apply (Hparsed (JObj [("content", JArr [text_content "Hello."]);
                        ("stop_reason", JStr "end_turn")])).
  - vm_compute. reflexivity.
  - reflexivity.
Defined.

(** A 529: one request and nothing else. *)
Lemma X20_witness :
  trace (world (snd (Provider.chat (env unauthorized (fun _ => overloaded))
                       [user_message "hello"] JNull None (JNum 4096) (JNum 1)
                       (provider valid))))
  = [EvChatPost (JStr "old-access")
       (JObj [("model", JStr "claude-sonnet-4-5-20250929");
              ("max_tokens", JNum 4096);
              ("temperature", JNum 1);
              ("system",
               JArr [Provider.text_block Provider.CLAUDE_CODE_SYSTEM_PREFIX]);
              ("messages",
               JArr [JObj [("role", JStr "user"); ("content", JStr "hello")]])])].
Proof.
  apply (X20_no_resolution_without_a_401
           (env unauthorized (fun _ => overloaded))
           [user_message "hello"] JNull None (JNum 4096) (JNum 1)).
  - reflexivity.
  - intros r [= <-]. cbn. lia.
Defined.

End Runs.
